(** * Sistema de Pedidos: authorization, order states and price derivation

    A shallow embedding of the FastAPI / SQLAlchemy order backend
    (models.py, schemas.py, auth_routes.py, order_routes.py).

    - Table rows are records; a table is the list of its rows in rowid
      order; the database is the three tables.
    - [Float] columns and Python floats are IEEE binary64 numbers: Rocq's
      primitive [float].
    - A route handler runs inside one SQLAlchemy session.  The session is
      modelled as a unit of work (pending inserts, attribute changes and
      deletes) over the rows its transaction sees, next to the rows of the
      last commit.  A handler is a state-passing function on the session
      that returns a value, raises an [HTTPException], or ends in another
      Python exception.  What FastAPI then does with a returned value
      (encoding it by the response model of the route) is not modelled.
    - The integers and floats of a request are Python's, unbounded and
      with a signed zero; the columns are SQLite's, signed 64-bit integers
      and reals that hold no negative zero.  The model keeps the
      difference where a request meets the database.
    - Token signing and password hashing are library capabilities: they
      are parameters of the development, and either can raise. *)

From Stdlib Require Import ZArith List String Ascii Bool Lia.
From Stdlib Require Import Floats.PrimFloat Floats.SpecFloat Floats.FloatOps.
From Stdlib Require Import DecimalString DecimalFacts DecimalZ.
Import ListNotations.

Local Open Scope string_scope.
Local Open Scope Z_scope.

(** ** models.py: the rows *)

Module Usuario.
Record t : Type := Build {
  id : Z;
  nome : string;
  email : string;
  senha : string;
  ativo : bool;
  admin : bool
}.

(** [Usuario.__init__]; the key is assigned by the INSERT, and reads 0
    until then. *)
Definition init (nome email senha : string) (ativo admin : bool) : t :=
  Build 0 nome email senha ativo admin.

Definition com_id (i : Z) (u : t) : t :=
  Build i (nome u) (email u) (senha u) (ativo u) (admin u).

Definition com_ativo (b : bool) (u : t) : t :=
  Build (id u) (nome u) (email u) (senha u) b (admin u).
End Usuario.

Module Pedido.
Record t : Type := Build {
  id : Z;
  status : string;
  usuario : Z;
  preco : float
}.

(** [Pedido.__init__(usuario, status="PENDENTE", preco=0)]. *)
Definition init (usuario : Z) : t := Build 0 "PENDENTE" usuario 0%float.

Definition com_id (i : Z) (p : t) : t :=
  Build i (status p) (usuario p) (preco p).

Definition com_status (s : string) (p : t) : t :=
  Build (id p) s (usuario p) (preco p).

Definition com_preco (x : float) (p : t) : t :=
  Build (id p) (status p) (usuario p) x.
End Pedido.

Module ItemPedido.
Record t : Type := Build {
  id : Z;
  quantidade : Z;
  sabor : string;
  tamanho : string;
  preco_unitario : float;
  pedido : Z
}.

(** [ItemPedido.__init__]. *)
Definition init (quantidade : Z) (sabor tamanho : string)
    (preco_unitario : float) (pedido : Z) : t :=
  Build 0 quantidade sabor tamanho preco_unitario pedido.
End ItemPedido.

(** ** schemas.py: request and response bodies *)

Record UsuarioSchema : Type := {
  us_nome : string;
  us_email : string;
  us_senha : string;
  us_ativo : option bool
}.

Record LoginSchema : Type := {
  ls_email : string;
  ls_senha : string
}.

Record ItemPedidoSchema : Type := {
  is_quantidade : Z;
  is_sabor : string;
  is_tamanho : string;
  is_preco_unitario : float
}.

(** [quantidade: int = Field(..., ge=1)] and
    [preco_unitario: float = Field(..., ge=0)]: the constraints that
    pydantic checks on a body; no float that is not a number passes the
    second, and the negative zero does. *)
Definition corpo_valido (item_schema : ItemPedidoSchema) : bool :=
  (1 <=? is_quantidade item_schema)
  && PrimFloat.leb 0 (is_preco_unitario item_schema).

Record TokenSchema : Type := {
  access_token : string;
  refresh_token : option string;
  token_type : string
}.

(** ** The database *)

Record Banco : Type := {
  usuarios : list Usuario.t;
  pedidos : list Pedido.t;
  itens_pedido : list ItemPedido.t
}.

Definition banco_vazio : Banco :=
  {| usuarios := []; pedidos := []; itens_pedido := [] |}.

(** An integer primary key of SQLite: one more than the largest key of
    the table, 1 for an empty table. *)
Definition novo_id (ids : list Z) : Z := 1 + fold_right Z.max 0 ids.

(** A new object of one of the three mapped classes. *)
Inductive Objeto : Type :=
| ObjUsuario (u : Usuario.t)
| ObjPedido (p : Pedido.t)
| ObjItem (i : ItemPedido.t).

(** The INTEGER of SQLite is a signed 64-bit integer: the driver binds a
    Python int of that range and raises [OverflowError] for any other. *)
Definition int64 (n : Z) : bool :=
  (-9223372036854775808 <=? n) && (n <=? 9223372036854775807).

(** The REAL of SQLite is a binary64 number, but a zero is stored as the
    integer 0 and read back as 0.0, whatever its sign. *)
Definition sqlite_real (x : float) : float :=
  if PrimFloat.eqb x 0 then 0%float else x.

(** Whether the INSERT of a new object can bind its values.  Of the
    integers that the routes insert, only the quantity of an item comes
    from a request; the owners and the parent keys are keys of rows.
    (The price of an item that a route inserts is a number: its body
    passed [corpo_valido].) *)
Definition armazenavel (o : Objeto) : bool :=
  match o with
  | ObjItem i => int64 (ItemPedido.quantidade i)
  | _ => true
  end.

(** The row of a new item: the INSERT assigns its key and stores its
    price. *)
Definition linha_do_item (chave : Z) (i : ItemPedido.t) : ItemPedido.t :=
  ItemPedido.Build chave (ItemPedido.quantidade i) (ItemPedido.sabor i)
    (ItemPedido.tamanho i) (sqlite_real (ItemPedido.preco_unitario i))
    (ItemPedido.pedido i).

(** INSERT: the row goes to the end of its table under a fresh key. *)
Definition inserir (b : Banco) (o : Objeto) : Banco :=
  match o with
  | ObjUsuario u =>
      {| usuarios :=
           usuarios b
           ++ [Usuario.com_id (novo_id (map Usuario.id (usuarios b))) u];
         pedidos := pedidos b;
         itens_pedido := itens_pedido b |}
  | ObjPedido p =>
      {| usuarios := usuarios b;
         pedidos :=
           pedidos b
           ++ [Pedido.com_id (novo_id (map Pedido.id (pedidos b))) p];
         itens_pedido := itens_pedido b |}
  | ObjItem i =>
      {| usuarios := usuarios b;
         pedidos := pedidos b;
         itens_pedido :=
           itens_pedido b
           ++ [linha_do_item
                 (novo_id (map ItemPedido.id (itens_pedido b))) i] |}
  end.

(** UPDATE pedidos SET ... WHERE id = p.id. *)
Definition atualizar (b : Banco) (p : Pedido.t) : Banco :=
  {| usuarios := usuarios b;
     pedidos :=
       map (fun r => if Pedido.id r =? Pedido.id p then p else r) (pedidos b);
     itens_pedido := itens_pedido b |}.

(** DELETE FROM itens_pedido WHERE id = i.id. *)
Definition apagar (b : Banco) (i : ItemPedido.t) : Banco :=
  {| usuarios := usuarios b;
     pedidos := pedidos b;
     itens_pedido :=
       filter (fun r => negb (ItemPedido.id r =? ItemPedido.id i))
         (itens_pedido b) |}.

(** The queries the routes issue, on the rows a transaction sees. *)
Definition pedido_por_id (b : Banco) (id_pedido : Z) : option Pedido.t :=
  find (fun p => Pedido.id p =? id_pedido) (pedidos b).

Definition item_por_id (b : Banco) (id_item : Z) : option ItemPedido.t :=
  find (fun i => ItemPedido.id i =? id_item) (itens_pedido b).

Definition usuario_por_email (b : Banco) (email : string)
    : option Usuario.t :=
  find (fun u => String.eqb (Usuario.email u) email) (usuarios b).

Definition usuario_por_id (b : Banco) (id_usuario : Z) : option Usuario.t :=
  find (fun u => Usuario.id u =? id_usuario) (usuarios b).

Definition pedidos_do_usuario (b : Banco) (id_usuario : Z) : list Pedido.t :=
  filter (fun p => Pedido.usuario p =? id_usuario) (pedidos b).

(** The rows behind the relationship [Pedido.itens]. *)
Definition itens_de (b : Banco) (id_pedido : Z) : list ItemPedido.t :=
  filter (fun i => ItemPedido.pedido i =? id_pedido) (itens_pedido b).

(** ** The session: a unit of work *)

Record Session : Type := {
  gravado : Banco;             (* the rows of the last commit *)
  visivel : Banco;             (* the rows the open transaction sees *)
  new : list Objeto;           (* session.add: not inserted yet *)
  dirty : list Pedido.t;       (* loaded orders whose attributes were set *)
  deleted : list ItemPedido.t  (* session.delete: not deleted yet *)
}.

(** Modelled from the spec: dependencies.py, which defines [pegar_sessao]
    (and [verificar_token]), is not among the sources.  Every call works
    on the stored state through a session of its own, with nothing cached
    from earlier calls, and what a call inserts or deletes is part of the
    item set its price recomputation reads: a fresh session of
    SQLAlchemy's default [sessionmaker], autoflush on, closed when the
    request ends. *)
Definition pegar_sessao (b : Banco) : Session :=
  {| gravado := b; visivel := b; new := []; dirty := []; deleted := [] |}.

(** The pending work reaches the transaction: inserts, then updates,
    then deletes.  [None] where an INSERT cannot bind a value: the driver
    raises [OverflowError] and nothing of the flush is kept. *)
Definition flush (s : Session) : option Session :=
  if forallb armazenavel (new s) then
    Some {| gravado := gravado s;
            visivel :=
              fold_left apagar (deleted s)
                (fold_left atualizar (dirty s)
                   (fold_left inserir (new s) (visivel s)));
            new := []; dirty := []; deleted := [] |}
  else None.

(** What a handler can end with: a value, an [HTTPException], or
    another Python exception.  [Excecao e] names the exception by its
    type where the session, FastAPI or a built-in raised it, and by what
    [str] gives for it where a library raised it (the only exceptions that
    a handler of this code reads).  FastAPI answers 422 to
    [RequestValidationError] and 500 to any other. *)
Inductive Resultado (A : Type) : Type :=
| Retorno (a : A)
| HTTPException (status_code : Z) (detail : string)
    (headers : list (string * string))
| Excecao (e : string).

Arguments Retorno {A} a.
Arguments HTTPException {A} status_code detail headers.
Arguments Excecao {A} e.

Definition Rota (A : Type) : Type := Session -> Resultado A * Session.

Definition ret {A : Type} (a : A) : Rota A := fun s => (Retorno a, s).

Definition bind {A B : Type} (m : Rota A) (k : A -> Rota B) : Rota B :=
  fun s =>
    match m s with
    | (Retorno a, s') => k a s'
    | (HTTPException c d h, s') => (HTTPException c d h, s')
    | (Excecao e, s') => (Excecao e, s')
    end.

Definition raise {A : Type} (status_code : Z) (detail : string) : Rota A :=
  fun s => (HTTPException status_code detail [], s).

Definition raise_com_headers {A : Type} (status_code : Z) (detail : string)
    (headers : list (string * string)) : Rota A :=
  fun s => (HTTPException status_code detail headers, s).

Definition excecao {A : Type} (e : string) : Rota A :=
  fun s => (Excecao e, s).

Declare Scope rota_scope.
Delimit Scope rota_scope with rota.
Notation "x <- m ;; k" := (bind m (fun x => k))
  (at level 61, m at next level, right associativity) : rota_scope.
Notation "m ;; k" := (bind m (fun _ => k))
  (at level 61, right associativity) : rota_scope.
Local Open Scope rota_scope.

(** A query flushes the session first (autoflush), then reads. *)
Definition query {A : Type} (q : Banco -> A) : Rota A :=
  fun s =>
    match flush s with
    | Some s' => (Retorno (q (visivel s')), s')
    | None => (Excecao "OverflowError", s)
    end.

(** [query(...).filter(<key column> == chave).first()] for a key that
    comes from the request.  The key is bound like any integer: outside
    the signed 64-bit range the driver raises [OverflowError], before
    the query runs.  Every key of a row is in that range, so a key
    outside it finds no row: the model looks the row up first and tells
    the two ways of finding none apart by the range. *)
Definition query_por_chave {A : Type} (chave : Z) (q : Banco -> option A)
    : Rota (option A) :=
  fun s =>
    match query q s with
    | (Retorno None, s') =>
        if int64 chave then (Retorno None, s')
        else (Excecao "OverflowError", s')
    | r => r
    end.

Definition add (o : Objeto) : Rota unit :=
  fun s =>
    (Retorno tt,
     {| gravado := gravado s; visivel := visivel s;
        new := new s ++ [o]; dirty := dirty s; deleted := deleted s |}).

Definition delete (i : ItemPedido.t) : Rota unit :=
  fun s =>
    (Retorno tt,
     {| gravado := gravado s; visivel := visivel s;
        new := new s; dirty := dirty s; deleted := deleted s ++ [i] |}).

(** An attribute of a loaded order is assigned: the object, as it now
    is, waits for the next flush. *)
Definition atribuir (p : Pedido.t) : Rota Pedido.t :=
  fun s =>
    (Retorno p,
     {| gravado := gravado s; visivel := visivel s;
        new := new s; dirty := dirty s ++ [p]; deleted := deleted s |}).

Definition commit : Rota unit :=
  fun s =>
    match flush s with
    | Some s' =>
        (Retorno tt,
         {| gravado := visivel s'; visivel := visivel s';
            new := []; dirty := []; deleted := [] |})
    | None => (Excecao "OverflowError", s)
    end.

(** [session.refresh(pedido)]: the row is read again by its key. *)
Definition refresh (p : Pedido.t) : Rota Pedido.t :=
  fun s =>
    match pedido_por_id (visivel s) (Pedido.id p) with
    | Some p' => (Retorno p', s)
    | None => (Excecao "InvalidRequestError", s)
    end.

(** [session.refresh] of an object this session has just inserted: its
    row is the last of the table. *)
Definition refresh_novo_pedido : Rota Pedido.t :=
  fun s =>
    match rev (pedidos (visivel s)) with
    | p :: _ => (Retorno p, s)
    | [] => (Excecao "InvalidRequestError", s)
    end.

Definition refresh_novo_usuario : Rota Usuario.t :=
  fun s =>
    match rev (usuarios (visivel s)) with
    | u :: _ => (Retorno u, s)
    | [] => (Excecao "InvalidRequestError", s)
    end.

(** One request: the handler runs in a fresh session; what was not
    committed when it ends is lost with the session. *)
Definition executar {A : Type} (rota : Rota A) (b : Banco)
    : Resultado A * Banco :=
  let (r, s) := rota (pegar_sessao b) in (r, gravado s).

(** ** models.py: [Pedido.calcular_preco] *)

(** A Python int as the float that [float * int] multiplies by: the
    nearest binary64 number, ties to even.  (Python raises
    [OverflowError] for an int beyond the binary64 range, where this gives
    an infinity; the quantity of a row is a signed 64-bit integer.) *)
Definition float_de_int (n : Z) : float :=
  SF2Prim (binary_normalize prec emax n 0 false).

(** Python's [sum]: left to right, starting from 0.  (From CPython 3.12
    on, [sum] also carries a correction for the rounding errors of the
    additions; it is zero as long as they are exact.) *)
Definition sum (xs : list float) : float := fold_left PrimFloat.add xs 0%float.

(** [sum(item.preco_unitario * item.quantidade for item in itens)]. *)
Definition total_itens (itens : list ItemPedido.t) : float :=
  sum (map (fun item =>
              PrimFloat.mul (ItemPedido.preco_unitario item)
                (float_de_int (ItemPedido.quantidade item)))
         itens).

(** [self.itens] is loaded lazily, by a query, at its first use. *)
Definition Pedido_itens (self : Pedido.t) : Rota (list ItemPedido.t) :=
  query (fun b => itens_de b (Pedido.id self)).

Definition calcular_preco (self : Pedido.t) : Rota Pedido.t :=
  itens <- Pedido_itens self ;;
  atribuir (Pedido.com_preco (total_itens itens) self).

(** ** order_routes.py *)

Definition nao_autorizado : string :=
  "Você não tem autorização para realizar esta ação".

(** The identity [usuario] is what [verificar_token] resolved from the
    bearer token of the request. *)
Definition obter_pedido_autorizado (id_pedido : Z) (usuario : Usuario.t)
    : Rota Pedido.t :=
  pedido <- query_por_chave id_pedido (fun b => pedido_por_id b id_pedido) ;;
  match pedido with
  | None => raise 404 "Pedido não encontrado"
  | Some pedido =>
      if negb (Usuario.admin usuario)
         && negb (Usuario.id usuario =? Pedido.usuario pedido)
      then raise 403 nao_autorizado
      else ret pedido
  end.

(** [pedido_do_item.usuario] is read only when the caller is not an
    admin ([and] short-circuits); on [None] the read is an
    [AttributeError]. *)
Definition obter_item_pedido_autorizado (id_item_pedido : Z)
    (usuario : Usuario.t) : Rota ItemPedido.t :=
  item_pedido <-
    query_por_chave id_item_pedido (fun b => item_por_id b id_item_pedido) ;;
  match item_pedido with
  | None => raise 404 "Item de pedido não encontrado"
  | Some item_pedido =>
      pedido_do_item <-
        query (fun b => pedido_por_id b (ItemPedido.pedido item_pedido)) ;;
      if negb (Usuario.admin usuario) then
        match pedido_do_item with
        | None => excecao "AttributeError"
        | Some pedido_do_item =>
            if negb (Usuario.id usuario =? Pedido.usuario pedido_do_item)
            then raise 403 nao_autorizado
            else ret item_pedido
        end
      else ret item_pedido
  end.

Definition listar_todos_pedidos (usuario : Usuario.t)
    : Rota (list Pedido.t) :=
  if negb (Usuario.admin usuario) then
    raise 403 "Você não tem autorização para acessar esta rota"
  else query pedidos.

Definition criar_pedido (usuario : Usuario.t) : Rota Pedido.t :=
  let novo_pedido := Pedido.init (Usuario.id usuario) in
  add (ObjPedido novo_pedido) ;;
  commit ;;
  refresh_novo_pedido.

Definition listar_meus_pedidos (usuario : Usuario.t)
    : Rota (list Pedido.t) :=
  query (fun b => pedidos_do_usuario b (Usuario.id usuario)).

Definition visualizar_pedido (pedido : Pedido.t) : Rota Pedido.t :=
  ret pedido.

(** [x in xs] on Python strings. *)
Definition str_in (x : string) (xs : list string) : bool :=
  existsb (String.eqb x) xs.

Definition cancelar_pedido (pedido : Pedido.t) : Rota Pedido.t :=
  if negb (str_in (Pedido.status pedido) ["PENDENTE"; "EM_PREPARO"]) then
    raise 400
      ("Não é possível cancelar um pedido com status '"
       ++ Pedido.status pedido ++ "'")
  else
    pedido <- atribuir (Pedido.com_status "CANCELADO" pedido) ;;
    commit ;;
    refresh pedido.

Definition finalizar_pedido (pedido : Pedido.t) : Rota Pedido.t :=
  if negb (String.eqb (Pedido.status pedido) "EM_PREPARO") then
    raise 400 "Só é possível finalizar um pedido com status 'EM_PREPARO'"
  else
    pedido <- atribuir (Pedido.com_status "FINALIZADO" pedido) ;;
    commit ;;
    refresh pedido.

Definition adicionar_item_pedido (item_schema : ItemPedidoSchema)
    (pedido : Pedido.t) : Rota Pedido.t :=
  let item_pedido :=
    ItemPedido.init (is_quantidade item_schema) (is_sabor item_schema)
      (is_tamanho item_schema) (is_preco_unitario item_schema)
      (Pedido.id pedido) in
  add (ObjItem item_pedido) ;;
  pedido <- calcular_preco pedido ;;
  commit ;;
  refresh pedido.

(** [pedido.calcular_preco()] on [None] is an [AttributeError]. *)
Definition remover_item_pedido (item_pedido : ItemPedido.t)
    : Rota Pedido.t :=
  pedido <- query (fun b => pedido_por_id b (ItemPedido.pedido item_pedido)) ;;
  delete item_pedido ;;
  match pedido with
  | None => excecao "AttributeError"
  | Some pedido =>
      pedido <- calcular_preco pedido ;;
      commit ;;
      refresh pedido
  end.

(** FastAPI checks the body of a request against its schema once the
    dependencies of the route have run, and raises
    [RequestValidationError] instead of calling the handler. *)
Definition validar (item_schema : ItemPedidoSchema) : Rota unit :=
  if corpo_valido item_schema then ret tt
  else excecao "RequestValidationError".

(** The routes as FastAPI serves them: the dependency first, then the
    handler, in the session of the request. *)
Definition GET_pedidos (usuario : Usuario.t) (b : Banco) :=
  executar (listar_todos_pedidos usuario) b.

Definition POST_pedidos (usuario : Usuario.t) (b : Banco) :=
  executar (criar_pedido usuario) b.

Definition GET_pedidos_meus (usuario : Usuario.t) (b : Banco) :=
  executar (listar_meus_pedidos usuario) b.

Definition GET_pedido (usuario : Usuario.t) (id_pedido : Z) (b : Banco) :=
  executar (pedido <- obter_pedido_autorizado id_pedido usuario ;;
            visualizar_pedido pedido) b.

Definition POST_cancelar (usuario : Usuario.t) (id_pedido : Z) (b : Banco) :=
  executar (pedido <- obter_pedido_autorizado id_pedido usuario ;;
            cancelar_pedido pedido) b.

Definition POST_finalizar (usuario : Usuario.t) (id_pedido : Z) (b : Banco) :=
  executar (pedido <- obter_pedido_autorizado id_pedido usuario ;;
            finalizar_pedido pedido) b.

Definition POST_itens (usuario : Usuario.t) (id_pedido : Z)
    (item_schema : ItemPedidoSchema) (b : Banco) :=
  executar (pedido <- obter_pedido_autorizado id_pedido usuario ;;
            validar item_schema ;;
            adicionar_item_pedido item_schema pedido) b.

Definition DELETE_item (usuario : Usuario.t) (id_item_pedido : Z)
    (b : Banco) :=
  executar (item_pedido <- obter_item_pedido_autorizado id_item_pedido usuario ;;
            remover_item_pedido item_pedido) b.

(** ** Python built-ins used by auth_routes.py *)

(** [str(n)] of an int: its decimal numeral. *)
Definition py_str (n : Z) : string := NilZero.string_of_int (Z.to_int n).

Definition eh_espaco (c : ascii) : bool :=
  let n := nat_of_ascii c in
  ((9 <=? n) && (n <=? 13) || (n =? 32))%nat.

Definition eh_digito (c : ascii) : bool :=
  let n := nat_of_ascii c in ((48 <=? n) && (n <=? 57))%nat.

Fixpoint lstrip (s : string) : string :=
  match s with
  | String c r => if eh_espaco c then lstrip r else s
  | EmptyString => EmptyString
  end.

Fixpoint rstrip (s : string) : string :=
  match s with
  | String c r =>
      match rstrip r with
      | EmptyString => if eh_espaco c then EmptyString else String c EmptyString
      | r' => String c r'
      end
  | EmptyString => EmptyString
  end.

Definition comeca_com_digito (s : string) : bool :=
  match s with
  | String c _ => eh_digito c
  | EmptyString => false
  end.

(** The digits of a numeral that may group them with single
    underscores, each between two digits. *)
Fixpoint sem_sublinhados (apos_digito : bool) (s : string) : option string :=
  match s with
  | EmptyString => Some EmptyString
  | String c r =>
      if Ascii.eqb c "_"%char then
        if apos_digito && comeca_com_digito r then sem_sublinhados false r
        else None
      else option_map (String c) (sem_sublinhados (eh_digito c) r)
  end.

Definition py_digitos (s : string) : option Z :=
  match sem_sublinhados false s with
  | Some d => option_map Z.of_uint (NilZero.uint_of_string d)
  | None => None
  end.

(** Whether a str holds ASCII characters only (a [string] holds the
    bytes of its UTF-8 encoding). *)
Fixpoint so_ascii (s : string) : bool :=
  match s with
  | EmptyString => true
  | String c r => (nat_of_ascii c <? 128)%nat && so_ascii r
  end.

(** [int(s)] of an ASCII str in base 10; [None] is [ValueError].
    (Python also reads the decimal digits and the white space of other
    scripts, and CPython refuses numerals of more than 4300 digits; no
    numeral of a key comes near either.) *)
Definition py_int (s : string) : option Z :=
  match rstrip (lstrip s) with
  | String "+"%char r => py_digitos r
  | String "-"%char r => option_map Z.opp (py_digitos r)
  | r => py_digitos r
  end.

(** ** auth_routes.py *)

(** The claims of a token's payload that the routes write and read. *)
Record Claims : Type := {
  sub : option string;
  exp : option Z
}.

(** A call of a library function that can raise: [inl e] is an
    exception for which [str] gives [e]. *)
Definition chamar {A : Type} (r : string + A) : Rota A :=
  match r with
  | inl e => excecao e
  | inr a => ret a
  end.

(** [except Exception as e]: whatever the block raises is handled, and
    the handler reads [str(e)].  (No [try] block of this code raises an
    [HTTPException]; for one, the handler is given its detail.) *)
Definition try_except {A : Type} (m : Rota A) (handler : string -> Rota A)
    : Rota A :=
  fun s =>
    match m s with
    | (Retorno a, s') => (Retorno a, s')
    | (HTTPException c d h, s') => handler d s'
    | (Excecao e, s') => handler e s'
    end.

(** [session.rollback()]: the pending work and the transaction go. *)
Definition rollback : Rota unit :=
  fun s => (Retorno tt, pegar_sessao (gravado s)).

Section Credenciais.

(** main.py reads [SECRET_KEY], [ALGORITHM] and the access token's
    lifetime from the environment.  [jwt_encode] signs a payload with that
    key and algorithm; [jwt_decode] checks signature and expiry at the time
    of the request and gives the payload, [None] where python-jose raises
    [JWTError].  [bcrypt_hash] and [bcrypt_verify] are [bcrypt_context.hash]
    and [bcrypt_context.verify]; both raise for the passwords that the
    backend refuses (one with a NUL byte, for example), and [verify] for
    a stored hash that it cannot identify. *)
Variable jwt_encode : Claims -> string.
Variable jwt_decode : string -> option Claims.
Variable bcrypt_hash : string -> string + string.
Variable bcrypt_verify : string -> string -> string + bool.
Variable ACCESS_TOKEN_EXPIRE_MINUTES : Z.

(** [agora] is [datetime.now(timezone.utc)] and [duracao_token] the
    lifetime, both in seconds. *)
Definition criar_token (agora : Z) (id_usuario : Z) (duracao_token : Z)
    : string :=
  let data_expiracao := agora + duracao_token in
  jwt_encode {| sub := Some (py_str id_usuario); exp := Some data_expiracao |}.

Definition duracao_padrao : Z := 60 * ACCESS_TOKEN_EXPIRE_MINUTES.

(** [False] is [None]; a [Usuario] object is truthy. *)
Definition autenticar_usuario (email senha : string)
    : Rota (option Usuario.t) :=
  usuario <- query (fun b => usuario_por_email b email) ;;
  match usuario with
  | None => ret None
  | Some usuario =>
      confere <- chamar (bcrypt_verify senha (Usuario.senha usuario)) ;;
      if negb confere then ret None
      else ret (Some usuario)
  end.

(** The conversion [int(id_usuario)] comes after the [try] block. *)
Definition pegar_usuario_logado_opcional (token : option string)
    : Rota (option Usuario.t) :=
  match token with
  | None => ret None
  | Some EmptyString => ret None
  | Some token =>
      match jwt_decode token with
      | None => ret None
      | Some payload =>
          match sub payload with
          | None => ret None
          | Some id_usuario =>
              match py_int id_usuario with
              | None => excecao "ValueError"
              | Some n => query_por_chave n (fun b => usuario_por_id b n)
              end
          end
      end
  end.

Definition criar_conta (usuario_schema : UsuarioSchema) : Rota string :=
  usuario_existente <-
    query (fun b => usuario_por_email b (us_email usuario_schema)) ;;
  match usuario_existente with
  | Some _ => raise 400 "Já existe um usuário com esse email"
  | None =>
      novo_usuario <-
        try_except
          (senha_criptografada <-
             chamar (bcrypt_hash (us_senha usuario_schema)) ;;
           let novo_usuario :=
             Usuario.init (us_nome usuario_schema) (us_email usuario_schema)
               senha_criptografada true false in
           add (ObjUsuario novo_usuario) ;;
           commit ;;
           refresh_novo_usuario)
          (fun e =>
             rollback ;;
             raise 500 ("Erro ao criar usuário: " ++ e)) ;;
      ret ("Usuário " ++ Usuario.email novo_usuario ++ " criado com sucesso")
  end.

Definition criar_admin (usuario_schema : UsuarioSchema)
    (usuario_logado : Usuario.t) : Rota string :=
  if negb (Usuario.admin usuario_logado) then
    raise 403 "Apenas administradores podem criar outros administradores"
  else
    usuario_existente <-
      query (fun b => usuario_por_email b (us_email usuario_schema)) ;;
    match usuario_existente with
    | Some _ => raise 400 "Já existe um usuário com esse email"
    | None =>
        novo_admin <-
          try_except
            (senha_criptografada <-
               chamar (bcrypt_hash (us_senha usuario_schema)) ;;
             let novo_admin :=
               Usuario.init (us_nome usuario_schema) (us_email usuario_schema)
                 senha_criptografada true true in
             add (ObjUsuario novo_admin) ;;
             commit ;;
             refresh_novo_usuario)
            (fun e =>
               rollback ;;
               raise 500 ("Erro ao criar administrador: " ++ e)) ;;
        ret ("Administrador " ++ Usuario.email novo_admin
             ++ " criado com sucesso")
    end.

Definition credenciais_invalidas {A : Type} : Rota A :=
  raise_com_headers 401 "Usuário ou senha inválidos"
    [("WWW-Authenticate", "Bearer")].

Definition login (agora : Z) (login_schema : LoginSchema) : Rota TokenSchema :=
  usuario <-
    autenticar_usuario (ls_email login_schema) (ls_senha login_schema) ;;
  match usuario with
  | None => credenciais_invalidas
  | Some usuario =>
      let access_token :=
        criar_token agora (Usuario.id usuario) duracao_padrao in
      let refresh_token :=
        criar_token agora (Usuario.id usuario) (7 * 86400) in
      ret {| access_token := access_token;
             refresh_token := Some refresh_token;
             token_type := "Bearer" |}
  end.

Definition login_form (agora : Z) (username password : string)
    : Rota TokenSchema :=
  usuario <- autenticar_usuario username password ;;
  match usuario with
  | None => credenciais_invalidas
  | Some usuario =>
      let access_token :=
        criar_token agora (Usuario.id usuario) duracao_padrao in
      ret {| access_token := access_token;
             refresh_token := None;
             token_type := "Bearer" |}
  end.

Definition use_refresh_token (agora : Z) (usuario : Usuario.t)
    : Rota TokenSchema :=
  let access_token := criar_token agora (Usuario.id usuario) duracao_padrao in
  ret {| access_token := access_token;
         refresh_token := None;
         token_type := "Bearer" |}.

Definition POST_criar_conta (usuario_schema : UsuarioSchema) (b : Banco) :=
  executar (criar_conta usuario_schema) b.

Definition POST_login (agora : Z) (login_schema : LoginSchema) (b : Banco) :=
  executar (login agora login_schema) b.

Definition POST_login_form (agora : Z) (username password : string)
    (b : Banco) :=
  executar (login_form agora username password) b.

End Credenciais.

(** ** The states the routes can reach *)

(** The requests that write to the database, each with the identity
    that [verificar_token] resolved for it where the route asks for one.
    The other routes (listings, GetOne, the logins, the refresh) never
    commit. *)
Inductive Requisicao : Type :=
| ReqCriarConta (usuario_schema : UsuarioSchema)
| ReqCriarAdmin (usuario_schema : UsuarioSchema) (usuario_logado : Usuario.t)
| ReqCriarPedido (usuario : Usuario.t)
| ReqCancelar (usuario : Usuario.t) (id_pedido : Z)
| ReqFinalizar (usuario : Usuario.t) (id_pedido : Z)
| ReqAdicionarItem (usuario : Usuario.t) (id_pedido : Z)
    (item_schema : ItemPedidoSchema)
| ReqRemoverItem (usuario : Usuario.t) (id_item_pedido : Z).

(** The database after a request was served. *)
Definition atender (bcrypt_hash : string -> string + string) (r : Requisicao)
    (b : Banco) : Banco :=
  match r with
  | ReqCriarConta usuario_schema =>
      snd (POST_criar_conta bcrypt_hash usuario_schema b)
  | ReqCriarAdmin usuario_schema usuario_logado =>
      snd (executar (criar_admin bcrypt_hash usuario_schema usuario_logado) b)
  | ReqCriarPedido usuario => snd (POST_pedidos usuario b)
  | ReqCancelar usuario id_pedido => snd (POST_cancelar usuario id_pedido b)
  | ReqFinalizar usuario id_pedido => snd (POST_finalizar usuario id_pedido b)
  | ReqAdicionarItem usuario id_pedido item_schema =>
      snd (POST_itens usuario id_pedido item_schema b)
  | ReqRemoverItem usuario id_item_pedido =>
      snd (DELETE_item usuario id_item_pedido b)
  end.

(** The databases that requests build from the empty one. *)
Inductive alcancavel (bcrypt_hash : string -> string + string)
    : Banco -> Prop :=
| alc_vazio : alcancavel bcrypt_hash banco_vazio
| alc_passo (b : Banco) (r : Requisicao) :
    alcancavel bcrypt_hash b ->
    alcancavel bcrypt_hash (atender bcrypt_hash r b).

(** The foreign key of [ItemPedido.pedido]: every item belongs to a
    stored order. *)
Definition integridade (b : Banco) : Prop :=
  forall it : ItemPedido.t,
    In it (itens_pedido b) ->
    exists p : Pedido.t, pedido_por_id b (ItemPedido.pedido it) = Some p.

(** The primary key of [itens_pedido]. *)
Definition chaves_unicas (b : Banco) : Prop :=
  NoDup (map ItemPedido.id (itens_pedido b)).

(** Every stored order carries the total of its items. *)
Definition precos_coerentes (b : Banco) : Prop :=
  forall p : Pedido.t,
    In p (pedidos b) ->
    Pedido.preco p = total_itens (itens_de b (Pedido.id p)).

Definition bem_formado (b : Banco) : Prop :=
  integridade b /\ chaves_unicas b /\ precos_coerentes b.

(** The database after a sequence of requests, served in order. *)
Definition atender_todas (bcrypt_hash : string -> string + string)
    (rs : list Requisicao) (b : Banco) : Banco :=
  fold_left (fun b r => atender bcrypt_hash r b) rs b.

(** Whether a handler returned a value. *)
Definition retornou {A : Type} (r : Resultado A) : bool :=
  match r with
  | Retorno _ => true
  | _ => false
  end.

(** The statuses that the routes write or test. *)
Definition status_terminal (s : string) : bool :=
  str_in s ["CANCELADO"; "FINALIZADO"].

(** Key and owner of an order. *)
Definition chave_e_dono (p : Pedido.t) : Z * Z :=
  (Pedido.id p, Pedido.usuario p).

(** The primary key of [usuarios] and the emails, which both account
    routes check before they insert. *)
Definition emails_unicos (b : Banco) : Prop :=
  NoDup (map Usuario.email (usuarios b)).

(** Every stored order is pending, canceled or finalized. *)
Definition status_conhecidos (b : Banco) : Prop :=
  forall p : Pedido.t,
    In p (pedidos b) ->
    In (Pedido.status p) ["PENDENTE"; "CANCELADO"; "FINALIZADO"].

(** ** Sample data *)

Definition ana : Usuario.t :=
  Usuario.Build 1 "Ana" "ana@x.com" "$2b$12$ana" true false.

Definition bia : Usuario.t :=
  Usuario.Build 2 "Bia" "bia@x.com" "$2b$12$bia" true false.

Definition raiz : Usuario.t :=
  Usuario.Build 3 "Raiz" "raiz@x.com" "$2b$12$raiz" true true.

(** An account that was switched off directly in the table. *)
Definition caio : Usuario.t :=
  Usuario.Build 4 "Caio" "caio@x.com" "$2b$12$caio" false false.

Definition burger : ItemPedido.t :=
  ItemPedido.Build 1 2 "Burger" "Large" 10%float 1.

Definition soda : ItemPedido.t :=
  ItemPedido.Build 2 1 "Soda" "Can" 5%float 2.

Definition suco_schema : ItemPedidoSchema :=
  {| is_quantidade := 3; is_sabor := "Suco"; is_tamanho := "Copo";
     is_preco_unitario := 4%float |}.

(** A body that passes the checks of its schema and whose quantity,
    2^63, is one more than SQLite holds. *)
Definition suco_demais_schema : ItemPedidoSchema :=
  {| is_quantidade := 9223372036854775808; is_sabor := "Suco";
     is_tamanho := "Copo"; is_preco_unitario := 4%float |}.

(** Ana owns a finalized order (1) and a canceled one (2), each with one
    item; Bia owns a pending order (3) and one in preparation (4). *)
Definition banco_exemplo : Banco :=
  {| usuarios := [ana; bia; raiz; caio];
     pedidos :=
       [Pedido.Build 1 "FINALIZADO" 1 20%float;
        Pedido.Build 2 "CANCELADO" 1 5%float;
        Pedido.Build 3 "PENDENTE" 2 0%float;
        Pedido.Build 4 "EM_PREPARO" 2 0%float];
     itens_pedido := [burger; soda] |}.

(** Stand-ins for the two libraries: a table of the tokens that verify,
    and a hash that is checked by hashing again and that, like bcrypt,
    raises for a password with a NUL byte. *)
Definition jwt_encode_exemplo (c : Claims) : string :=
  "jwt." ++ match sub c with Some s => s | None => "" end.

Definition jwt_decode_exemplo (token : string) : option Claims :=
  if String.eqb token "jwt.1" then Some {| sub := Some "1"; exp := Some 1800 |}
  else if String.eqb token "jwt.4" then
    Some {| sub := Some "4"; exp := Some 1800 |}
  else if String.eqb token "jwt.abc" then
    Some {| sub := Some "abc"; exp := Some 1800 |}
  else if String.eqb token "jwt.99" then
    Some {| sub := Some "99"; exp := Some 1800 |}
  else if String.eqb token "jwt.9223372036854775808" then
    Some {| sub := Some "9223372036854775808"; exp := Some 1800 |}
  else if String.eqb token "jwt" then Some {| sub := None; exp := Some 1800 |}
  else None.

(** A password with a NUL byte in it. *)
Definition senha_com_nulo : string := "se" ++ String Ascii.zero "nha".

Fixpoint contem_nulo (s : string) : bool :=
  match s with
  | EmptyString => false
  | String c r => Ascii.eqb c Ascii.zero || contem_nulo r
  end.

Definition bcrypt_hash_exemplo (senha : string) : string + string :=
  if contem_nulo senha then inl "bcrypt does not allow NULL bytes in password"
  else inr ("$2b$12$" ++ senha).

Definition bcrypt_verify_exemplo (senha hash : string) : string + bool :=
  match bcrypt_hash_exemplo senha with
  | inl e => inl e
  | inr h => inr (String.eqb h hash)
  end.

(** A second stand-in for the token library: the token carries the
    expiry and the subject in the clear after a fixed header, and
    verifies, at the time [agora] of the request that presents it, when
    it has that header and an expiry that has not passed. *)
Fixpoint tira_prefixo (prefixo s : string) : option string :=
  match prefixo, s with
  | EmptyString, _ => Some s
  | String a p, String c r =>
      if Ascii.eqb a c then tira_prefixo p r else None
  | String _ _, EmptyString => None
  end.

(** The parts of a string before and after the first [c]. *)
Fixpoint corta (c : ascii) (s : string) : option (string * string) :=
  match s with
  | EmptyString => None
  | String a r =>
      if Ascii.eqb a c then Some (EmptyString, r)
      else
        match corta c r with
        | Some (antes, depois) => Some (String a antes, depois)
        | None => None
        end
  end.

Definition jwt_encode_eco (c : Claims) : string :=
  "eco." ++ match exp c with Some e => py_str e | None => "" end
  ++ ":" ++ match sub c with Some s => s | None => "" end.

Definition jwt_decode_eco (agora : Z) (token : string) : option Claims :=
  match tira_prefixo "eco." token with
  | Some r =>
      match corta ":" r with
      | Some (e, s) =>
          match py_int e with
          | Some e =>
              if agora <=? e then Some {| sub := Some s; exp := Some e |}
              else None
          | None => None
          end
      | None => None
      end
  | None => None
  end.

(** * Properties *)

(** ** Rows and queries *)

Lemma pedido_por_id_id (b : Banco) (i : Z) (p : Pedido.t) :
  pedido_por_id b i = Some p -> Pedido.id p = i.
Proof.
  unfold pedido_por_id. intros H.
  apply find_some in H. destruct H as [_ H].
  now apply Z.eqb_eq in H.
Qed.

Lemma item_por_id_id (b : Banco) (i : Z) (it : ItemPedido.t) :
  item_por_id b i = Some it -> ItemPedido.id it = i.
Proof.
  unfold item_por_id. intros H.
  apply find_some in H. destruct H as [_ H].
  now apply Z.eqb_eq in H.
Qed.

(** After the UPDATE of an order, a query by its key reads the new row. *)
Lemma pedido_por_id_atualizar (b : Banco) (p p' : Pedido.t) :
  pedido_por_id b (Pedido.id p') = Some p ->
  pedido_por_id (atualizar b p') (Pedido.id p') = Some p'.
Proof.
  unfold pedido_por_id, atualizar. simpl.
  induction (pedidos b) as [|r rs IH]; simpl; [discriminate|].
  destruct (Pedido.id r =? Pedido.id p') eqn:E; simpl.
  - intros _. now rewrite Z.eqb_refl.
  - rewrite E. exact IH.
Qed.

(** An UPDATE or INSERT of an order leaves every order's items alone. *)
Lemma itens_de_atualizar (b : Banco) (p : Pedido.t) (i : Z) :
  itens_de (atualizar b p) i = itens_de b i.
Proof. reflexivity. Qed.

Lemma itens_de_inserir_item (b : Banco) (it : ItemPedido.t) (i : Z) :
  itens_de (inserir b (ObjItem it)) i =
  (itens_de b i
   ++ (if ItemPedido.pedido it =? i
       then [linha_do_item (novo_id (map ItemPedido.id (itens_pedido b))) it]
       else []))%list.
Proof.
  unfold itens_de. simpl. rewrite filter_app. simpl.
  now destruct (ItemPedido.pedido it =? i).
Qed.

Lemma itens_de_apagar (b : Banco) (it : ItemPedido.t) (i : Z) :
  itens_de (apagar b it) i =
  filter (fun r => negb (ItemPedido.id r =? ItemPedido.id it)) (itens_de b i).
Proof.
  unfold itens_de. simpl.
  induction (itens_pedido b) as [|r rs IH]; simpl; [reflexivity|].
  destruct (ItemPedido.id r =? ItemPedido.id it) eqn:E1,
    (ItemPedido.pedido r =? i) eqn:E2; simpl;
    rewrite ?E1, ?E2; simpl; now rewrite IH.
Qed.

(** ** The authorization dependencies *)

Create HintDb rotas.
#[local] Hint Unfold executar bind ret raise raise_com_headers excecao query
  query_por_chave validar chamar add delete atribuir commit refresh flush
  pegar_sessao : rotas.

(** Unfolds the plumbing of a route down to its queries. *)
Ltac desdobrar := autounfold with rotas; simpl.

(** The guard of both dependencies, as a proposition. *)
Lemma guarda_autorizado (usuario : Usuario.t) (dono : Z) :
  Usuario.admin usuario = true \/ Usuario.id usuario = dono ->
  negb (Usuario.admin usuario) && negb (Usuario.id usuario =? dono) = false.
Proof.
  intros [H | H].
  - now rewrite H.
  - rewrite H, Z.eqb_refl. now destruct (Usuario.admin usuario).
Qed.

Lemma guarda_proibido (usuario : Usuario.t) (dono : Z) :
  Usuario.admin usuario = false -> Usuario.id usuario <> dono ->
  negb (Usuario.admin usuario) && negb (Usuario.id usuario =? dono) = true.
Proof.
  intros H1 H2. rewrite H1.
  apply Z.eqb_neq in H2. now rewrite H2.
Qed.

Lemma obter_pedido_autorizado_404 (b : Banco) (usuario : Usuario.t) (i : Z) :
  pedido_por_id b i = None -> int64 i = true ->
  obter_pedido_autorizado i usuario (pegar_sessao b) =
  (HTTPException 404 "Pedido não encontrado" [], pegar_sessao b).
Proof.
  intros H Hi. unfold obter_pedido_autorizado. desdobrar. now rewrite H, Hi.
Qed.

(** A key that SQLite cannot hold names no row, and the query for it
    does not run. *)
Lemma obter_pedido_autorizado_overflow (b : Banco) (usuario : Usuario.t)
    (i : Z) :
  pedido_por_id b i = None -> int64 i = false ->
  obter_pedido_autorizado i usuario (pegar_sessao b) =
  (Excecao "OverflowError", pegar_sessao b).
Proof.
  intros H Hi. unfold obter_pedido_autorizado. desdobrar. now rewrite H, Hi.
Qed.

Lemma obter_pedido_autorizado_403 (b : Banco) (usuario : Usuario.t) (i : Z)
    (p : Pedido.t) :
  pedido_por_id b i = Some p ->
  Usuario.admin usuario = false -> Usuario.id usuario <> Pedido.usuario p ->
  obter_pedido_autorizado i usuario (pegar_sessao b) =
  (HTTPException 403 nao_autorizado [], pegar_sessao b).
Proof.
  intros H Ha Hd. unfold obter_pedido_autorizado. desdobrar.
  rewrite H. now rewrite (guarda_proibido _ _ Ha Hd).
Qed.

Lemma obter_pedido_autorizado_ok (b : Banco) (usuario : Usuario.t) (i : Z)
    (p : Pedido.t) :
  pedido_por_id b i = Some p ->
  Usuario.admin usuario = true \/ Usuario.id usuario = Pedido.usuario p ->
  obter_pedido_autorizado i usuario (pegar_sessao b) =
  (Retorno p, pegar_sessao b).
Proof.
  intros H Ha. unfold obter_pedido_autorizado. desdobrar.
  rewrite H. now rewrite (guarda_autorizado _ _ Ha).
Qed.

Lemma obter_item_pedido_autorizado_404 (b : Banco) (usuario : Usuario.t)
    (i : Z) :
  item_por_id b i = None -> int64 i = true ->
  obter_item_pedido_autorizado i usuario (pegar_sessao b) =
  (HTTPException 404 "Item de pedido não encontrado" [], pegar_sessao b).
Proof.
  intros H Hi. unfold obter_item_pedido_autorizado. desdobrar.
  now rewrite H, Hi.
Qed.

Lemma obter_item_pedido_autorizado_overflow (b : Banco) (usuario : Usuario.t)
    (i : Z) :
  item_por_id b i = None -> int64 i = false ->
  obter_item_pedido_autorizado i usuario (pegar_sessao b) =
  (Excecao "OverflowError", pegar_sessao b).
Proof.
  intros H Hi. unfold obter_item_pedido_autorizado. desdobrar.
  now rewrite H, Hi.
Qed.

Lemma obter_item_pedido_autorizado_403 (b : Banco) (usuario : Usuario.t)
    (i : Z) (it : ItemPedido.t) (p : Pedido.t) :
  item_por_id b i = Some it ->
  pedido_por_id b (ItemPedido.pedido it) = Some p ->
  Usuario.admin usuario = false -> Usuario.id usuario <> Pedido.usuario p ->
  obter_item_pedido_autorizado i usuario (pegar_sessao b) =
  (HTTPException 403 nao_autorizado [], pegar_sessao b).
Proof.
  intros H Hp Ha Hd. unfold obter_item_pedido_autorizado. desdobrar.
  rewrite H. simpl. rewrite Hp, Ha. simpl.
  apply Z.eqb_neq in Hd. now rewrite Hd.
Qed.

Lemma obter_item_pedido_autorizado_ok (b : Banco) (usuario : Usuario.t)
    (i : Z) (it : ItemPedido.t) (p : Pedido.t) :
  item_por_id b i = Some it ->
  pedido_por_id b (ItemPedido.pedido it) = Some p ->
  Usuario.admin usuario = true \/ Usuario.id usuario = Pedido.usuario p ->
  obter_item_pedido_autorizado i usuario (pegar_sessao b) =
  (Retorno it, pegar_sessao b).
Proof.
  intros H Hp Ha. unfold obter_item_pedido_autorizado. desdobrar.
  rewrite H. simpl. rewrite Hp.
  destruct (Usuario.admin usuario) eqn:E; simpl; [reflexivity|].
  destruct Ha as [Ha | Ha]; [discriminate|].
  now rewrite Ha, Z.eqb_refl.
Qed.

(** A route whose dependency let the order through is its handler on
    that order. *)
Lemma rota_com_pedido {A : Type} (h : Pedido.t -> Rota A) (b : Banco)
    (usuario : Usuario.t) (i : Z) (p : Pedido.t) :
  pedido_por_id b i = Some p ->
  Usuario.admin usuario = true \/ Usuario.id usuario = Pedido.usuario p ->
  executar (pedido <- obter_pedido_autorizado i usuario ;; h pedido) b =
  executar (h p) b.
Proof.
  intros H Ha. unfold executar, bind.
  now rewrite (obter_pedido_autorizado_ok _ _ _ _ H Ha).
Qed.

Lemma rota_sem_pedido {A : Type} (h : Pedido.t -> Rota A) (b : Banco)
    (usuario : Usuario.t) (i : Z) :
  pedido_por_id b i = None -> int64 i = true ->
  executar (pedido <- obter_pedido_autorizado i usuario ;; h pedido) b =
  (HTTPException 404 "Pedido não encontrado" [], b).
Proof.
  intros H Hi. unfold executar, bind.
  now rewrite (obter_pedido_autorizado_404 _ _ _ H Hi).
Qed.

Lemma rota_chave_fora_do_banco {A : Type} (h : Pedido.t -> Rota A)
    (b : Banco) (usuario : Usuario.t) (i : Z) :
  pedido_por_id b i = None -> int64 i = false ->
  executar (pedido <- obter_pedido_autorizado i usuario ;; h pedido) b =
  (Excecao "OverflowError", b).
Proof.
  intros H Hi. unfold executar, bind.
  now rewrite (obter_pedido_autorizado_overflow _ _ _ H Hi).
Qed.

(** A route on an order, case by case. *)
Lemma rota_de_pedido_casos {A : Type} (h : Pedido.t -> Rota A) (b : Banco)
    (usuario : Usuario.t) (i : Z) :
  executar (pedido <- obter_pedido_autorizado i usuario ;; h pedido) b =
  match pedido_por_id b i with
  | None =>
      if int64 i then (HTTPException 404 "Pedido não encontrado" [], b)
      else (Excecao "OverflowError", b)
  | Some p =>
      if negb (Usuario.admin usuario)
         && negb (Usuario.id usuario =? Pedido.usuario p)
      then (HTTPException 403 nao_autorizado [], b)
      else executar (h p) b
  end.
Proof.
  unfold obter_pedido_autorizado. desdobrar.
  destruct (pedido_por_id b i) as [p|].
  - now destruct (negb (Usuario.admin usuario)
                  && negb (Usuario.id usuario =? Pedido.usuario p)).
  - now destruct (int64 i).
Qed.

Lemma rota_pedido_alheio {A : Type} (h : Pedido.t -> Rota A) (b : Banco)
    (usuario : Usuario.t) (i : Z) (p : Pedido.t) :
  pedido_por_id b i = Some p ->
  Usuario.admin usuario = false -> Usuario.id usuario <> Pedido.usuario p ->
  executar (pedido <- obter_pedido_autorizado i usuario ;; h pedido) b =
  (HTTPException 403 nao_autorizado [], b).
Proof.
  intros H Ha Hd. unfold executar, bind.
  now rewrite (obter_pedido_autorizado_403 _ _ _ _ H Ha Hd).
Qed.

(** ** What the handlers do to an order they are given *)

Lemma cancelar_pedido_permitido (b : Banco) (p : Pedido.t) :
  pedido_por_id b (Pedido.id p) = Some p ->
  str_in (Pedido.status p) ["PENDENTE"; "EM_PREPARO"] = true ->
  executar (cancelar_pedido p) b =
  (Retorno (Pedido.com_status "CANCELADO" p),
   atualizar b (Pedido.com_status "CANCELADO" p)).
Proof.
  intros H Hs. unfold cancelar_pedido. rewrite Hs. desdobrar.
  change (Pedido.id p) with (Pedido.id (Pedido.com_status "CANCELADO" p)).
  rewrite (pedido_por_id_atualizar b p); [reflexivity | exact H].
Qed.

Lemma cancelar_pedido_recusado (b : Banco) (p : Pedido.t) :
  str_in (Pedido.status p) ["PENDENTE"; "EM_PREPARO"] = false ->
  executar (cancelar_pedido p) b =
  (HTTPException 400
     ("Não é possível cancelar um pedido com status '"
      ++ Pedido.status p ++ "'") [],
   b).
Proof.
  intros Hs. unfold cancelar_pedido. rewrite Hs. reflexivity.
Qed.

Lemma finalizar_pedido_permitido (b : Banco) (p : Pedido.t) :
  pedido_por_id b (Pedido.id p) = Some p ->
  Pedido.status p = "EM_PREPARO" ->
  executar (finalizar_pedido p) b =
  (Retorno (Pedido.com_status "FINALIZADO" p),
   atualizar b (Pedido.com_status "FINALIZADO" p)).
Proof.
  intros H Hs. unfold finalizar_pedido. rewrite Hs. desdobrar.
  change (Pedido.id p) with (Pedido.id (Pedido.com_status "FINALIZADO" p)).
  rewrite (pedido_por_id_atualizar b p); [reflexivity | exact H].
Qed.

Lemma finalizar_pedido_recusado (b : Banco) (p : Pedido.t) :
  Pedido.status p <> "EM_PREPARO" ->
  executar (finalizar_pedido p) b =
  (HTTPException 400
     "Só é possível finalizar um pedido com status 'EM_PREPARO'" [],
   b).
Proof.
  intros Hs. unfold finalizar_pedido.
  apply String.eqb_neq in Hs. rewrite Hs. reflexivity.
Qed.

Lemma adicionar_item_pedido_exec (b : Banco) (p : Pedido.t)
    (item_schema : ItemPedidoSchema) :
  pedido_por_id b (Pedido.id p) = Some p ->
  int64 (is_quantidade item_schema) = true ->
  let b1 :=
    inserir b
      (ObjItem
         (ItemPedido.init (is_quantidade item_schema) (is_sabor item_schema)
            (is_tamanho item_schema) (is_preco_unitario item_schema)
            (Pedido.id p))) in
  let p' := Pedido.com_preco (total_itens (itens_de b1 (Pedido.id p))) p in
  executar (adicionar_item_pedido item_schema p) b =
  (Retorno p', atualizar b1 p').
Proof.
  intros H Hq b1 p'.
  unfold adicionar_item_pedido, calcular_preco, Pedido_itens. desdobrar.
  rewrite Hq. simpl. fold b1. fold p'.
  change (Pedido.id p) with (Pedido.id p').
  rewrite (pedido_por_id_atualizar b1 p); [reflexivity | exact H].
Qed.

(** A quantity that SQLite cannot hold: the INSERT fails when the
    session flushes, ahead of the query for the items, and nothing is
    committed. *)
Lemma adicionar_item_pedido_overflow (b : Banco) (p : Pedido.t)
    (item_schema : ItemPedidoSchema) :
  int64 (is_quantidade item_schema) = false ->
  executar (adicionar_item_pedido item_schema p) b =
  (Excecao "OverflowError", b).
Proof.
  intros Hq.
  unfold adicionar_item_pedido, calcular_preco, Pedido_itens. desdobrar.
  now rewrite Hq.
Qed.

Lemma remover_item_pedido_exec (b : Banco) (it : ItemPedido.t)
    (p : Pedido.t) :
  pedido_por_id b (ItemPedido.pedido it) = Some p ->
  let b1 := apagar b it in
  let p' := Pedido.com_preco (total_itens (itens_de b1 (Pedido.id p))) p in
  executar (remover_item_pedido it) b = (Retorno p', atualizar b1 p').
Proof.
  intros H b1 p'.
  unfold remover_item_pedido, calcular_preco, Pedido_itens. desdobrar.
  rewrite H. simpl. fold b1. fold p'.
  change (Pedido.id p) with (Pedido.id p').
  rewrite (pedido_por_id_atualizar b1 p); [reflexivity|].
  simpl. now rewrite (pedido_por_id_id _ _ _ H).
Qed.

Lemma remover_item_pedido_orfao (b : Banco) (it : ItemPedido.t) :
  pedido_por_id b (ItemPedido.pedido it) = None ->
  executar (remover_item_pedido it) b = (Excecao "AttributeError", b).
Proof.
  intros H. unfold remover_item_pedido. desdobrar. now rewrite H.
Qed.

(** The two item routes, case by case. *)
Lemma POST_itens_casos (usuario : Usuario.t) (i : Z)
    (item_schema : ItemPedidoSchema) (b : Banco) :
  POST_itens usuario i item_schema b =
  match pedido_por_id b i with
  | None =>
      if int64 i then (HTTPException 404 "Pedido não encontrado" [], b)
      else (Excecao "OverflowError", b)
  | Some p =>
      if negb (Usuario.admin usuario)
         && negb (Usuario.id usuario =? Pedido.usuario p)
      then (HTTPException 403 nao_autorizado [], b)
      else if corpo_valido item_schema
      then executar (adicionar_item_pedido item_schema p) b
      else (Excecao "RequestValidationError", b)
  end.
Proof.
  unfold POST_itens. rewrite rota_de_pedido_casos.
  destruct (pedido_por_id b i) as [p|]; [|reflexivity].
  destruct (negb (Usuario.admin usuario)
            && negb (Usuario.id usuario =? Pedido.usuario p)); [reflexivity|].
  desdobrar. now destruct (corpo_valido item_schema).
Qed.

Lemma DELETE_item_casos (usuario : Usuario.t) (i : Z) (b : Banco) :
  DELETE_item usuario i b =
  match item_por_id b i with
  | None =>
      if int64 i
      then (HTTPException 404 "Item de pedido não encontrado" [], b)
      else (Excecao "OverflowError", b)
  | Some it =>
      match pedido_por_id b (ItemPedido.pedido it) with
      | None => (Excecao "AttributeError", b)
      | Some p =>
          if negb (Usuario.admin usuario)
             && negb (Usuario.id usuario =? Pedido.usuario p)
          then (HTTPException 403 nao_autorizado [], b)
          else executar (remover_item_pedido it) b
      end
  end.
Proof.
  unfold DELETE_item, obter_item_pedido_autorizado. desdobrar.
  destruct (item_por_id b i) as [it|]; [|now destruct (int64 i)]. simpl.
  destruct (pedido_por_id b (ItemPedido.pedido it)) as [p|] eqn:Hp.
  - destruct (Usuario.admin usuario); simpl; [reflexivity|].
    now destruct (Usuario.id usuario =? Pedido.usuario p).
  - destruct (Usuario.admin usuario); simpl; [|reflexivity].
    unfold remover_item_pedido. desdobrar. now rewrite Hp.
Qed.

(** ** C1 *)

(** C1.  Whenever AddItem ([POST_itens]) or RemoveItem ([DELETE_item])
    commits and returns an order, that order is the stored row, and its
    price is the sum of quantity times unit price over all the items the
    database then holds for it: the total is computed from the whole item
    set, whatever the price was before. *)
Theorem preco_e_a_soma_dos_itens_apos_mutacao :
  forall (usuario : Usuario.t) (b b' : Banco) (pedido : Pedido.t),
    (forall (id_pedido : Z) (item_schema : ItemPedidoSchema),
        POST_itens usuario id_pedido item_schema b = (Retorno pedido, b') ->
        pedido_por_id b' (Pedido.id pedido) = Some pedido /\
        Pedido.preco pedido = total_itens (itens_de b' (Pedido.id pedido)))
    /\
    (forall id_item_pedido : Z,
        DELETE_item usuario id_item_pedido b = (Retorno pedido, b') ->
        pedido_por_id b' (Pedido.id pedido) = Some pedido /\
        Pedido.preco pedido = total_itens (itens_de b' (Pedido.id pedido))).
Proof.
  intros usuario b b' pedido. split.
  - intros i item_schema. rewrite POST_itens_casos.
    destruct (pedido_por_id b i) as [p|] eqn:Hp;
      [|destruct (int64 i); discriminate].
    destruct (negb (Usuario.admin usuario) && _); [discriminate|].
    destruct (corpo_valido item_schema); [|discriminate].
    pose proof (pedido_por_id_id _ _ _ Hp) as Hi. subst i.
    destruct (int64 (is_quantidade item_schema)) eqn:Hq;
      [|rewrite (adicionar_item_pedido_overflow b p item_schema Hq);
        discriminate].
    rewrite (adicionar_item_pedido_exec b p item_schema Hp Hq).
    intros E. injection E as E1 E2. subst pedido b'. split.
    + apply (pedido_por_id_atualizar _ p). exact Hp.
    + reflexivity.
  - intros i. rewrite DELETE_item_casos.
    destruct (item_por_id b i) as [it|];
      [|destruct (int64 i); discriminate].
    destruct (pedido_por_id b (ItemPedido.pedido it)) as [p|] eqn:Hp;
      [|discriminate].
    destruct (negb (Usuario.admin usuario) && _); [discriminate|].
    rewrite (remover_item_pedido_exec b it p Hp).
    intros E. injection E as E1 E2. subst pedido b'. split.
    + apply (pedido_por_id_atualizar _ p). simpl.
      now rewrite (pedido_por_id_id _ _ _ Hp).
    + reflexivity.
Qed.

(** ** C2 and C3 *)

Lemma str_in_In (x : string) (xs : list string) :
  str_in x xs = true <-> In x xs.
Proof.
  unfold str_in. rewrite existsb_exists. split.
  - intros [y [Hy E]]. apply String.eqb_eq in E. now subst y.
  - intros H. exists x. split; [exact H | apply String.eqb_refl].
Qed.

(** C2.  For an order the caller may act on, Cancel succeeds exactly
    when the order's status is PENDENTE or EM_PREPARO.  It then stores and
    returns the order with status CANCELADO.  From any other status it
    fails with status code 400, the database is left as it was, and the
    detail of the failure quotes the order's current status. *)
Theorem cancelar_sse_pendente_ou_em_preparo :
  forall (usuario : Usuario.t) (b : Banco) (id_pedido : Z) (pedido : Pedido.t),
    pedido_por_id b id_pedido = Some pedido ->
    Usuario.admin usuario = true \/ Usuario.id usuario = Pedido.usuario pedido ->
    ((exists p' b', POST_cancelar usuario id_pedido b = (Retorno p', b'))
     <-> In (Pedido.status pedido) ["PENDENTE"; "EM_PREPARO"])
    /\
    (In (Pedido.status pedido) ["PENDENTE"; "EM_PREPARO"] ->
     exists b',
       POST_cancelar usuario id_pedido b =
       (Retorno (Pedido.com_status "CANCELADO" pedido), b')
       /\ pedido_por_id b' id_pedido =
          Some (Pedido.com_status "CANCELADO" pedido)
       /\ Pedido.status (Pedido.com_status "CANCELADO" pedido) = "CANCELADO")
    /\
    (~ In (Pedido.status pedido) ["PENDENTE"; "EM_PREPARO"] ->
     POST_cancelar usuario id_pedido b =
     (HTTPException 400
        ("Não é possível cancelar um pedido com status '"
         ++ Pedido.status pedido ++ "'") [],
      b)).
Proof.
  intros usuario b i p Hp Ha.
  pose proof (pedido_por_id_id _ _ _ Hp) as Hi. subst i.
  unfold POST_cancelar. rewrite (rota_com_pedido _ _ _ _ _ Hp Ha).
  destruct (str_in (Pedido.status p) ["PENDENTE"; "EM_PREPARO"]) eqn:Hs.
  - pose proof (proj1 (str_in_In _ _) Hs) as Hin.
    rewrite (cancelar_pedido_permitido _ _ Hp Hs).
    split; [|split].
    + split; [intros _; exact Hin | intros _; eauto].
    + intros _. eexists. split; [reflexivity|]. split; [|reflexivity].
      apply (pedido_por_id_atualizar b p (Pedido.com_status "CANCELADO" p)).
      exact Hp.
    + intros Hn. contradiction.
  - assert (Hn : ~ In (Pedido.status p) ["PENDENTE"; "EM_PREPARO"]).
    { intros Hin. apply str_in_In in Hin. congruence. }
    rewrite (cancelar_pedido_recusado _ _ Hs).
    split; [|split].
    + split; [intros [p' [b' E]]; discriminate | intros Hin; contradiction].
    + intros Hin. contradiction.
    + intros _. reflexivity.
Qed.

(** C3.  For an order the caller may act on, Finalize succeeds exactly
    when the order's status is EM_PREPARO.  It then stores and returns the
    order with status FINALIZADO.  From any other status it fails with
    status code 400 and the database is left as it was. *)
Theorem finalizar_sse_em_preparo :
  forall (usuario : Usuario.t) (b : Banco) (id_pedido : Z) (pedido : Pedido.t),
    pedido_por_id b id_pedido = Some pedido ->
    Usuario.admin usuario = true \/ Usuario.id usuario = Pedido.usuario pedido ->
    ((exists p' b', POST_finalizar usuario id_pedido b = (Retorno p', b'))
     <-> Pedido.status pedido = "EM_PREPARO")
    /\
    (Pedido.status pedido = "EM_PREPARO" ->
     exists b',
       POST_finalizar usuario id_pedido b =
       (Retorno (Pedido.com_status "FINALIZADO" pedido), b')
       /\ pedido_por_id b' id_pedido =
          Some (Pedido.com_status "FINALIZADO" pedido)
       /\ Pedido.status (Pedido.com_status "FINALIZADO" pedido)
          = "FINALIZADO")
    /\
    (Pedido.status pedido <> "EM_PREPARO" ->
     POST_finalizar usuario id_pedido b =
     (HTTPException 400
        "Só é possível finalizar um pedido com status 'EM_PREPARO'" [],
      b)).
Proof.
  intros usuario b i p Hp Ha.
  pose proof (pedido_por_id_id _ _ _ Hp) as Hi. subst i.
  unfold POST_finalizar. rewrite (rota_com_pedido _ _ _ _ _ Hp Ha).
  destruct (string_dec (Pedido.status p) "EM_PREPARO") as [Hs | Hs].
  - rewrite (finalizar_pedido_permitido _ _ Hp Hs).
    split; [|split].
    + split; [intros _; exact Hs | intros _; eauto].
    + intros _. eexists. split; [reflexivity|]. split; [|reflexivity].
      apply (pedido_por_id_atualizar b p (Pedido.com_status "FINALIZADO" p)).
      exact Hp.
    + intros Hn. contradiction.
  - rewrite (finalizar_pedido_recusado _ _ Hs).
    split; [|split].
    + split; [intros [p' [b' E]]; discriminate | intros E; contradiction].
    + intros E. contradiction.
    + intros _. reflexivity.
Qed.

(** ** C4 *)

(** C4.  For every identity and every route that targets an order
    (GetOne, Cancel, Finalize, AddItem) or an item (RemoveItem), the key
    being one that the database can hold (a signed 64-bit integer): when
    no row has the requested key the answer is 404, whoever asks; when the
    row exists and the caller is neither an admin nor the owner of the
    order (for an item: of the order the item belongs to) the answer is
    403; otherwise the route goes on: it is its handler run on the row
    (for AddItem, once the body is checked).  In the first two cases the
    database is left as it was. *)
Theorem existencia_antes_da_autorizacao :
  forall (usuario : Usuario.t) (b : Banco),
    (forall (id_pedido : Z) (item_schema : ItemPedidoSchema),
        (int64 id_pedido = true ->
         pedido_por_id b id_pedido = None ->
         let nf := HTTPException 404 "Pedido não encontrado" [] in
         GET_pedido usuario id_pedido b = (nf, b)
         /\ POST_cancelar usuario id_pedido b = (nf, b)
         /\ POST_finalizar usuario id_pedido b = (nf, b)
         /\ POST_itens usuario id_pedido item_schema b = (nf, b))
        /\
        (forall pedido : Pedido.t,
            pedido_por_id b id_pedido = Some pedido ->
            (Usuario.admin usuario = false ->
             Usuario.id usuario <> Pedido.usuario pedido ->
             let fb := HTTPException 403 nao_autorizado [] in
             GET_pedido usuario id_pedido b = (fb, b)
             /\ POST_cancelar usuario id_pedido b = (fb, b)
             /\ POST_finalizar usuario id_pedido b = (fb, b)
             /\ POST_itens usuario id_pedido item_schema b = (fb, b))
            /\
            (Usuario.admin usuario = true
             \/ Usuario.id usuario = Pedido.usuario pedido ->
             GET_pedido usuario id_pedido b = (Retorno pedido, b)
             /\ POST_cancelar usuario id_pedido b
                = executar (cancelar_pedido pedido) b
             /\ POST_finalizar usuario id_pedido b
                = executar (finalizar_pedido pedido) b
             /\ POST_itens usuario id_pedido item_schema b
                = executar (validar item_schema ;;
                            adicionar_item_pedido item_schema pedido) b)))
    /\
    (forall id_item_pedido : Z,
        (int64 id_item_pedido = true ->
         item_por_id b id_item_pedido = None ->
         DELETE_item usuario id_item_pedido b =
         (HTTPException 404 "Item de pedido não encontrado" [], b))
        /\
        (forall (item : ItemPedido.t) (pedido : Pedido.t),
            item_por_id b id_item_pedido = Some item ->
            pedido_por_id b (ItemPedido.pedido item) = Some pedido ->
            (Usuario.admin usuario = false ->
             Usuario.id usuario <> Pedido.usuario pedido ->
             DELETE_item usuario id_item_pedido b =
             (HTTPException 403 nao_autorizado [], b))
            /\
            (Usuario.admin usuario = true
             \/ Usuario.id usuario = Pedido.usuario pedido ->
             DELETE_item usuario id_item_pedido b =
             executar (remover_item_pedido item) b))).
Proof.
  intros usuario b. split.
  - intros i item_schema. split.
    + intros Hi Hn. cbv zeta.
      unfold GET_pedido, POST_cancelar, POST_finalizar, POST_itens.
      now rewrite !(rota_sem_pedido _ _ _ _ Hn Hi).
    + intros p Hp. split.
      * intros Ha Hd. cbv zeta.
        unfold GET_pedido, POST_cancelar, POST_finalizar, POST_itens.
        now rewrite !(rota_pedido_alheio _ _ _ _ _ Hp Ha Hd).
      * intros Ha.
        unfold GET_pedido, POST_cancelar, POST_finalizar, POST_itens.
        now rewrite !(rota_com_pedido _ _ _ _ _ Hp Ha).
  - intros i. rewrite DELETE_item_casos. split.
    + intros Hi Hn. now rewrite Hn, Hi.
    + intros it p Hi Hp. rewrite Hi, Hp. split.
      * intros Ha Hd. now rewrite (guarda_proibido _ _ Ha Hd).
      * intros Ha. now rewrite (guarda_autorizado _ _ Ha).
Qed.

(** ** C6 *)

(** Two binary64 numbers that the comparison tells apart are different. *)
Lemma float_diferente (x y : float) : PrimFloat.eqb x y = false ->
  PrimFloat.eqb y y = true -> x <> y.
Proof. intros H1 H2 E. subst x. congruence. Qed.

(** C6.  Neither AddItem nor RemoveItem looks at the status of the
    order.  For an order in any status whatever, a caller who may act on it
    adds an item, given a body that passes the checks of its schema and
    whose quantity the database can hold (the order's items become the old
    ones followed by the new one, its price as SQLite stores it), or
    removes one (the order's items become the old ones without it); the
    stored price becomes the total of the new item set and the status
    stays what it was.  On the sample database this changes the price of
    a finalized order (20 to 32) and of a canceled one (5 to 0). *)
Theorem itens_mutaveis_em_qualquer_status :
  (forall (usuario : Usuario.t) (b : Banco) (id_pedido : Z)
          (pedido : Pedido.t) (item_schema : ItemPedidoSchema),
      pedido_por_id b id_pedido = Some pedido ->
      Usuario.admin usuario = true
      \/ Usuario.id usuario = Pedido.usuario pedido ->
      corpo_valido item_schema = true ->
      int64 (is_quantidade item_schema) = true ->
      exists (pedido' : Pedido.t) (b' : Banco),
        POST_itens usuario id_pedido item_schema b = (Retorno pedido', b')
        /\ pedido_por_id b' id_pedido = Some pedido'
        /\ Pedido.status pedido' = Pedido.status pedido
        /\ itens_de b' id_pedido =
           (itens_de b id_pedido
            ++ [ItemPedido.Build
                  (novo_id (map ItemPedido.id (itens_pedido b)))
                  (is_quantidade item_schema) (is_sabor item_schema)
                  (is_tamanho item_schema)
                  (sqlite_real (is_preco_unitario item_schema))
                  id_pedido])%list
        /\ Pedido.preco pedido' = total_itens (itens_de b' id_pedido))
  /\
  (forall (usuario : Usuario.t) (b : Banco) (id_item_pedido : Z)
          (item : ItemPedido.t) (pedido : Pedido.t),
      item_por_id b id_item_pedido = Some item ->
      pedido_por_id b (ItemPedido.pedido item) = Some pedido ->
      Usuario.admin usuario = true
      \/ Usuario.id usuario = Pedido.usuario pedido ->
      exists (pedido' : Pedido.t) (b' : Banco),
        DELETE_item usuario id_item_pedido b = (Retorno pedido', b')
        /\ pedido_por_id b' (ItemPedido.pedido item) = Some pedido'
        /\ Pedido.status pedido' = Pedido.status pedido
        /\ itens_de b' (ItemPedido.pedido item) =
           filter (fun r => negb (ItemPedido.id r =? id_item_pedido))
             (itens_de b (ItemPedido.pedido item))
        /\ Pedido.preco pedido' =
           total_itens (itens_de b' (ItemPedido.pedido item)))
  /\
  (exists b' : Banco,
      pedido_por_id banco_exemplo 1 = Some (Pedido.Build 1 "FINALIZADO" 1 20)
      /\ POST_itens ana 1 suco_schema banco_exemplo =
         (Retorno (Pedido.Build 1 "FINALIZADO" 1 32), b')
      /\ (32 <> 20)%float)
  /\
  (exists b' : Banco,
      pedido_por_id banco_exemplo 2 = Some (Pedido.Build 2 "CANCELADO" 1 5)
      /\ DELETE_item ana 2 banco_exemplo =
         (Retorno (Pedido.Build 2 "CANCELADO" 1 0), b')
      /\ (0 <> 5)%float).
Proof.
  split; [|split; [|split]].
  - intros usuario b i p item_schema Hp Ha Hv Hq.
    pose proof (pedido_por_id_id _ _ _ Hp) as Hi. subst i.
    rewrite POST_itens_casos, Hp, (guarda_autorizado _ _ Ha), Hv.
    rewrite (adicionar_item_pedido_exec b p item_schema Hp Hq).
    eexists. eexists. split; [reflexivity|].
    split; [|split; [reflexivity|split; [|reflexivity]]].
    + apply (pedido_por_id_atualizar _ p (Pedido.com_preco _ p)). exact Hp.
    + rewrite itens_de_atualizar, itens_de_inserir_item. simpl.
      now rewrite Z.eqb_refl.
  - intros usuario b i it p Hi Hp Ha.
    pose proof (pedido_por_id_id _ _ _ Hp) as Hid.
    pose proof (item_por_id_id _ _ _ Hi) as Hit.
    rewrite DELETE_item_casos, Hi, Hp, (guarda_autorizado _ _ Ha).
    rewrite (remover_item_pedido_exec b it p Hp).
    eexists. eexists. split; [reflexivity|]. rewrite <- Hid.
    split; [|split; [reflexivity|split; [|reflexivity]]].
    + apply (pedido_por_id_atualizar _ p (Pedido.com_preco _ p)).
      simpl. now rewrite Hid.
    + rewrite itens_de_atualizar, itens_de_apagar. now rewrite Hit.
  - eexists. split; [reflexivity|]. split; [vm_compute; reflexivity|].
    apply float_diferente; reflexivity.
  - eexists. split; [reflexivity|]. split; [vm_compute; reflexivity|].
    apply float_diferente; reflexivity.
Qed.

(** ** C8 *)

(** C8.  ListAll answers 403 to every identity that is not an admin.
    ListMine succeeds for every identity, changes nothing, and returns
    exactly the stored orders whose owner is the caller. *)
Theorem listagens_por_identidade :
  forall (usuario : Usuario.t) (b : Banco),
    (Usuario.admin usuario = false ->
     GET_pedidos usuario b =
     (HTTPException 403 "Você não tem autorização para acessar esta rota" [],
      b))
    /\
    (exists meus : list Pedido.t,
        GET_pedidos_meus usuario b = (Retorno meus, b)
        /\ meus = pedidos_do_usuario b (Usuario.id usuario)
        /\ forall p : Pedido.t,
            In p meus <->
            In p (pedidos b) /\ Pedido.usuario p = Usuario.id usuario).
Proof.
  intros usuario b. split.
  - intros Ha. unfold GET_pedidos, listar_todos_pedidos. now rewrite Ha.
  - exists (pedidos_do_usuario b (Usuario.id usuario)).
    split; [reflexivity | split; [reflexivity|]].
    + intros p. unfold pedidos_do_usuario. rewrite filter_In.
      now rewrite Z.eqb_eq.
Qed.

(** ** [int(str(n))] *)

Lemma digito_nao_e_espaco (c : ascii) :
  eh_digito c = true ->
  eh_espaco c = false /\ Ascii.eqb c "_" = false
  /\ c <> "+"%char /\ c <> "-"%char.
Proof.
  destruct c as [[|] [|] [|] [|] [|] [|] [|] [|]]; vm_compute;
    intros H; try discriminate H; repeat split; discriminate.
Qed.

Lemma digitos_NilEmpty (d : Decimal.uint) :
  forallb eh_digito (list_ascii_of_string (NilEmpty.string_of_uint d)) = true.
Proof. induction d; simpl; auto. Qed.

Lemma digitos_NilZero (d : Decimal.uint) :
  forallb eh_digito (list_ascii_of_string (NilZero.string_of_uint d)) = true
  /\ NilZero.string_of_uint d <> EmptyString.
Proof.
  destruct d; simpl; split;
    try reflexivity; try discriminate; apply digitos_NilEmpty.
Qed.

Lemma lstrip_digitos (s : string) :
  forallb eh_digito (list_ascii_of_string s) = true -> lstrip s = s.
Proof.
  destruct s as [|c r]; simpl; [reflexivity|].
  intros H. apply andb_true_iff in H. destruct H as [Hc _].
  now rewrite (proj1 (digito_nao_e_espaco c Hc)).
Qed.

Lemma rstrip_digitos (s : string) :
  forallb eh_digito (list_ascii_of_string s) = true -> rstrip s = s.
Proof.
  induction s as [|c r IH]; simpl; [reflexivity|].
  intros H. apply andb_true_iff in H. destruct H as [Hc Hr].
  rewrite (IH Hr). rewrite (proj1 (digito_nao_e_espaco c Hc)).
  now destruct r.
Qed.

Lemma rstrip_apos_sinal (c : ascii) (s : string) :
  s <> EmptyString -> rstrip s = s -> rstrip (String c s) = String c s.
Proof.
  intros Hn E. simpl. rewrite E. destruct s; [congruence | reflexivity].
Qed.

Lemma sem_sublinhados_digitos (s : string) (apos : bool) :
  forallb eh_digito (list_ascii_of_string s) = true ->
  sem_sublinhados apos s = Some s.
Proof.
  revert apos. induction s as [|c r IH]; simpl; [reflexivity|].
  intros apos H. apply andb_true_iff in H. destruct H as [Hc Hr].
  destruct (digito_nao_e_espaco c Hc) as [_ [Hu _]].
  rewrite Hu, (IH _ Hr). reflexivity.
Qed.

Lemma py_digitos_string_of_uint (d : Decimal.uint) :
  py_digitos (NilZero.string_of_uint d) = Some (Z.of_uint d).
Proof.
  unfold py_digitos.
  rewrite (sem_sublinhados_digitos _ _ (proj1 (digitos_NilZero d))).
  destruct (Decimal.uint_eq_dec d Decimal.Nil) as [-> | Hd]; [reflexivity|].
  now rewrite (NilZero.usu d Hd).
Qed.

Lemma py_int_string_of_int (i : Decimal.int) :
  py_int (NilZero.string_of_int i) = Some (Z.of_int i).
Proof.
  destruct i as [d | d]; simpl.
  - destruct (digitos_NilZero d) as [Hd Hn].
    unfold py_int. rewrite (lstrip_digitos _ Hd), (rstrip_digitos _ Hd).
    pose proof (py_digitos_string_of_uint d) as E.
    destruct (NilZero.string_of_uint d) as [|c r] eqn:Es; [congruence|].
    simpl in Hd. apply andb_true_iff in Hd. destruct Hd as [Hc _].
    destruct (digito_nao_e_espaco c Hc) as [_ [_ [Hp Hm]]].
    destruct c as [[|] [|] [|] [|] [|] [|] [|] [|]];
      try exact E; congruence.
  - destruct (digitos_NilZero d) as [Hd Hn].
    pose proof (py_digitos_string_of_uint d) as E.
    pose proof (rstrip_digitos _ Hd) as Er.
    unfold py_int.
    change (lstrip (String "-" (NilZero.string_of_uint d)))
      with (String "-" (NilZero.string_of_uint d)).
    rewrite (rstrip_apos_sinal _ _ Hn Er), E. reflexivity.
Qed.

(** Reading back the numeral of an int gives the int: the subject that
    [criar_token] writes is the key that the resolution looks up. *)
Lemma py_int_py_str (n : Z) : py_int (py_str n) = Some n.
Proof.
  unfold py_str. rewrite py_int_string_of_int.
  now rewrite DecimalZ.of_to.
Qed.

(** ** Credentials *)

Section Propriedades_das_credenciais.

Variable jwt_encode : Claims -> string.
Variable jwt_decode : string -> option Claims.
Variable bcrypt_hash : string -> string + string.
Variable bcrypt_verify : string -> string -> string + bool.
Variable ACCESS_TOKEN_EXPIRE_MINUTES : Z.

Lemma usuario_por_email_existe (b : Banco) (email : string) :
  (exists u, In u (usuarios b) /\ Usuario.email u = email) ->
  exists u, usuario_por_email b email = Some u.
Proof.
  intros [u [Hin He]]. unfold usuario_por_email.
  destruct (find _ (usuarios b)) as [u'|] eqn:E; [now exists u'|].
  apply (find_none _ _ E) in Hin.
  apply String.eqb_neq in Hin. contradiction.
Qed.

Lemma usuario_por_email_ausente (b : Banco) (email : string) :
  (forall u, In u (usuarios b) -> Usuario.email u <> email) ->
  usuario_por_email b email = None.
Proof.
  intros H. unfold usuario_por_email.
  destruct (find _ (usuarios b)) as [u|] eqn:E; [|reflexivity].
  apply find_some in E. destruct E as [Hin He].
  apply String.eqb_eq in He. now apply H in Hin.
Qed.

Lemma autenticar_usuario_casos (email senha : string) (b : Banco) :
  executar (autenticar_usuario bcrypt_verify email senha) b =
  (match usuario_por_email b email with
   | None => Retorno None
   | Some u =>
       match bcrypt_verify senha (Usuario.senha u) with
       | inl e => Excecao e
       | inr true => Retorno (Some u)
       | inr false => Retorno None
       end
   end,
   b).
Proof.
  unfold autenticar_usuario. desdobrar.
  destruct (usuario_por_email b email) as [u|]; [|reflexivity].
  now destruct (bcrypt_verify senha (Usuario.senha u)) as [e|[|]].
Qed.

Lemma login_casos (agora : Z) (login_schema : LoginSchema) (b : Banco) :
  POST_login jwt_encode bcrypt_verify ACCESS_TOKEN_EXPIRE_MINUTES agora
    login_schema b =
  match fst (executar
               (autenticar_usuario bcrypt_verify (ls_email login_schema)
                  (ls_senha login_schema)) b) with
  | Retorno (Some u) =>
      (Retorno
         {| access_token :=
              criar_token jwt_encode agora (Usuario.id u)
                (duracao_padrao ACCESS_TOKEN_EXPIRE_MINUTES);
            refresh_token :=
              Some (criar_token jwt_encode agora (Usuario.id u) (7 * 86400));
            token_type := "Bearer" |},
       b)
  | Retorno None =>
      (HTTPException 401 "Usuário ou senha inválidos"
         [("WWW-Authenticate", "Bearer")],
       b)
  | HTTPException c d h => (HTTPException c d h, b)
  | Excecao e => (Excecao e, b)
  end.
Proof.
  rewrite autenticar_usuario_casos.
  unfold POST_login, login, autenticar_usuario. desdobrar.
  destruct (usuario_por_email b (ls_email login_schema)) as [u|];
    [|reflexivity].
  now destruct (bcrypt_verify (ls_senha login_schema) (Usuario.senha u))
    as [e|[|]].
Qed.

Lemma login_form_casos (agora : Z) (username password : string) (b : Banco) :
  POST_login_form jwt_encode bcrypt_verify ACCESS_TOKEN_EXPIRE_MINUTES agora
    username password b =
  match fst (executar
               (autenticar_usuario bcrypt_verify username password) b) with
  | Retorno (Some u) =>
      (Retorno
         {| access_token :=
              criar_token jwt_encode agora (Usuario.id u)
                (duracao_padrao ACCESS_TOKEN_EXPIRE_MINUTES);
            refresh_token := None;
            token_type := "Bearer" |},
       b)
  | Retorno None =>
      (HTTPException 401 "Usuário ou senha inválidos"
         [("WWW-Authenticate", "Bearer")],
       b)
  | HTTPException c d h => (HTTPException c d h, b)
  | Excecao e => (Excecao e, b)
  end.
Proof.
  rewrite autenticar_usuario_casos.
  unfold POST_login_form, login_form, autenticar_usuario. desdobrar.
  destruct (usuario_por_email b username) as [u|]; [|reflexivity].
  now destruct (bcrypt_verify password (Usuario.senha u)) as [e|[|]].
Qed.

(** The optional resolution, case by case. *)
Lemma pegar_usuario_logado_opcional_casos (token : option string)
    (b : Banco) :
  executar (pegar_usuario_logado_opcional jwt_decode token) b =
  match token with
  | None => (Retorno None, b)
  | Some token =>
      if String.eqb token "" then (Retorno None, b)
      else
        match jwt_decode token with
        | None => (Retorno None, b)
        | Some payload =>
            match sub payload with
            | None => (Retorno None, b)
            | Some id_usuario =>
                match py_int id_usuario with
                | None => (Excecao "ValueError", b)
                | Some n =>
                    match usuario_por_id b n with
                    | Some u => (Retorno (Some u), b)
                    | None =>
                        if int64 n then (Retorno None, b)
                        else (Excecao "OverflowError", b)
                    end
                end
            end
        end
  end.
Proof.
  destruct token as [[|c r]|]; try reflexivity.
  unfold pegar_usuario_logado_opcional. simpl String.eqb.
  destruct (jwt_decode (String c r)) as [payload|]; [|reflexivity].
  destruct (sub payload) as [s|]; [|reflexivity].
  destruct (py_int s) as [n|]; [|reflexivity].
  desdobrar. destruct (usuario_por_id b n); [reflexivity|].
  now destruct (int64 n).
Qed.

(** ** C5 *)

(** C5 (where the code departs from it).  A token that verifies makes
    the optional resolution end in an exception instead of returning
    [None] when its subject, a string of ASCII characters, is not a
    numeral that [int] reads ([ValueError]: the conversion is outside the
    [try] block), and when it is the numeral of an integer that names no
    account because no key of the database can hold it
    ([OverflowError], from the query). *)
Theorem resolucao_opcional_levanta_ValueError :
  forall (token id_usuario : string) (payload : Claims) (b : Banco),
    token <> "" ->
    jwt_decode token = Some payload ->
    sub payload = Some id_usuario ->
    so_ascii id_usuario = true ->
    (py_int id_usuario = None ->
     executar (pegar_usuario_logado_opcional jwt_decode (Some token)) b =
     (Excecao "ValueError", b))
    /\
    (forall n : Z,
        (String.length id_usuario <= 4300)%nat ->
        py_int id_usuario = Some n ->
        int64 n = false ->
        usuario_por_id b n = None ->
        executar (pegar_usuario_logado_opcional jwt_decode (Some token)) b =
        (Excecao "OverflowError", b)).
Proof.
  intros token s payload b Hn Hd Hs _.
  rewrite pegar_usuario_logado_opcional_casos.
  apply String.eqb_neq in Hn. rewrite Hn, Hd, Hs. split.
  - intros Hi. now rewrite Hi.
  - intros n _ Hi Hr Hu. now rewrite Hi, Hu, Hr.
Qed.

(** Where the resolution does not get as far as the conversion, or
    [int] reads the subject as an integer that a key can be, it returns:
    [None] for an absent or empty token, a token that does not verify, a
    payload with no subject, and a subject that is the key of no
    account. *)
Lemma resolucao_opcional_sem_identidade :
  forall (token : option string) (b : Banco),
    token = None \/ token = Some ""
    \/ (exists t, token = Some t /\ jwt_decode t = None)
    \/ (exists t payload,
           token = Some t /\ jwt_decode t = Some payload
           /\ sub payload = None)
    \/ (exists t payload id_usuario n,
           token = Some t /\ jwt_decode t = Some payload
           /\ sub payload = Some id_usuario
           /\ (String.length id_usuario <= 4300)%nat
           /\ py_int id_usuario = Some n
           /\ int64 n = true
           /\ usuario_por_id b n = None) ->
    executar (pegar_usuario_logado_opcional jwt_decode token) b =
    (Retorno None, b).
Proof.
  intros token b H. rewrite pegar_usuario_logado_opcional_casos.
  destruct H as [-> | [-> | [[t [-> H]] | [[t [p [-> [H1 H2]]]] | H]]]];
    try reflexivity.
  - rewrite H. now destruct (String.eqb t "").
  - rewrite H1, H2. now destruct (String.eqb t "").
  - destruct H as [t [p [s [n [-> [H1 [H2 [_ [H3 [H4 H5]]]]]]]]]].
    rewrite H1, H2, H3, H5, H4. now destruct (String.eqb t "").
Qed.

(** ** C7 *)

(** Register, case by case. *)
Lemma criar_conta_casos (usuario_schema : UsuarioSchema) (b : Banco) :
  POST_criar_conta bcrypt_hash usuario_schema b =
  match usuario_por_email b (us_email usuario_schema) with
  | Some _ => (HTTPException 400 "Já existe um usuário com esse email" [], b)
  | None =>
      match bcrypt_hash (us_senha usuario_schema) with
      | inl e => (HTTPException 500 ("Erro ao criar usuário: " ++ e) [], b)
      | inr senha_criptografada =>
          (Retorno
             ("Usuário " ++ us_email usuario_schema ++ " criado com sucesso"),
           inserir b
             (ObjUsuario
                (Usuario.init (us_nome usuario_schema)
                   (us_email usuario_schema) senha_criptografada true false)))
      end
  end.
Proof.
  unfold POST_criar_conta, criar_conta, try_except, refresh_novo_usuario,
    rollback.
  desdobrar.
  destruct (usuario_por_email b (us_email usuario_schema)); [reflexivity|].
  destruct (bcrypt_hash (us_senha usuario_schema)) as [e|h]; simpl;
    [reflexivity|].
  rewrite rev_unit. reflexivity.
Qed.

(** C7, as the code has it.  Register ([POST_criar_conta]): when some
    stored account has the given email, the call fails with status code
    400 and the database is left as it was.  When none has and the hashing
    returns, the call succeeds and the database gains exactly one row, the
    new account, with the given name and email, the hash of the given
    password, active and not admin, whatever the request said about
    [ativo].  When none has and the hashing raises, the call fails with
    status code 500, its detail quoting the exception, and the database is
    left as it was. *)
Theorem criar_conta_email_unico :
  forall (usuario_schema : UsuarioSchema) (b : Banco),
    ((exists u, In u (usuarios b)
                /\ Usuario.email u = us_email usuario_schema) ->
     POST_criar_conta bcrypt_hash usuario_schema b =
     (HTTPException 400 "Já existe um usuário com esse email" [], b))
    /\
    ((forall u, In u (usuarios b) ->
                Usuario.email u <> us_email usuario_schema) ->
     (forall senha_criptografada : string,
         bcrypt_hash (us_senha usuario_schema) = inr senha_criptografada ->
         POST_criar_conta bcrypt_hash usuario_schema b =
         (Retorno
            ("Usuário " ++ us_email usuario_schema ++ " criado com sucesso"),
          {| usuarios :=
               (usuarios b
                ++ [Usuario.Build (novo_id (map Usuario.id (usuarios b)))
                      (us_nome usuario_schema) (us_email usuario_schema)
                      senha_criptografada true false])%list;
             pedidos := pedidos b;
             itens_pedido := itens_pedido b |}))
     /\
     (forall e : string,
         bcrypt_hash (us_senha usuario_schema) = inl e ->
         POST_criar_conta bcrypt_hash usuario_schema b =
         (HTTPException 500 ("Erro ao criar usuário: " ++ e) [], b))).
Proof.
  intros usuario_schema b. rewrite criar_conta_casos. split.
  - intros H. apply usuario_por_email_existe in H. destruct H as [u Hu].
    now rewrite Hu.
  - intros H. apply usuario_por_email_ausente in H. rewrite H. split.
    + intros h Hh. now rewrite Hh.
    + intros e He. now rewrite He.
Qed.

(** ** C9 *)

(** Take any two failing logins, at any two moments and on any two
    states of the database: one for an email that no account has, one for
    an email whose account's hash is compared with the password and
    rejects it.  In both [autenticar_usuario] returns [False], and both
    requests get one and the same answer, a 401 with the same detail and
    headers, on either login route; neither changes the database. *)
Lemma falha_de_login_uniforme :
  forall (agora1 agora2 : Z) (b1 b2 : Banco)
         (desconhecido errado : LoginSchema) (u : Usuario.t),
    usuario_por_email b1 (ls_email desconhecido) = None ->
    usuario_por_email b2 (ls_email errado) = Some u ->
    bcrypt_verify (ls_senha errado) (Usuario.senha u) = inr false ->
    let falha : Resultado TokenSchema :=
      HTTPException 401 "Usuário ou senha inválidos"
        [("WWW-Authenticate", "Bearer")] in
    executar (autenticar_usuario bcrypt_verify (ls_email desconhecido)
                (ls_senha desconhecido)) b1 = (Retorno None, b1)
    /\ executar (autenticar_usuario bcrypt_verify (ls_email errado)
                   (ls_senha errado)) b2 = (Retorno None, b2)
    /\ POST_login jwt_encode bcrypt_verify ACCESS_TOKEN_EXPIRE_MINUTES agora1
         desconhecido b1 = (falha, b1)
    /\ POST_login jwt_encode bcrypt_verify ACCESS_TOKEN_EXPIRE_MINUTES agora2
         errado b2 = (falha, b2)
    /\ POST_login_form jwt_encode bcrypt_verify ACCESS_TOKEN_EXPIRE_MINUTES
         agora1 (ls_email desconhecido) (ls_senha desconhecido) b1 =
       (falha, b1)
    /\ POST_login_form jwt_encode bcrypt_verify ACCESS_TOKEN_EXPIRE_MINUTES
         agora2 (ls_email errado) (ls_senha errado) b2 = (falha, b2).
Proof.
  intros agora1 agora2 b1 b2 d e u Hd He Hv. cbv zeta.
  rewrite !login_casos, !login_form_casos, !autenticar_usuario_casos.
  rewrite Hd, He, Hv. simpl. repeat split.
Qed.

(** C9 (where the code departs from it).  Take two failing logins with
    one and the same password, one for an email that no account has, one
    for the email of a stored account, where the verification of the
    password against the stored hash fails by raising.  The first is
    answered 401; the second ends in the exception of the library, which
    nothing catches: the two answers differ, on either login route, and
    tell whether the email has an account. *)
Theorem falha_de_login_revela_o_email :
  forall (agora1 agora2 : Z) (b1 b2 : Banco)
         (desconhecido errado : LoginSchema) (u : Usuario.t) (e : string),
    usuario_por_email b1 (ls_email desconhecido) = None ->
    usuario_por_email b2 (ls_email errado) = Some u ->
    ls_senha desconhecido = ls_senha errado ->
    bcrypt_verify (ls_senha errado) (Usuario.senha u) = inl e ->
    let falha : Resultado TokenSchema :=
      HTTPException 401 "Usuário ou senha inválidos"
        [("WWW-Authenticate", "Bearer")] in
    POST_login jwt_encode bcrypt_verify ACCESS_TOKEN_EXPIRE_MINUTES agora1
      desconhecido b1 = (falha, b1)
    /\ POST_login jwt_encode bcrypt_verify ACCESS_TOKEN_EXPIRE_MINUTES agora2
         errado b2 = (Excecao e, b2)
    /\ POST_login_form jwt_encode bcrypt_verify ACCESS_TOKEN_EXPIRE_MINUTES
         agora1 (ls_email desconhecido) (ls_senha desconhecido) b1 =
       (falha, b1)
    /\ POST_login_form jwt_encode bcrypt_verify ACCESS_TOKEN_EXPIRE_MINUTES
         agora2 (ls_email errado) (ls_senha errado) b2 = (Excecao e, b2)
    /\ falha <> Excecao e.
Proof.
  intros agora1 agora2 b1 b2 d r u e Hd Hr _ Hv. cbv zeta.
  rewrite !login_casos, !login_form_casos, !autenticar_usuario_casos.
  rewrite Hd, Hr, Hv. simpl. repeat split. discriminate.
Qed.

(** ** C10 *)

(** C10.  No route reads [ativo].  For an account stored with
    [ativo = False]: a login with its email and a password that its hash
    accepts authenticates it and returns the token pair made for its key;
    a token that verifies and whose subject is the numeral of its key
    resolves to it; and every order route answers it as it answers the
    same account with [ativo = True]. *)
Theorem conta_inativa_tem_o_mesmo_acesso :
  forall (b : Banco) (u : Usuario.t),
    Usuario.ativo u = false ->
    (forall (agora : Z) (login_schema : LoginSchema),
        usuario_por_email b (ls_email login_schema) = Some u ->
        bcrypt_verify (ls_senha login_schema) (Usuario.senha u) = inr true ->
        executar (autenticar_usuario bcrypt_verify (ls_email login_schema)
                    (ls_senha login_schema)) b = (Retorno (Some u), b)
        /\ POST_login jwt_encode bcrypt_verify ACCESS_TOKEN_EXPIRE_MINUTES
             agora login_schema b =
           (Retorno
              {| access_token :=
                   criar_token jwt_encode agora (Usuario.id u)
                     (duracao_padrao ACCESS_TOKEN_EXPIRE_MINUTES);
                 refresh_token :=
                   Some (criar_token jwt_encode agora (Usuario.id u)
                           (7 * 86400));
                 token_type := "Bearer" |},
            b))
    /\
    (forall (token : string) (payload : Claims),
        token <> "" ->
        jwt_decode token = Some payload ->
        sub payload = Some (py_str (Usuario.id u)) ->
        usuario_por_id b (Usuario.id u) = Some u ->
        executar (pegar_usuario_logado_opcional jwt_decode (Some token)) b =
        (Retorno (Some u), b))
    /\
    (forall (id_pedido id_item_pedido : Z) (item_schema : ItemPedidoSchema),
        let ativa := Usuario.com_ativo true u in
        GET_pedidos u b = GET_pedidos ativa b
        /\ POST_pedidos u b = POST_pedidos ativa b
        /\ GET_pedidos_meus u b = GET_pedidos_meus ativa b
        /\ GET_pedido u id_pedido b = GET_pedido ativa id_pedido b
        /\ POST_cancelar u id_pedido b = POST_cancelar ativa id_pedido b
        /\ POST_finalizar u id_pedido b = POST_finalizar ativa id_pedido b
        /\ POST_itens u id_pedido item_schema b =
           POST_itens ativa id_pedido item_schema b
        /\ DELETE_item u id_item_pedido b =
           DELETE_item ativa id_item_pedido b).
Proof.
  intros b u Hat. split; [|split].
  - intros agora ls He Hv.
    rewrite login_casos, autenticar_usuario_casos.
    rewrite He, Hv. split; reflexivity.
  - intros token payload Hn Hd Hs Hu.
    rewrite pegar_usuario_logado_opcional_casos.
    apply String.eqb_neq in Hn.
    now rewrite Hn, Hd, Hs, py_int_py_str, Hu.
  - intros i j item_schema. cbv zeta. repeat split.
Qed.

End Propriedades_das_credenciais.

(** ** The theorems at work on the sample database *)

(** Ana adds three juices to her finalized order and removes the soda
    from her canceled one: the stored prices are the totals, 32 and 0. *)
Lemma preco_e_a_soma_dos_itens_apos_mutacao_witness :
  Pedido.preco (Pedido.Build 1 "FINALIZADO" 1 32) =
  total_itens (itens_de (snd (POST_itens ana 1 suco_schema banco_exemplo)) 1)
  /\
  Pedido.preco (Pedido.Build 2 "CANCELADO" 1 0) =
  total_itens (itens_de (snd (DELETE_item ana 2 banco_exemplo)) 2).
Proof.
  split.
  - refine (proj2 (proj1 (preco_e_a_soma_dos_itens_apos_mutacao
                            ana banco_exemplo _ _) 1 suco_schema _)).
    vm_compute. reflexivity.
  - refine (proj2 (proj2 (preco_e_a_soma_dos_itens_apos_mutacao
                            ana banco_exemplo _ _) 2 _)).
    vm_compute. reflexivity.
Defined.

(** Bia cancels her pending order. *)
Lemma cancelar_sse_pendente_ou_em_preparo_witness :
  exists b' : Banco,
    POST_cancelar bia 3 banco_exemplo =
    (Retorno (Pedido.Build 3 "CANCELADO" 2 0), b')
    /\ pedido_por_id b' 3 = Some (Pedido.Build 3 "CANCELADO" 2 0)
    /\ "CANCELADO" = "CANCELADO".
Proof.
  refine (proj1 (proj2 (cancelar_sse_pendente_ou_em_preparo
                          bia banco_exemplo 3 (Pedido.Build 3 "PENDENTE" 2 0)
                          _ _)) _).
  - reflexivity.
  - right. reflexivity.
  - simpl. left. reflexivity.
Defined.

(** Bia finalizes her order in preparation. *)
Lemma finalizar_sse_em_preparo_witness :
  exists b' : Banco,
    POST_finalizar bia 4 banco_exemplo =
    (Retorno (Pedido.Build 4 "FINALIZADO" 2 0), b')
    /\ pedido_por_id b' 4 = Some (Pedido.Build 4 "FINALIZADO" 2 0)
    /\ "FINALIZADO" = "FINALIZADO".
Proof.
  refine (proj1 (proj2 (finalizar_sse_em_preparo
                          bia banco_exemplo 4
                          (Pedido.Build 4 "EM_PREPARO" 2 0) _ _)) _).
  - reflexivity.
  - right. reflexivity.
  - reflexivity.
Defined.

(** Bia asks for an order that does not exist, then for Ana's: 404,
    then 403; the same for items. *)
Lemma existencia_antes_da_autorizacao_witness :
  GET_pedido bia 99 banco_exemplo =
  (HTTPException 404 "Pedido não encontrado" [], banco_exemplo)
  /\ POST_cancelar bia 1 banco_exemplo =
     (HTTPException 403 nao_autorizado [], banco_exemplo)
  /\ DELETE_item bia 99 banco_exemplo =
     (HTTPException 404 "Item de pedido não encontrado" [], banco_exemplo)
  /\ DELETE_item bia 1 banco_exemplo =
     (HTTPException 403 nao_autorizado [], banco_exemplo).
Proof.
  pose proof (existencia_antes_da_autorizacao bia banco_exemplo) as [Hp Hi].
  split; [|split; [|split]].
  - apply (proj1 (Hp 99 suco_schema)); reflexivity.
  - apply (proj1 (proj2 (Hp 1 suco_schema)
                    (Pedido.Build 1 "FINALIZADO" 1 20) eq_refl)).
    + reflexivity.
    + simpl. lia.
  - apply (proj1 (Hi 99)); reflexivity.
  - apply (proj1 (proj2 (Hi 1) burger
                    (Pedido.Build 1 "FINALIZADO" 1 20) eq_refl eq_refl)).
    + reflexivity.
    + simpl. lia.
Defined.

(** The key 2^63 is one more than the largest that SQLite holds: no
    order and no item has it, and asking for it ends in an
    [OverflowError] where C4 promises a 404. *)
Lemma existencia_antes_da_autorizacao_contraexemplo :
  pedido_por_id banco_exemplo 9223372036854775808 = None
  /\ GET_pedido bia 9223372036854775808 banco_exemplo =
     (Excecao "OverflowError", banco_exemplo)
  /\ GET_pedido bia 9223372036854775808 banco_exemplo <>
     (HTTPException 404 "Pedido não encontrado" [], banco_exemplo)
  /\ item_por_id banco_exemplo 9223372036854775808 = None
  /\ DELETE_item bia 9223372036854775808 banco_exemplo =
     (Excecao "OverflowError", banco_exemplo)
  /\ DELETE_item bia 9223372036854775808 banco_exemplo <>
     (HTTPException 404 "Item de pedido não encontrado" [], banco_exemplo).
Proof.
  repeat split; try reflexivity; vm_compute; discriminate.
Qed.

(** The admin adds an item to Ana's canceled order: its status stays. *)
Lemma itens_mutaveis_em_qualquer_status_witness :
  exists (pedido' : Pedido.t) (b' : Banco),
    POST_itens raiz 2 suco_schema banco_exemplo = (Retorno pedido', b')
    /\ pedido_por_id b' 2 = Some pedido'
    /\ Pedido.status pedido' = "CANCELADO"
    /\ itens_de b' 2 = [soda; ItemPedido.Build 3 3 "Suco" "Copo" 4 2]
    /\ Pedido.preco pedido' = total_itens (itens_de b' 2).
Proof.
  refine (proj1 itens_mutaveis_em_qualquer_status
            raiz banco_exemplo 2 (Pedido.Build 2 "CANCELADO" 1 5)
            suco_schema _ _ _ _).
  - reflexivity.
  - left. reflexivity.
  - reflexivity.
  - reflexivity.
Defined.

(** Bia, who is not an admin, lists all orders and is refused. *)
Lemma listagens_por_identidade_witness :
  GET_pedidos bia banco_exemplo =
  (HTTPException 403 "Você não tem autorização para acessar esta rota" [],
   banco_exemplo).
Proof.
  apply (proj1 (listagens_por_identidade bia banco_exemplo)). reflexivity.
Defined.

(** A token that verifies with subject "abc", and one whose subject is
    the numeral of 2^63. *)
Lemma resolucao_opcional_levanta_ValueError_witness :
  executar (pegar_usuario_logado_opcional jwt_decode_exemplo (Some "jwt.abc"))
    banco_exemplo =
  (Excecao "ValueError", banco_exemplo)
  /\
  executar (pegar_usuario_logado_opcional jwt_decode_exemplo
              (Some "jwt.9223372036854775808"))
    banco_exemplo =
  (Excecao "OverflowError", banco_exemplo).
Proof.
  split.
  - apply (proj1 (resolucao_opcional_levanta_ValueError jwt_decode_exemplo
                    "jwt.abc" "abc" {| sub := Some "abc"; exp := Some 1800 |}
                    banco_exemplo ltac:(discriminate) eq_refl eq_refl
                    eq_refl)).
    reflexivity.
  - apply (proj2 (resolucao_opcional_levanta_ValueError jwt_decode_exemplo
                    "jwt.9223372036854775808" "9223372036854775808"
                    {| sub := Some "9223372036854775808"; exp := Some 1800 |}
                    banco_exemplo ltac:(discriminate) eq_refl eq_refl
                    eq_refl) 9223372036854775808).
    + simpl. lia.
    + reflexivity.
    + reflexivity.
    + reflexivity.
Defined.

(** Ana's email is taken; Davi's is not, and his account is stored when
    his password is one that the hashing takes, and not stored when it is
    one that the hashing refuses. *)
Lemma criar_conta_email_unico_witness :
  POST_criar_conta bcrypt_hash_exemplo
    {| us_nome := "Outra"; us_email := "ana@x.com"; us_senha := "pw";
       us_ativo := None |} banco_exemplo =
  (HTTPException 400 "Já existe um usuário com esse email" [], banco_exemplo)
  /\
  POST_criar_conta bcrypt_hash_exemplo
    {| us_nome := "Davi"; us_email := "davi@x.com"; us_senha := "pw";
       us_ativo := Some false |} banco_exemplo =
  (Retorno "Usuário davi@x.com criado com sucesso",
   {| usuarios :=
        [ana; bia; raiz; caio;
         Usuario.Build 5 "Davi" "davi@x.com" "$2b$12$pw" true false];
      pedidos := pedidos banco_exemplo;
      itens_pedido := itens_pedido banco_exemplo |})
  /\
  POST_criar_conta bcrypt_hash_exemplo
    {| us_nome := "Davi"; us_email := "davi@x.com";
       us_senha := senha_com_nulo; us_ativo := Some false |} banco_exemplo =
  (HTTPException 500
     "Erro ao criar usuário: bcrypt does not allow NULL bytes in password" [],
   banco_exemplo).
Proof.
  assert (Hd : forall u, In u (usuarios banco_exemplo) ->
                         Usuario.email u <> "davi@x.com").
  { intros u Hin. simpl in Hin.
    destruct Hin as [<- | [<- | [<- | [<- | []]]]]; discriminate. }
  split; [|split].
  - apply (proj1 (criar_conta_email_unico bcrypt_hash_exemplo _ banco_exemplo)).
    exists ana. split; [simpl; left; reflexivity | reflexivity].
  - apply (proj1 (proj2 (criar_conta_email_unico bcrypt_hash_exemplo
                           {| us_nome := "Davi"; us_email := "davi@x.com";
                              us_senha := "pw"; us_ativo := Some false |}
                           banco_exemplo) Hd) "$2b$12$pw").
    reflexivity.
  - apply (proj2 (proj2 (criar_conta_email_unico bcrypt_hash_exemplo
                           {| us_nome := "Davi"; us_email := "davi@x.com";
                              us_senha := senha_com_nulo;
                              us_ativo := Some false |}
                           banco_exemplo) Hd)
             "bcrypt does not allow NULL bytes in password").
    reflexivity.
Defined.

(** No account has Davi's email, and his registration with a password
    that the hashing refuses stores no account: the call fails with
    status code 500 where C7 promises one new account. *)
Lemma criar_conta_email_unico_contraexemplo :
  usuario_por_email banco_exemplo "davi@x.com" = None
  /\ POST_criar_conta bcrypt_hash_exemplo
       {| us_nome := "Davi"; us_email := "davi@x.com";
          us_senha := senha_com_nulo; us_ativo := Some false |}
       banco_exemplo =
     (HTTPException 500
        "Erro ao criar usuário: bcrypt does not allow NULL bytes in password"
        [],
      banco_exemplo)
  /\ usuarios banco_exemplo = [ana; bia; raiz; caio].
Proof. repeat split. Qed.

(** One password with a NUL byte, sent with an unknown email and with
    Ana's: a 401 for the first, the exception of the library for the
    second. *)
Lemma falha_de_login_revela_o_email_witness :
  POST_login jwt_encode_exemplo bcrypt_verify_exemplo 30 0
    {| ls_email := "zed@x.com"; ls_senha := senha_com_nulo |} banco_exemplo =
  (HTTPException 401 "Usuário ou senha inválidos"
     [("WWW-Authenticate", "Bearer")],
   banco_exemplo)
  /\
  POST_login jwt_encode_exemplo bcrypt_verify_exemplo 30 0
    {| ls_email := "ana@x.com"; ls_senha := senha_com_nulo |} banco_exemplo =
  (Excecao "bcrypt does not allow NULL bytes in password", banco_exemplo).
Proof.
  pose proof (falha_de_login_revela_o_email
                jwt_encode_exemplo bcrypt_verify_exemplo 30 0 0
                banco_exemplo banco_exemplo
                {| ls_email := "zed@x.com"; ls_senha := senha_com_nulo |}
                {| ls_email := "ana@x.com"; ls_senha := senha_com_nulo |} ana
                "bcrypt does not allow NULL bytes in password"
                eq_refl eq_refl eq_refl eq_refl) as [H1 [H2 _]].
  split; [exact H1 | exact H2].
Defined.

(** Caio's account is inactive: he logs in, and his token resolves. *)
Lemma conta_inativa_tem_o_mesmo_acesso_witness :
  POST_login jwt_encode_exemplo bcrypt_verify_exemplo 30 0
    {| ls_email := "caio@x.com"; ls_senha := "caio" |} banco_exemplo =
  (Retorno {| access_token := "jwt.4"; refresh_token := Some "jwt.4";
              token_type := "Bearer" |},
   banco_exemplo)
  /\
  executar (pegar_usuario_logado_opcional jwt_decode_exemplo (Some "jwt.4"))
    banco_exemplo =
  (Retorno (Some caio), banco_exemplo).
Proof.
  pose proof (conta_inativa_tem_o_mesmo_acesso
                jwt_encode_exemplo jwt_decode_exemplo bcrypt_verify_exemplo 30
                banco_exemplo caio eq_refl) as [Hl [Ht _]].
  split.
  - apply (proj2 (Hl 0 {| ls_email := "caio@x.com"; ls_senha := "caio" |}
                    eq_refl eq_refl)).
  - apply (Ht "jwt.4" {| sub := Some "4"; exp := Some 1800 |}).
    + discriminate.
    + reflexivity.
    + reflexivity.
    + reflexivity.
Defined.

(** ** Invariants of the reachable states *)

Lemma novo_id_maior (ids : list Z) (x : Z) : In x ids -> x < novo_id ids.
Proof.
  unfold novo_id. induction ids as [|y ys IH]; cbn [fold_right In];
    [contradiction|].
  intros [-> | H]; [lia|]. apply IH in H. lia.
Qed.

Lemma filter_todos {A : Type} (f : A -> bool) (l : list A) :
  (forall x, In x l -> f x = true) -> filter f l = l.
Proof.
  intros H. apply forallb_filter_id. now apply forallb_forall.
Qed.

Lemma filter_nenhum {A : Type} (f : A -> bool) (l : list A) :
  (forall x, In x l -> f x = false) -> filter f l = [].
Proof.
  induction l as [|a l IH]; simpl; [reflexivity|].
  intros H. rewrite (H a (or_introl eq_refl)). apply IH.
  intros x Hx. apply H. now right.
Qed.

Lemma NoDup_map_filter {A B : Type} (g : A -> B) (f : A -> bool)
    (l : list A) :
  NoDup (map g l) -> NoDup (map g (filter f l)).
Proof.
  induction l as [|a l IH]; simpl; [trivial|].
  intros H. apply NoDup_cons_iff in H. destruct H as [Hn Hd].
  destruct (f a); simpl; [|now apply IH].
  constructor; [|now apply IH].
  intros Hin. apply Hn. apply in_map_iff in Hin.
  destruct Hin as [x [Hx Hin]]. apply filter_In in Hin.
  apply in_map_iff. exists x. tauto.
Qed.

Lemma NoDup_map_igual {A B : Type} (g : A -> B) (l : list A) (x y : A) :
  NoDup (map g l) -> In x l -> In y l -> g x = g y -> x = y.
Proof.
  induction l as [|a l IH]; simpl; [contradiction|].
  intros H Hx Hy E. apply NoDup_cons_iff in H. destruct H as [Hn Hd].
  destruct Hx as [-> | Hx], Hy as [-> | Hy]; trivial.
  - exfalso. apply Hn. rewrite E. now apply in_map.
  - exfalso. apply Hn. rewrite <- E. now apply in_map.
  - now apply IH.
Qed.

(** An UPDATE keeps the keys: a query by key finds a row after it iff
    it found one before. *)
Lemma pedido_por_id_atualizar_existe (b : Banco) (p' : Pedido.t) (i : Z) :
  (exists p, pedido_por_id b i = Some p) ->
  exists q, pedido_por_id (atualizar b p') i = Some q.
Proof.
  unfold pedido_por_id, atualizar. simpl.
  induction (pedidos b) as [|r rs IH]; simpl; intros [p H];
    [discriminate|].
  destruct (Pedido.id r =? Pedido.id p') eqn:E'; simpl.
  - apply Z.eqb_eq in E'.
    destruct (Pedido.id p' =? i) eqn:E; [eauto|].
    rewrite E', E in H. apply IH. eauto.
  - destruct (Pedido.id r =? i); [eauto|]. apply IH. eauto.
Qed.

Lemma find_no_prefixo {A : Type} (f : A -> bool) (l l' : list A) (x : A) :
  find f l = Some x -> find f (l ++ l') = Some x.
Proof.
  induction l as [|a l IH]; simpl; [discriminate|].
  now destruct (f a).
Qed.

Lemma pedido_por_id_inserir_pedido (b : Banco) (n : Pedido.t) (i : Z) :
  (exists p, pedido_por_id b i = Some p) ->
  exists q, pedido_por_id (inserir b (ObjPedido n)) i = Some q.
Proof.
  unfold pedido_por_id. simpl. intros [p H]. exists p.
  now apply find_no_prefixo.
Qed.

Lemma pedido_por_id_In (b : Banco) (i : Z) (p : Pedido.t) :
  pedido_por_id b i = Some p -> In p (pedidos b).
Proof. intros H. now apply find_some in H. Qed.

Lemma In_pedido_por_id (b : Banco) (p : Pedido.t) :
  In p (pedidos b) -> exists q, pedido_por_id b (Pedido.id p) = Some q.
Proof.
  intros H. unfold pedido_por_id.
  destruct (find _ (pedidos b)) as [q|] eqn:E; [eauto|].
  apply (find_none _ _ E) in H. now rewrite Z.eqb_refl in H.
Qed.

(** The rows after an UPDATE: the new row, or an old row under another
    key. *)
Lemma In_pedidos_atualizar (b : Banco) (p' r : Pedido.t) :
  In r (pedidos (atualizar b p')) ->
  r = p' \/ (In r (pedidos b) /\ Pedido.id r <> Pedido.id p').
Proof.
  unfold atualizar. simpl. intros H. apply in_map_iff in H.
  destruct H as [x [Hx Hin]].
  destruct (Pedido.id x =? Pedido.id p') eqn:E.
  - left. now subst r.
  - right. subst r. split; [exact Hin | now apply Z.eqb_neq].
Qed.

(** What an UPDATE of an order must bring for the invariant to stay. *)
Lemma bem_formado_atualizar (b : Banco) (p' : Pedido.t) :
  integridade b -> chaves_unicas b ->
  (forall r, In r (pedidos b) -> Pedido.id r <> Pedido.id p' ->
             Pedido.preco r = total_itens (itens_de b (Pedido.id r))) ->
  Pedido.preco p' = total_itens (itens_de b (Pedido.id p')) ->
  bem_formado (atualizar b p').
Proof.
  intros Hi Hc Hr Hp. split; [|split].
  - intros it Hin. apply pedido_por_id_atualizar_existe.
    apply Hi. exact Hin.
  - exact Hc.
  - intros r Hin. rewrite itens_de_atualizar.
    apply In_pedidos_atualizar in Hin.
    destruct Hin as [-> | [Hin Hd]]; [exact Hp | now apply Hr].
Qed.

Lemma bem_formado_status (b : Banco) (i : Z) (p : Pedido.t) (s : string) :
  bem_formado b -> pedido_por_id b i = Some p ->
  bem_formado (atualizar b (Pedido.com_status s p)).
Proof.
  intros [Hi [Hc Hp]] H. apply bem_formado_atualizar; trivial.
  - intros r Hin _. now apply Hp.
  - simpl. apply Hp. now apply pedido_por_id_In in H.
Qed.

Lemma bem_formado_adicionar (b : Banco) (p : Pedido.t) (it : ItemPedido.t) :
  bem_formado b -> pedido_por_id b (Pedido.id p) = Some p ->
  ItemPedido.pedido it = Pedido.id p ->
  bem_formado
    (atualizar (inserir b (ObjItem it))
       (Pedido.com_preco
          (total_itens (itens_de (inserir b (ObjItem it)) (Pedido.id p))) p)).
Proof.
  intros [Hi [Hc Hp]] H Hit. apply bem_formado_atualizar.
  - intros x Hin. simpl in Hin. apply in_app_or in Hin.
    destruct Hin as [Hin | [<- | []]].
    + apply Hi in Hin. exact Hin.
    + simpl. rewrite Hit. eauto.
  - unfold chaves_unicas. simpl. rewrite map_app. simpl.
    apply NoDup_app; [exact Hc | repeat constructor; intros [] |].
    intros a Ha [<- | []]. apply novo_id_maior in Ha. lia.
  - intros r Hin Hd. simpl in Hd.
    rewrite itens_de_inserir_item, Hit.
    destruct (Pedido.id p =? Pedido.id r) eqn:E.
    + apply Z.eqb_eq in E. congruence.
    + rewrite List.app_nil_r. now apply Hp.
  - reflexivity.
Qed.

Lemma bem_formado_remover (b : Banco) (i : Z) (it : ItemPedido.t)
    (p : Pedido.t) :
  bem_formado b -> item_por_id b i = Some it ->
  pedido_por_id b (ItemPedido.pedido it) = Some p ->
  bem_formado
    (atualizar (apagar b it)
       (Pedido.com_preco
          (total_itens (itens_de (apagar b it) (Pedido.id p))) p)).
Proof.
  intros [Hi [Hc Hp]] Hit H.
  pose proof (pedido_por_id_id _ _ _ H) as Hid.
  assert (Hin : In it (itens_pedido b)) by now apply find_some in Hit.
  apply bem_formado_atualizar.
  - intros x Hx. simpl in Hx. apply filter_In in Hx.
    destruct Hx as [Hx _]. apply Hi in Hx. exact Hx.
  - unfold chaves_unicas. simpl. now apply NoDup_map_filter.
  - intros r Hr Hd. simpl in Hd.
    rewrite itens_de_apagar, filter_todos; [now apply Hp|].
    intros x Hx. unfold itens_de in Hx. apply filter_In in Hx.
    destruct Hx as [Hx Hpx]. apply Z.eqb_eq in Hpx.
    apply negb_true_iff, Z.eqb_neq. intros E.
    apply (NoDup_map_igual _ _ _ _ Hc Hx Hin) in E. subst x. congruence.
  - reflexivity.
Qed.

Lemma bem_formado_inserir_pedido (b : Banco) (usuario : Z) :
  bem_formado b -> bem_formado (inserir b (ObjPedido (Pedido.init usuario))).
Proof.
  intros [Hi [Hc Hp]]. split; [|split].
  - intros it Hin. apply pedido_por_id_inserir_pedido. now apply Hi.
  - exact Hc.
  - intros r Hin. simpl in Hin. apply in_app_or in Hin.
    destruct Hin as [Hin | [<- | []]]; [now apply Hp|].
    simpl. unfold itens_de. simpl.
    rewrite filter_nenhum; [reflexivity|].
    intros x Hx. apply Z.eqb_neq. intros E.
    destruct (Hi x Hx) as [q Hq].
    pose proof (pedido_por_id_id _ _ _ Hq) as Hid.
    apply pedido_por_id_In in Hq.
    apply (in_map Pedido.id) in Hq. apply novo_id_maior in Hq. lia.
Qed.

Lemma bem_formado_inserir_usuario (b : Banco) (u : Usuario.t) :
  bem_formado b -> bem_formado (inserir b (ObjUsuario u)).
Proof. intros H. exact H. Qed.

(** [criar_admin], case by case. *)
Lemma criar_admin_exec (bcrypt_hash : string -> string + string)
    (usuario_schema : UsuarioSchema) (usuario_logado : Usuario.t)
    (b : Banco) :
  executar (criar_admin bcrypt_hash usuario_schema usuario_logado) b =
  if negb (Usuario.admin usuario_logado) then
    (HTTPException 403
       "Apenas administradores podem criar outros administradores" [], b)
  else
    match usuario_por_email b (us_email usuario_schema) with
    | Some _ =>
        (HTTPException 400 "Já existe um usuário com esse email" [], b)
    | None =>
        match bcrypt_hash (us_senha usuario_schema) with
        | inl e =>
            (HTTPException 500 ("Erro ao criar administrador: " ++ e) [], b)
        | inr senha_criptografada =>
            (Retorno ("Administrador " ++ us_email usuario_schema
                      ++ " criado com sucesso"),
             inserir b
               (ObjUsuario
                  (Usuario.init (us_nome usuario_schema)
                     (us_email usuario_schema) senha_criptografada
                     true true)))
        end
    end.
Proof.
  unfold criar_admin, try_except, refresh_novo_usuario, rollback.
  destruct (Usuario.admin usuario_logado); [|reflexivity]. desdobrar.
  destruct (usuario_por_email b (us_email usuario_schema)); [reflexivity|].
  destruct (bcrypt_hash (us_senha usuario_schema)) as [e|h]; simpl;
    [reflexivity|].
  rewrite rev_unit. reflexivity.
Qed.

(** Both account routes leave the database as it was or insert one
    account. *)
Lemma criar_conta_grava (bcrypt_hash : string -> string + string)
    (usuario_schema : UsuarioSchema) (b : Banco) :
  let b' := snd (POST_criar_conta bcrypt_hash usuario_schema b) in
  b' = b
  \/ usuario_por_email b (us_email usuario_schema) = None
     /\ exists u, Usuario.email u = us_email usuario_schema
                  /\ b' = inserir b (ObjUsuario u).
Proof.
  cbv zeta. rewrite criar_conta_casos.
  destruct (usuario_por_email b (us_email usuario_schema)); [now left|].
  destruct (bcrypt_hash (us_senha usuario_schema)) as [e|h]; [now left|].
  right. split; [reflexivity|]. eexists. split; [|reflexivity]. reflexivity.
Qed.

Lemma criar_admin_grava (bcrypt_hash : string -> string + string)
    (usuario_schema : UsuarioSchema) (usuario_logado : Usuario.t)
    (b : Banco) :
  let b' :=
    snd (executar (criar_admin bcrypt_hash usuario_schema usuario_logado) b) in
  b' = b
  \/ usuario_por_email b (us_email usuario_schema) = None
     /\ exists u, Usuario.email u = us_email usuario_schema
                  /\ b' = inserir b (ObjUsuario u).
Proof.
  cbv zeta. rewrite criar_admin_exec.
  destruct (negb (Usuario.admin usuario_logado)); [now left|].
  destruct (usuario_por_email b (us_email usuario_schema)); [now left|].
  destruct (bcrypt_hash (us_senha usuario_schema)) as [e|h]; [now left|].
  right. split; [reflexivity|]. eexists. split; [|reflexivity]. reflexivity.
Qed.

Lemma POST_pedidos_casos (usuario : Usuario.t) (b : Banco) :
  POST_pedidos usuario b =
  (Retorno
     (Pedido.com_id (novo_id (map Pedido.id (pedidos b)))
        (Pedido.init (Usuario.id usuario))),
   inserir b (ObjPedido (Pedido.init (Usuario.id usuario)))).
Proof.
  unfold POST_pedidos, criar_pedido, refresh_novo_pedido. desdobrar.
  rewrite rev_unit. reflexivity.
Qed.

Lemma POST_cancelar_casos (usuario : Usuario.t) (i : Z) (b : Banco) :
  POST_cancelar usuario i b =
  match pedido_por_id b i with
  | None =>
      if int64 i then (HTTPException 404 "Pedido não encontrado" [], b)
      else (Excecao "OverflowError", b)
  | Some p =>
      if negb (Usuario.admin usuario)
         && negb (Usuario.id usuario =? Pedido.usuario p)
      then (HTTPException 403 nao_autorizado [], b)
      else executar (cancelar_pedido p) b
  end.
Proof. apply rota_de_pedido_casos. Qed.

Lemma POST_finalizar_casos (usuario : Usuario.t) (i : Z) (b : Banco) :
  POST_finalizar usuario i b =
  match pedido_por_id b i with
  | None =>
      if int64 i then (HTTPException 404 "Pedido não encontrado" [], b)
      else (Excecao "OverflowError", b)
  | Some p =>
      if negb (Usuario.admin usuario)
         && negb (Usuario.id usuario =? Pedido.usuario p)
      then (HTTPException 403 nao_autorizado [], b)
      else executar (finalizar_pedido p) b
  end.
Proof. apply rota_de_pedido_casos. Qed.

(** What AddItem leaves in the database: what was there, or the new
    item and the new price. *)
Lemma POST_itens_grava (usuario : Usuario.t) (i : Z)
    (item_schema : ItemPedidoSchema) (b : Banco) :
  let b' := snd (POST_itens usuario i item_schema b) in
  b' = b
  \/ exists p,
       pedido_por_id b i = Some p
       /\ (Usuario.admin usuario = true
           \/ Usuario.id usuario = Pedido.usuario p)
       /\ corpo_valido item_schema = true
       /\ int64 (is_quantidade item_schema) = true
       /\ POST_itens usuario i item_schema b =
          executar (adicionar_item_pedido item_schema p) b.
Proof.
  cbv zeta. rewrite POST_itens_casos.
  destruct (pedido_por_id b i) as [p|] eqn:Hp;
    [|left; now destruct (int64 i)].
  destruct (negb (Usuario.admin usuario)
            && negb (Usuario.id usuario =? Pedido.usuario p)) eqn:Hg;
    [now left|].
  destruct (corpo_valido item_schema) eqn:Hv; [|now left].
  destruct (int64 (is_quantidade item_schema)) eqn:Hq.
  - right. exists p. repeat split; trivial.
    apply andb_false_iff in Hg. destruct Hg as [Hg | Hg].
    + left. now apply negb_false_iff in Hg.
    + right. apply negb_false_iff in Hg. now apply Z.eqb_eq in Hg.
  - left. now rewrite (adicionar_item_pedido_overflow b p item_schema Hq).
Qed.

(** Every request keeps the invariant. *)
Lemma atender_bem_formado (bcrypt_hash : string -> string + string)
    (r : Requisicao) (b : Banco) :
  bem_formado b -> bem_formado (atender bcrypt_hash r b).
Proof.
  intros Hb. destruct r as [us | us ul | u | u i | u i | u i sch | u i]; simpl.
  - destruct (criar_conta_grava bcrypt_hash us b) as [-> | [_ [x [_ ->]]]];
      [exact Hb | now apply bem_formado_inserir_usuario].
  - destruct (criar_admin_grava bcrypt_hash us ul b) as [-> | [_ [x [_ ->]]]];
      [exact Hb | now apply bem_formado_inserir_usuario].
  - rewrite POST_pedidos_casos. now apply bem_formado_inserir_pedido.
  - rewrite POST_cancelar_casos.
    destruct (pedido_por_id b i) as [p|] eqn:Hp;
      [|now destruct (int64 i)].
    destruct (negb (Usuario.admin u) && _); [exact Hb|].
    pose proof (pedido_por_id_id _ _ _ Hp) as Hi. subst i.
    destruct (str_in (Pedido.status p) ["PENDENTE"; "EM_PREPARO"]) eqn:Hs.
    + rewrite (cancelar_pedido_permitido _ _ Hp Hs).
      now apply (bem_formado_status b (Pedido.id p)).
    + now rewrite (cancelar_pedido_recusado _ _ Hs).
  - rewrite POST_finalizar_casos.
    destruct (pedido_por_id b i) as [p|] eqn:Hp;
      [|now destruct (int64 i)].
    destruct (negb (Usuario.admin u) && _); [exact Hb|].
    pose proof (pedido_por_id_id _ _ _ Hp) as Hi. subst i.
    destruct (string_dec (Pedido.status p) "EM_PREPARO") as [Hs | Hs].
    + rewrite (finalizar_pedido_permitido _ _ Hp Hs).
      now apply (bem_formado_status b (Pedido.id p)).
    + now rewrite (finalizar_pedido_recusado _ _ Hs).
  - destruct (POST_itens_grava u i sch b) as [-> | [p [Hp [_ [_ [Hq ->]]]]]];
      [exact Hb|].
    pose proof (pedido_por_id_id _ _ _ Hp) as Hi. subst i.
    rewrite (adicionar_item_pedido_exec b p sch Hp Hq).
    now apply bem_formado_adicionar.
  - rewrite DELETE_item_casos.
    destruct (item_por_id b i) as [it|] eqn:Hit;
      [|now destruct (int64 i)].
    destruct (pedido_por_id b (ItemPedido.pedido it)) as [p|] eqn:Hp;
      [|exact Hb].
    destruct (negb (Usuario.admin u) && _); [exact Hb|].
    rewrite (remover_item_pedido_exec b it p Hp).
    now apply (bem_formado_remover b i).
Qed.

(** X1.  In every database that requests can build from the empty one,
    every item belongs to a stored order, no two items share a key, and
    every order's price is the total of its items. *)
Theorem alcancavel_bem_formado :
  forall (bcrypt_hash : string -> string + string) (b : Banco),
    alcancavel bcrypt_hash b -> bem_formado b.
Proof.
  intros bcrypt_hash b H. induction H as [|b r _ IH].
  - split; [|split].
    + intros it [].
    + constructor.
    + intros p [].
  - now apply atender_bem_formado.
Qed.

(** The admin creates an order after Ana added an item to hers: the
    database so built is well formed. *)
Lemma alcancavel_bem_formado_witness :
  bem_formado
    (atender bcrypt_hash_exemplo (ReqCriarPedido raiz)
       (atender bcrypt_hash_exemplo (ReqAdicionarItem ana 1 suco_schema)
          (atender bcrypt_hash_exemplo (ReqCriarPedido ana) banco_vazio))).
Proof.
  apply (alcancavel_bem_formado bcrypt_hash_exemplo).
  repeat apply alc_passo. apply alc_vazio.
Defined.

(** The scenario of the specification: Ana registers and logs in,
    creates an order (pending, price 0, no items), adds two burgers at 10
    (price 20) and a soda at 5 (price 25), removes the burgers (price 5);
    finalizing the still pending order is then refused with a 400. *)
Example cenario_da_especificacao :
  let ana1 := Usuario.Build 1 "Ana" "ana@x.com" "$2b$12$pw1" true false in
  let b1 :=
    snd (POST_criar_conta bcrypt_hash_exemplo
           {| us_nome := "Ana"; us_email := "ana@x.com"; us_senha := "pw1";
              us_ativo := None |} banco_vazio) in
  let b2 := snd (POST_pedidos ana1 b1) in
  let b3 :=
    snd (POST_itens ana1 1
           {| is_quantidade := 2; is_sabor := "Burger"; is_tamanho := "Large";
              is_preco_unitario := 10 |} b2) in
  let b4 :=
    snd (POST_itens ana1 1
           {| is_quantidade := 1; is_sabor := "Soda"; is_tamanho := "Can";
              is_preco_unitario := 5 |} b3) in
  let b5 := snd (DELETE_item ana1 1 b4) in
  usuarios b1 = [ana1]
  /\ fst (POST_login jwt_encode_exemplo bcrypt_verify_exemplo 30 0
            {| ls_email := "ana@x.com"; ls_senha := "pw1" |} b1) =
     Retorno {| access_token := "jwt.1"; refresh_token := Some "jwt.1";
                token_type := "Bearer" |}
  /\ fst (POST_pedidos ana1 b1) = Retorno (Pedido.Build 1 "PENDENTE" 1 0)
  /\ itens_de b2 1 = []
  /\ fst (POST_itens ana1 1
            {| is_quantidade := 2; is_sabor := "Burger"; is_tamanho := "Large";
               is_preco_unitario := 10 |} b2) =
     Retorno (Pedido.Build 1 "PENDENTE" 1 20)
  /\ fst (POST_itens ana1 1
            {| is_quantidade := 1; is_sabor := "Soda"; is_tamanho := "Can";
               is_preco_unitario := 5 |} b3) =
     Retorno (Pedido.Build 1 "PENDENTE" 1 25)
  /\ fst (DELETE_item ana1 1 b4) = Retorno (Pedido.Build 1 "PENDENTE" 1 5)
  /\ POST_finalizar ana1 1 b5 =
     (HTTPException 400
        "Só é possível finalizar um pedido com status 'EM_PREPARO'" [],
      b5).
Proof. vm_compute. repeat split. Qed.

(** ** Accounts and orders that the routes create *)

(** X2.  [criar_admin] checks the caller before the email.  A caller
    who is not an admin gets 403 whatever the body, also for a free
    email, and nothing is stored.  For an admin caller a taken email gives
    400 and nothing is stored; a free one stores exactly one new account,
    active and admin, under the hash of the password, when the hashing
    returns, and gives 500, its detail quoting the exception, with nothing
    stored, when the hashing raises. *)
Theorem criar_admin_so_por_admin :
  forall (bcrypt_hash : string -> string + string)
         (usuario_schema : UsuarioSchema) (usuario_logado : Usuario.t)
         (b : Banco),
    (Usuario.admin usuario_logado = false ->
     executar (criar_admin bcrypt_hash usuario_schema usuario_logado) b =
     (HTTPException 403
        "Apenas administradores podem criar outros administradores" [], b))
    /\
    (Usuario.admin usuario_logado = true ->
     (exists u, In u (usuarios b)
                /\ Usuario.email u = us_email usuario_schema) ->
     executar (criar_admin bcrypt_hash usuario_schema usuario_logado) b =
     (HTTPException 400 "Já existe um usuário com esse email" [], b))
    /\
    (Usuario.admin usuario_logado = true ->
     (forall u, In u (usuarios b) ->
                Usuario.email u <> us_email usuario_schema) ->
     (forall senha_criptografada : string,
         bcrypt_hash (us_senha usuario_schema) = inr senha_criptografada ->
         executar (criar_admin bcrypt_hash usuario_schema usuario_logado) b =
         (Retorno ("Administrador " ++ us_email usuario_schema
                   ++ " criado com sucesso"),
          {| usuarios :=
               (usuarios b
                ++ [Usuario.Build (novo_id (map Usuario.id (usuarios b)))
                      (us_nome usuario_schema) (us_email usuario_schema)
                      senha_criptografada true true])%list;
             pedidos := pedidos b;
             itens_pedido := itens_pedido b |}))
     /\
     (forall e : string,
         bcrypt_hash (us_senha usuario_schema) = inl e ->
         executar (criar_admin bcrypt_hash usuario_schema usuario_logado) b =
         (HTTPException 500 ("Erro ao criar administrador: " ++ e) [], b))).
Proof.
  intros h us ul b. rewrite criar_admin_exec. split; [|split].
  - intros Ha. now rewrite Ha.
  - intros Ha He. rewrite Ha. simpl.
    apply usuario_por_email_existe in He. destruct He as [u Hu].
    now rewrite Hu.
  - intros Ha He. rewrite Ha. simpl.
    apply usuario_por_email_ausente in He. rewrite He. split.
    + intros x Hx. now rewrite Hx.
    + intros e Hx. now rewrite Hx.
Qed.

Lemma criar_admin_so_por_admin_witness :
  executar (criar_admin bcrypt_hash_exemplo
              {| us_nome := "Eva"; us_email := "eva@x.com"; us_senha := "pw";
                 us_ativo := None |} bia) banco_exemplo =
  (HTTPException 403
     "Apenas administradores podem criar outros administradores" [],
   banco_exemplo)
  /\
  executar (criar_admin bcrypt_hash_exemplo
              {| us_nome := "Eva"; us_email := "ana@x.com"; us_senha := "pw";
                 us_ativo := None |} raiz) banco_exemplo =
  (HTTPException 400 "Já existe um usuário com esse email" [], banco_exemplo)
  /\
  executar (criar_admin bcrypt_hash_exemplo
              {| us_nome := "Eva"; us_email := "eva@x.com";
                 us_senha := senha_com_nulo; us_ativo := None |} raiz)
    banco_exemplo =
  (HTTPException 500
     "Erro ao criar administrador: bcrypt does not allow NULL bytes in password"
     [],
   banco_exemplo).
Proof.
  split; [|split].
  - apply (proj1 (criar_admin_so_por_admin bcrypt_hash_exemplo _ bia
                    banco_exemplo)).
    reflexivity.
  - apply (proj1 (proj2 (criar_admin_so_por_admin bcrypt_hash_exemplo _ raiz
                           banco_exemplo))).
    + reflexivity.
    + exists ana. split; [simpl; left; reflexivity | reflexivity].
  - apply (proj2 (proj2 (proj2 (criar_admin_so_por_admin bcrypt_hash_exemplo
                                  {| us_nome := "Eva"; us_email := "eva@x.com";
                                     us_senha := senha_com_nulo;
                                     us_ativo := None |} raiz banco_exemplo))
                    eq_refl
                    ltac:(intros u Hin; simpl in Hin;
                          destruct Hin as [<- | [<- | [<- | [<- | []]]]];
                          discriminate))
             "bcrypt does not allow NULL bytes in password").
    reflexivity.
Defined.

Lemma find_apos_prefixo {A : Type} (f : A -> bool) (l l' : list A) :
  (forall x, In x l -> f x = false) -> find f (l ++ l') = find f l'.
Proof.
  induction l as [|a l IH]; simpl; [reflexivity|].
  intros H. rewrite (H a (or_introl eq_refl)). apply IH.
  intros x Hx. apply H. now right.
Qed.

Lemma novo_id_livre (b : Banco) (p : Pedido.t) :
  In p (pedidos b) -> Pedido.id p <> novo_id (map Pedido.id (pedidos b)).
Proof.
  intros H. apply (in_map Pedido.id) in H. apply novo_id_maior in H. lia.
Qed.

(** X3.  [criar_pedido] always succeeds.  The new order is pending, has
    price 0, belongs to the caller and has a key that no stored order has;
    it is appended to the orders, and accounts and items stay as they
    were.  Right after, the caller reads it back with GetOne, and it is
    the last entry of the caller's ListMine. *)
Theorem criar_pedido_e_leitura :
  forall (usuario : Usuario.t) (b : Banco),
    exists (novo : Pedido.t) (b' : Banco),
      POST_pedidos usuario b = (Retorno novo, b')
      /\ Pedido.status novo = "PENDENTE"
      /\ Pedido.preco novo = 0%float
      /\ Pedido.usuario novo = Usuario.id usuario
      /\ (forall p, In p (pedidos b) -> Pedido.id p <> Pedido.id novo)
      /\ pedidos b' = (pedidos b ++ [novo])%list
      /\ usuarios b' = usuarios b
      /\ itens_pedido b' = itens_pedido b
      /\ GET_pedido usuario (Pedido.id novo) b' = (Retorno novo, b')
      /\ GET_pedidos_meus usuario b' =
         (Retorno (pedidos_do_usuario b (Usuario.id usuario) ++ [novo])%list,
          b').
Proof.
  intros usuario b. rewrite POST_pedidos_casos.
  eexists. eexists. split; [reflexivity|].
  repeat (split; [reflexivity|]).
  split; [exact (novo_id_livre b)|].
  repeat (split; [reflexivity|]).
  split.
  - unfold GET_pedido.
    rewrite (rota_com_pedido _ _ _ _
               (Pedido.com_id (novo_id (map Pedido.id (pedidos b)))
                  (Pedido.init (Usuario.id usuario)))).
    + reflexivity.
    + unfold pedido_por_id. simpl. rewrite find_apos_prefixo.
      * simpl. now rewrite Z.eqb_refl.
      * intros p Hp. apply Z.eqb_neq. now apply novo_id_livre.
    + right. reflexivity.
  - unfold GET_pedidos_meus, listar_meus_pedidos, pedidos_do_usuario.
    desdobrar. rewrite filter_app. simpl. now rewrite Z.eqb_refl.
Qed.

(** ** Nothing is written unless the request succeeds *)

Lemma cancelar_pedido_exec (b : Banco) (p : Pedido.t) :
  pedido_por_id b (Pedido.id p) = Some p ->
  executar (cancelar_pedido p) b =
  if str_in (Pedido.status p) ["PENDENTE"; "EM_PREPARO"]
  then (Retorno (Pedido.com_status "CANCELADO" p),
        atualizar b (Pedido.com_status "CANCELADO" p))
  else (HTTPException 400
          ("Não é possível cancelar um pedido com status '"
           ++ Pedido.status p ++ "'") [], b).
Proof.
  intros Hp.
  destruct (str_in (Pedido.status p) ["PENDENTE"; "EM_PREPARO"]) eqn:Hs.
  - now apply cancelar_pedido_permitido.
  - now apply cancelar_pedido_recusado.
Qed.

Lemma finalizar_pedido_exec (b : Banco) (p : Pedido.t) :
  pedido_por_id b (Pedido.id p) = Some p ->
  executar (finalizar_pedido p) b =
  if String.eqb (Pedido.status p) "EM_PREPARO"
  then (Retorno (Pedido.com_status "FINALIZADO" p),
        atualizar b (Pedido.com_status "FINALIZADO" p))
  else (HTTPException 400
          "Só é possível finalizar um pedido com status 'EM_PREPARO'" [], b).
Proof.
  intros Hp. destruct (String.eqb_spec (Pedido.status p) "EM_PREPARO").
  - now apply finalizar_pedido_permitido.
  - now apply finalizar_pedido_recusado.
Qed.

(** X4.  A request whose handler does not return leaves the database
    exactly as it was: on each of the seven writing routes, whenever a
    dependency or the handler raises (a 404, 403 or 400; the 500 of an account
    route whose hashing raised, after its rollback; a body that fails its
    schema; the [OverflowError] of a key or of a quantity that SQLite
    cannot hold, the latter raised when the INSERT of the item was
    already pending; the [AttributeError] of an item without parent),
    nothing of the request is stored, not even the delete that
    [remover_item_pedido] had already asked for when the parent order
    turned out to be missing.  The reading routes (ListAll, ListMine,
    GetOne, both logins, the optional identity resolution) never change
    the database, whatever they answer. *)
Theorem falha_nao_altera_o_banco :
  forall (jwt_encode : Claims -> string) (jwt_decode : string -> option Claims)
         (bcrypt_hash : string -> string + string)
         (bcrypt_verify : string -> string -> string + bool)
         (ACCESS_TOKEN_EXPIRE_MINUTES : Z) (usuario : Usuario.t) (b : Banco),
    (forall us,
        retornou (fst (POST_criar_conta bcrypt_hash us b)) = false ->
        snd (POST_criar_conta bcrypt_hash us b) = b)
    /\ (forall us,
           retornou (fst (executar (criar_admin bcrypt_hash us usuario) b))
           = false ->
           snd (executar (criar_admin bcrypt_hash us usuario) b) = b)
    /\ (retornou (fst (POST_pedidos usuario b)) = false ->
        snd (POST_pedidos usuario b) = b)
    /\ (forall i,
           retornou (fst (POST_cancelar usuario i b)) = false ->
           snd (POST_cancelar usuario i b) = b)
    /\ (forall i,
           retornou (fst (POST_finalizar usuario i b)) = false ->
           snd (POST_finalizar usuario i b) = b)
    /\ (forall i item_schema,
           retornou (fst (POST_itens usuario i item_schema b)) = false ->
           snd (POST_itens usuario i item_schema b) = b)
    /\ (forall i,
           retornou (fst (DELETE_item usuario i b)) = false ->
           snd (DELETE_item usuario i b) = b)
    /\ snd (GET_pedidos usuario b) = b
    /\ snd (GET_pedidos_meus usuario b) = b
    /\ (forall i, snd (GET_pedido usuario i b) = b)
    /\ (forall agora ls,
           snd (POST_login jwt_encode bcrypt_verify
                  ACCESS_TOKEN_EXPIRE_MINUTES agora ls b) = b)
    /\ (forall agora username password,
           snd (POST_login_form jwt_encode bcrypt_verify
                  ACCESS_TOKEN_EXPIRE_MINUTES agora username password b) = b)
    /\ (forall token,
           snd (executar (pegar_usuario_logado_opcional jwt_decode token) b)
           = b).
Proof.
  intros je jd h bv A u b.
  repeat match goal with |- _ /\ _ => split end.
  - intros us. rewrite criar_conta_casos.
    destruct (usuario_por_email b (us_email us)); [reflexivity|].
    now destruct (h (us_senha us)).
  - intros us. rewrite criar_admin_exec.
    destruct (Usuario.admin u); simpl; [|reflexivity].
    destruct (usuario_por_email b (us_email us)); [reflexivity|].
    now destruct (h (us_senha us)).
  - rewrite POST_pedidos_casos. discriminate.
  - intros i. rewrite POST_cancelar_casos.
    destruct (pedido_por_id b i) as [p|] eqn:Hp;
      [|now destruct (int64 i)].
    destruct (negb (Usuario.admin u) && _); [reflexivity|].
    pose proof (pedido_por_id_id _ _ _ Hp) as Hi. subst i.
    rewrite (cancelar_pedido_exec _ _ Hp).
    now destruct (str_in (Pedido.status p) ["PENDENTE"; "EM_PREPARO"]).
  - intros i. rewrite POST_finalizar_casos.
    destruct (pedido_por_id b i) as [p|] eqn:Hp;
      [|now destruct (int64 i)].
    destruct (negb (Usuario.admin u) && _); [reflexivity|].
    pose proof (pedido_por_id_id _ _ _ Hp) as Hi. subst i.
    rewrite (finalizar_pedido_exec _ _ Hp).
    now destruct (String.eqb (Pedido.status p) "EM_PREPARO").
  - intros i sch.
    destruct (POST_itens_grava u i sch b) as [E | [p [Hp [_ [_ [Hq E]]]]]];
      [intros _; exact E|].
    pose proof (pedido_por_id_id _ _ _ Hp) as Hi. subst i.
    rewrite E, (adicionar_item_pedido_exec b p sch Hp Hq). discriminate.
  - intros i. rewrite DELETE_item_casos.
    destruct (item_por_id b i) as [it|]; [|now destruct (int64 i)].
    destruct (pedido_por_id b (ItemPedido.pedido it)) as [p|] eqn:Hp;
      [|reflexivity].
    destruct (negb (Usuario.admin u) && _); [reflexivity|].
    rewrite (remover_item_pedido_exec b it p Hp). discriminate.
  - unfold GET_pedidos, listar_todos_pedidos.
    now destruct (Usuario.admin u).
  - reflexivity.
  - intros i. unfold GET_pedido. rewrite rota_de_pedido_casos.
    destruct (pedido_por_id b i) as [p|]; [|now destruct (int64 i)].
    now destruct (negb (Usuario.admin u)
                  && negb (Usuario.id u =? Pedido.usuario p)).
  - intros agora ls. rewrite login_casos, autenticar_usuario_casos. simpl.
    destruct (usuario_por_email b (ls_email ls)) as [x|]; [|reflexivity].
    now destruct (bv (ls_senha ls) (Usuario.senha x)) as [e|[|]].
  - intros agora un pw. rewrite login_form_casos, autenticar_usuario_casos.
    simpl. destruct (usuario_por_email b un) as [x|]; [|reflexivity].
    now destruct (bv pw (Usuario.senha x)) as [e|[|]].
  - intros token. rewrite pegar_usuario_logado_opcional_casos.
    destruct token as [t|]; [|reflexivity].
    destruct (String.eqb t ""); [reflexivity|].
    destruct (jd t) as [c|]; [|reflexivity].
    destruct (sub c) as [s|]; [|reflexivity].
    destruct (py_int s) as [n|]; [|reflexivity].
    destruct (usuario_por_id b n); [reflexivity|].
    now destruct (int64 n).
Qed.

(** Bia's attempt to remove an item of Ana's order stores nothing, nor
    does Ana's to cancel her finalized order, to add 2^63 juices to it, or
    to register again with a password that the hashing refuses. *)
Lemma falha_nao_altera_o_banco_witness :
  snd (DELETE_item bia 1 banco_exemplo) = banco_exemplo
  /\ snd (POST_cancelar ana 1 banco_exemplo) = banco_exemplo
  /\ snd (POST_itens ana 1 suco_demais_schema banco_exemplo) = banco_exemplo
  /\ snd (POST_criar_conta bcrypt_hash_exemplo
            {| us_nome := "Ana"; us_email := "ana2@x.com";
               us_senha := senha_com_nulo; us_ativo := None |}
            banco_exemplo) = banco_exemplo.
Proof.
  pose proof (falha_nao_altera_o_banco
                jwt_encode_exemplo jwt_decode_exemplo bcrypt_hash_exemplo
                bcrypt_verify_exemplo 30 bia banco_exemplo)
    as [_ [_ [_ [_ [_ [_ [Hd _]]]]]]].
  pose proof (falha_nao_altera_o_banco
                jwt_encode_exemplo jwt_decode_exemplo bcrypt_hash_exemplo
                bcrypt_verify_exemplo 30 ana banco_exemplo)
    as [Hr [_ [_ [Hc [_ [Ha _]]]]]].
  split; [|split; [|split]];
    [apply Hd | apply Hc | apply Ha | apply Hr]; reflexivity.
Defined.

(** ** The statuses the routes can produce *)

Lemma pedido_por_id_apos_atualizar (b : Banco) (q : Pedido.t) (i : Z) :
  pedido_por_id (atualizar b q) i =
  if Pedido.id q =? i
  then match pedido_por_id b i with Some _ => Some q | None => None end
  else pedido_por_id b i.
Proof.
  unfold pedido_por_id, atualizar. simpl.
  induction (pedidos b) as [|r rs IH]; simpl.
  - now destruct (Pedido.id q =? i).
  - destruct (Pedido.id r =? Pedido.id q) eqn:E.
    + apply Z.eqb_eq in E. simpl. rewrite E.
      destruct (Pedido.id q =? i); [reflexivity|].
      rewrite IH. reflexivity.
    + simpl. destruct (Pedido.id r =? i) eqn:E'.
      * apply Z.eqb_eq in E'. subst i. rewrite Z.eqb_sym, E. reflexivity.
      * exact IH.
Qed.

Lemma status_conhecidos_atualizar (b : Banco) (q : Pedido.t) :
  status_conhecidos b ->
  In (Pedido.status q) ["PENDENTE"; "CANCELADO"; "FINALIZADO"] ->
  status_conhecidos (atualizar b q).
Proof.
  intros Hb Hq r Hr. apply In_pedidos_atualizar in Hr.
  destruct Hr as [-> | [Hr _]]; [exact Hq | now apply Hb].
Qed.

Lemma atender_status_conhecidos (bcrypt_hash : string -> string + string)
    (r : Requisicao) (b : Banco) :
  status_conhecidos b -> status_conhecidos (atender bcrypt_hash r b).
Proof.
  intros Hb. destruct r as [us | us ul | u | u i | u i | u i sch | u i]; simpl.
  - now destruct (criar_conta_grava bcrypt_hash us b)
      as [-> | [_ [x [_ ->]]]].
  - now destruct (criar_admin_grava bcrypt_hash us ul b)
      as [-> | [_ [x [_ ->]]]].
  - rewrite POST_pedidos_casos. intros p Hp. simpl in Hp.
    apply in_app_or in Hp. destruct Hp as [Hp | [<- | []]];
      [now apply Hb | simpl; tauto].
  - rewrite POST_cancelar_casos.
    destruct (pedido_por_id b i) as [p|] eqn:Hp;
      [|destruct (int64 i); exact Hb].
    destruct (negb (Usuario.admin u) && _); [exact Hb|].
    pose proof (pedido_por_id_id _ _ _ Hp) as Hi. subst i.
    rewrite (cancelar_pedido_exec _ _ Hp).
    destruct (str_in (Pedido.status p) ["PENDENTE"; "EM_PREPARO"]);
      [|exact Hb].
    apply status_conhecidos_atualizar; [exact Hb | simpl; tauto].
  - rewrite POST_finalizar_casos.
    destruct (pedido_por_id b i) as [p|] eqn:Hp;
      [|destruct (int64 i); exact Hb].
    destruct (negb (Usuario.admin u) && _); [exact Hb|].
    pose proof (pedido_por_id_id _ _ _ Hp) as Hi. subst i.
    rewrite (finalizar_pedido_exec _ _ Hp).
    destruct (String.eqb (Pedido.status p) "EM_PREPARO"); [|exact Hb].
    apply status_conhecidos_atualizar; [exact Hb | simpl; tauto].
  - destruct (POST_itens_grava u i sch b)
      as [-> | [p [Hp [_ [_ [Hqt ->]]]]]]; [exact Hb|].
    pose proof (pedido_por_id_id _ _ _ Hp) as Hi. subst i.
    rewrite (adicionar_item_pedido_exec b p sch Hp Hqt).
    apply status_conhecidos_atualizar.
    + exact Hb.
    + simpl Pedido.status. apply Hb. now apply pedido_por_id_In in Hp.
  - rewrite DELETE_item_casos.
    destruct (item_por_id b i) as [it|] eqn:Hit;
      [|destruct (int64 i); exact Hb].
    destruct (pedido_por_id b (ItemPedido.pedido it)) as [p|] eqn:Hp;
      [|exact Hb].
    destruct (negb (Usuario.admin u) && _); [exact Hb|].
    rewrite (remover_item_pedido_exec b it p Hp).
    apply status_conhecidos_atualizar.
    + exact Hb.
    + simpl Pedido.status. apply Hb. now apply pedido_por_id_In in Hp.
Qed.

(** X5.  No route ever writes the status EM_PREPARO, the only status
    from which [finalizar_pedido] proceeds.  So in every database that
    requests build from the empty one, each order is PENDENTE, CANCELADO
    or FINALIZADO, and Finalize never succeeds: whoever calls it, on
    whatever key, it returns no order and nothing changes; the answer is
    a 404, a 403 or a 400 whenever the key is one that the database can
    hold. *)
Theorem finalizar_nunca_sucede :
  forall (bcrypt_hash : string -> string + string) (b : Banco),
    alcancavel bcrypt_hash b ->
    status_conhecidos b
    /\ forall (usuario : Usuario.t) (id_pedido : Z),
        exists r : Resultado Pedido.t,
          POST_finalizar usuario id_pedido b = (r, b)
          /\ retornou r = false
          /\ (int64 id_pedido = true ->
              exists (status_code : Z) (detail : string),
                In status_code [404; 403; 400]
                /\ r = HTTPException status_code detail []).
Proof.
  intros h b H.
  assert (Hs : status_conhecidos b).
  { induction H as [|b r _ IH]; [intros p []|].
    now apply atender_status_conhecidos. }
  split; [exact Hs|].
  intros u i. rewrite POST_finalizar_casos.
  destruct (pedido_por_id b i) as [p|] eqn:Hp.
  - destruct (negb (Usuario.admin u) && _).
    + eexists. split; [reflexivity|]. split; [reflexivity|].
      intros _. exists 403. eexists. split; [simpl; tauto | reflexivity].
    + pose proof (pedido_por_id_id _ _ _ Hp) as Hi. subst i.
      rewrite (finalizar_pedido_exec _ _ Hp).
      destruct (String.eqb_spec (Pedido.status p) "EM_PREPARO") as [E | E].
      * apply pedido_por_id_In in Hp. apply Hs in Hp. rewrite E in Hp.
        simpl in Hp. destruct Hp as [Hp | [Hp | [Hp | []]]]; discriminate.
      * eexists. split; [reflexivity|]. split; [reflexivity|].
        intros _. exists 400. eexists. split; [simpl; tauto | reflexivity].
  - destruct (int64 i).
    + eexists. split; [reflexivity|]. split; [reflexivity|].
      intros _. exists 404. eexists. split; [simpl; tauto | reflexivity].
    + eexists. split; [reflexivity|]. split; [reflexivity|]. discriminate.
Qed.

(** Ana creates an order and tries to finalize it. *)
Lemma finalizar_nunca_sucede_witness :
  exists r : Resultado Pedido.t,
    POST_finalizar ana 1
      (atender bcrypt_hash_exemplo (ReqCriarPedido ana) banco_vazio) =
    (r, atender bcrypt_hash_exemplo (ReqCriarPedido ana) banco_vazio)
    /\ retornou r = false
    /\ (int64 1 = true ->
        exists (status_code : Z) (detail : string),
          In status_code [404; 403; 400]
          /\ r = HTTPException status_code detail []).
Proof.
  refine (proj2 (finalizar_nunca_sucede bcrypt_hash_exemplo _ _) ana 1).
  apply alc_passo. apply alc_vazio.
Defined.

(** A request keeps the status and the owner of an order that is
    canceled or finalized. *)
Lemma atender_status_terminal (bcrypt_hash : string -> string + string)
    (r : Requisicao) (b : Banco) (i : Z) (p : Pedido.t) :
  pedido_por_id b i = Some p ->
  status_terminal (Pedido.status p) = true ->
  exists p',
    pedido_por_id (atender bcrypt_hash r b) i = Some p'
    /\ Pedido.status p' = Pedido.status p
    /\ Pedido.usuario p' = Pedido.usuario p.
Proof.
  intros Hp Ht.
  assert (Hsame : exists p', pedido_por_id b i = Some p'
                             /\ Pedido.status p' = Pedido.status p
                             /\ Pedido.usuario p' = Pedido.usuario p)
    by (exists p; auto).
  assert (Hcom : forall x, exists p',
             pedido_por_id (atualizar b (Pedido.com_preco x p)) i = Some p'
             /\ Pedido.status p' = Pedido.status p
             /\ Pedido.usuario p' = Pedido.usuario p).
  { intros x. rewrite pedido_por_id_apos_atualizar. simpl.
    rewrite (pedido_por_id_id _ _ _ Hp), Z.eqb_refl, Hp. eauto. }
  destruct r as [us | us ul | u | u j | u j | u j sch | u j]; simpl.
  - now destruct (criar_conta_grava bcrypt_hash us b)
      as [-> | [_ [x [_ ->]]]].
  - now destruct (criar_admin_grava bcrypt_hash us ul b)
      as [-> | [_ [x [_ ->]]]].
  - rewrite POST_pedidos_casos. exists p. split; [|auto].
    unfold pedido_por_id. simpl. now apply find_no_prefixo.
  - rewrite POST_cancelar_casos.
    destruct (pedido_por_id b j) as [q|] eqn:Hq;
      [|destruct (int64 j); exact Hsame].
    destruct (negb (Usuario.admin u) && _); [exact Hsame|].
    pose proof (pedido_por_id_id _ _ _ Hq) as Hj. subst j.
    rewrite (cancelar_pedido_exec _ _ Hq).
    destruct (str_in (Pedido.status q) ["PENDENTE"; "EM_PREPARO"]) eqn:Hs;
      [|exact Hsame].
    simpl. rewrite pedido_por_id_apos_atualizar. simpl.
    destruct (Pedido.id q =? i) eqn:E; [|exact Hsame].
    apply Z.eqb_eq in E. rewrite E, Hp in Hq. injection Hq as <-.
    unfold status_terminal in Ht. apply str_in_In in Ht, Hs. simpl in Ht, Hs.
    destruct Ht as [Ht | [Ht | []]]; rewrite <- Ht in Hs;
      destruct Hs as [Hs | [Hs | []]]; discriminate.
  - rewrite POST_finalizar_casos.
    destruct (pedido_por_id b j) as [q|] eqn:Hq;
      [|destruct (int64 j); exact Hsame].
    destruct (negb (Usuario.admin u) && _); [exact Hsame|].
    pose proof (pedido_por_id_id _ _ _ Hq) as Hj. subst j.
    rewrite (finalizar_pedido_exec _ _ Hq).
    destruct (String.eqb_spec (Pedido.status q) "EM_PREPARO") as [Hs | Hs];
      [|exact Hsame].
    simpl. rewrite pedido_por_id_apos_atualizar. simpl.
    destruct (Pedido.id q =? i) eqn:E; [|exact Hsame].
    apply Z.eqb_eq in E. rewrite E, Hp in Hq. injection Hq as <-.
    rewrite Hs in Ht. discriminate.
  - destruct (POST_itens_grava u j sch b)
      as [-> | [q [Hq [_ [_ [Hqt ->]]]]]]; [exact Hsame|].
    pose proof (pedido_por_id_id _ _ _ Hq) as Hj. subst j.
    rewrite (adicionar_item_pedido_exec b q sch Hq Hqt). simpl.
    rewrite pedido_por_id_apos_atualizar. simpl.
    destruct (Pedido.id q =? i) eqn:E; [|exact Hsame].
    apply Z.eqb_eq in E. rewrite E, Hp in Hq. injection Hq as <-.
    unfold pedido_por_id in Hp |- *. simpl. rewrite Hp. eauto.
  - rewrite DELETE_item_casos.
    destruct (item_por_id b j) as [it|] eqn:Hit;
      [|destruct (int64 j); exact Hsame].
    destruct (pedido_por_id b (ItemPedido.pedido it)) as [q|] eqn:Hq;
      [|exact Hsame].
    destruct (negb (Usuario.admin u) && _); [exact Hsame|].
    rewrite (remover_item_pedido_exec b it q Hq). simpl.
    rewrite pedido_por_id_apos_atualizar. simpl.
    destruct (Pedido.id q =? i) eqn:E; [|exact Hsame].
    apply Z.eqb_eq in E.
    assert (q = p).
    { pose proof (pedido_por_id_id _ _ _ Hq) as Hj.
      rewrite <- Hj, E, Hp in Hq. now injection Hq. }
    subst q. unfold pedido_por_id in Hp |- *. simpl. rewrite Hp. eauto.
Qed.

(** X6.  CANCELADO and FINALIZADO are final.  Once the order under a
    key is canceled or finalized, it keeps that status and its owner
    through every sequence of requests, by anyone, admins included. *)
Theorem status_terminal_permanece :
  forall (bcrypt_hash : string -> string + string) (rs : list Requisicao)
         (b : Banco) (id_pedido : Z) (pedido : Pedido.t),
    pedido_por_id b id_pedido = Some pedido ->
    status_terminal (Pedido.status pedido) = true ->
    exists pedido' : Pedido.t,
      pedido_por_id (atender_todas bcrypt_hash rs b) id_pedido = Some pedido'
      /\ Pedido.status pedido' = Pedido.status pedido
      /\ Pedido.usuario pedido' = Pedido.usuario pedido.
Proof.
  intros h rs. induction rs as [|r rs IH]; intros b i p Hp Ht.
  - exists p. auto.
  - destruct (atender_status_terminal h r b i p Hp Ht) as [p1 [H1 [Hs Hu]]].
    destruct (IH (atender h r b) i p1 H1) as [p2 [H2 [Hs2 Hu2]]].
    + now rewrite Hs.
    + exists p2. simpl. split; [exact H2|]. split; congruence.
Qed.

(** The admin tries to cancel, finalize and cancel again Ana's
    finalized order, after adding an item to it. *)
Lemma status_terminal_permanece_witness :
  exists pedido' : Pedido.t,
    pedido_por_id
      (atender_todas bcrypt_hash_exemplo
         [ReqAdicionarItem raiz 1 suco_schema; ReqCancelar raiz 1;
          ReqFinalizar raiz 1; ReqCancelar ana 1] banco_exemplo) 1 =
    Some pedido'
    /\ Pedido.status pedido' = "FINALIZADO"
    /\ Pedido.usuario pedido' = 1.
Proof.
  apply (status_terminal_permanece bcrypt_hash_exemplo _ banco_exemplo 1
           (Pedido.Build 1 "FINALIZADO" 1 20)).
  - reflexivity.
  - reflexivity.
Defined.

(** ** Orders stay, and stay with their owner *)

Lemma ids_de_chaves (l : list Pedido.t) :
  map Pedido.id l = map fst (map chave_e_dono l).
Proof. rewrite map_map. reflexivity. Qed.

Lemma chaves_apos_atualizar (b : Banco) (q q' : Pedido.t) :
  NoDup (map Pedido.id (pedidos b)) ->
  pedido_por_id b (Pedido.id q') = Some q ->
  Pedido.usuario q' = Pedido.usuario q ->
  map chave_e_dono (pedidos (atualizar b q')) = map chave_e_dono (pedidos b).
Proof.
  intros Hn Hq Hu. unfold atualizar. simpl. rewrite map_map.
  apply map_ext_in. intros r Hr.
  destruct (Pedido.id r =? Pedido.id q') eqn:E; [|reflexivity].
  apply Z.eqb_eq in E.
  pose proof (pedido_por_id_id _ _ _ Hq) as Hi.
  apply pedido_por_id_In in Hq.
  assert (r = q) by (apply (NoDup_map_igual _ _ _ _ Hn Hr Hq); congruence).
  subst r. unfold chave_e_dono. congruence.
Qed.

Lemma atender_chaves (bcrypt_hash : string -> string + string)
    (r : Requisicao) (b : Banco) :
  NoDup (map Pedido.id (pedidos b)) ->
  exists l,
    map chave_e_dono (pedidos (atender bcrypt_hash r b)) =
    (map chave_e_dono (pedidos b) ++ l)%list
    /\ NoDup (map Pedido.id (pedidos (atender bcrypt_hash r b))).
Proof.
  intros Hn.
  assert (Hsame : exists l,
             map chave_e_dono (pedidos b) =
             (map chave_e_dono (pedidos b) ++ l)%list
             /\ NoDup (map Pedido.id (pedidos b))).
  { exists []. now rewrite List.app_nil_r. }
  assert (Hup : forall q q',
             pedido_por_id b (Pedido.id q') = Some q ->
             Pedido.usuario q' = Pedido.usuario q ->
             forall its,
             exists l,
               map chave_e_dono
                 (pedidos
                    (atualizar
                       {| usuarios := usuarios b; pedidos := pedidos b;
                          itens_pedido := its |} q')) =
               (map chave_e_dono (pedidos b) ++ l)%list
               /\ NoDup
                    (map Pedido.id
                       (pedidos
                          (atualizar
                             {| usuarios := usuarios b; pedidos := pedidos b;
                                itens_pedido := its |} q')))).
  { intros q q' Hq Hu its. exists [].
    pose proof (chaves_apos_atualizar
                  {| usuarios := usuarios b; pedidos := pedidos b;
                     itens_pedido := its |} q q' Hn Hq Hu) as E.
    rewrite List.app_nil_r. split; [exact E|].
    rewrite ids_de_chaves, E, <- ids_de_chaves. exact Hn. }
  destruct r as [us | us ul | u | u i | u i | u i sch | u i]; simpl.
  - now destruct (criar_conta_grava bcrypt_hash us b)
      as [-> | [_ [x [_ ->]]]].
  - now destruct (criar_admin_grava bcrypt_hash us ul b)
      as [-> | [_ [x [_ ->]]]].
  - rewrite POST_pedidos_casos. simpl. eexists. rewrite !map_app.
    split; [reflexivity|]. simpl.
    apply NoDup_app; [exact Hn | repeat constructor; intros [] |].
    intros a Ha [<- | []]. apply novo_id_maior in Ha. lia.
  - rewrite POST_cancelar_casos.
    destruct (pedido_por_id b i) as [p|] eqn:Hp;
      [|destruct (int64 i); exact Hsame].
    destruct (negb (Usuario.admin u) && _); [exact Hsame|].
    pose proof (pedido_por_id_id _ _ _ Hp) as Hi. subst i.
    rewrite (cancelar_pedido_exec _ _ Hp).
    destruct (str_in (Pedido.status p) ["PENDENTE"; "EM_PREPARO"]);
      [|exact Hsame].
    destruct b as [us ps its].
    exact (Hup p (Pedido.com_status "CANCELADO" p) Hp eq_refl its).
  - rewrite POST_finalizar_casos.
    destruct (pedido_por_id b i) as [p|] eqn:Hp;
      [|destruct (int64 i); exact Hsame].
    destruct (negb (Usuario.admin u) && _); [exact Hsame|].
    pose proof (pedido_por_id_id _ _ _ Hp) as Hi. subst i.
    rewrite (finalizar_pedido_exec _ _ Hp).
    destruct (String.eqb (Pedido.status p) "EM_PREPARO"); [|exact Hsame].
    destruct b as [us ps its].
    exact (Hup p (Pedido.com_status "FINALIZADO" p) Hp eq_refl its).
  - destruct (POST_itens_grava u i sch b)
      as [-> | [p [Hp [_ [_ [Hqt ->]]]]]]; [exact Hsame|].
    pose proof (pedido_por_id_id _ _ _ Hp) as Hi. subst i.
    rewrite (adicionar_item_pedido_exec b p sch Hp Hqt).
    exact (Hup p (Pedido.com_preco _ p) Hp eq_refl _).
  - rewrite DELETE_item_casos.
    destruct (item_por_id b i) as [it|] eqn:Hit;
      [|destruct (int64 i); exact Hsame].
    destruct (pedido_por_id b (ItemPedido.pedido it)) as [p|] eqn:Hp;
      [|exact Hsame].
    destruct (negb (Usuario.admin u) && _); [exact Hsame|].
    rewrite (remover_item_pedido_exec b it p Hp).
    refine (Hup p (Pedido.com_preco _ p) _ eq_refl _).
    simpl. now rewrite (pedido_por_id_id _ _ _ Hp).
Qed.

(** X7.  No route deletes an order or gives it to another account.
    Starting from orders with distinct keys, after any sequence of
    requests the list of (key, owner) pairs of the stored orders is the
    old list, in the old order, followed by the pairs of the orders
    created since. *)
Theorem pedidos_ficam_com_o_dono :
  forall (bcrypt_hash : string -> string + string) (rs : list Requisicao)
         (b : Banco),
    NoDup (map Pedido.id (pedidos b)) ->
    exists criados : list (Z * Z),
      map chave_e_dono (pedidos (atender_todas bcrypt_hash rs b)) =
      (map chave_e_dono (pedidos b) ++ criados)%list.
Proof.
  intros h rs. induction rs as [|r rs IH]; intros b Hn.
  - exists []. simpl. now rewrite List.app_nil_r.
  - destruct (atender_chaves h r b Hn) as [l1 [E1 Hn1]].
    destruct (IH (atender h r b) Hn1) as [l2 E2].
    exists (l1 ++ l2)%list. simpl. rewrite E2, E1.
    now rewrite <- app_assoc.
Qed.

Lemma pedidos_ficam_com_o_dono_witness :
  exists criados : list (Z * Z),
    map chave_e_dono
      (pedidos
         (atender_todas bcrypt_hash_exemplo
            [ReqCancelar raiz 3; ReqCriarPedido bia;
             ReqAdicionarItem raiz 1 suco_schema; ReqRemoverItem ana 2]
            banco_exemplo)) =
    ([(1, 1); (2, 1); (3, 2); (4, 2)] ++ criados)%list.
Proof.
  apply (pedidos_ficam_com_o_dono bcrypt_hash_exemplo _ banco_exemplo).
  simpl. repeat constructor; simpl; intuition discriminate.
Defined.

(** ** Item mutations and the other orders *)

Lemma itens_de_apagar_outro (b : Banco) (it : ItemPedido.t) (j : Z) :
  chaves_unicas b -> In it (itens_pedido b) -> ItemPedido.pedido it <> j ->
  itens_de (apagar b it) j = itens_de b j.
Proof.
  intros Hc Hin Hj. rewrite itens_de_apagar. apply filter_todos.
  intros x Hx. unfold itens_de in Hx. apply filter_In in Hx.
  destruct Hx as [Hx Hpx]. apply Z.eqb_eq in Hpx.
  apply negb_true_iff, Z.eqb_neq. intros E.
  apply (NoDup_map_igual _ _ _ _ Hc Hx Hin) in E. subst x. contradiction.
Qed.

(** X8.  Adding an item to an order, or removing one from it, touches
    no other order: whatever the outcome of the request, every order
    under another key keeps its row and its items, and the accounts stay
    as they were.  (For the removal, item keys are taken to be distinct,
    as they are in every reachable database.) *)
Theorem mutacao_de_itens_poupa_os_outros :
  forall (usuario : Usuario.t) (b : Banco),
    (forall (id_pedido : Z) (item_schema : ItemPedidoSchema) (j : Z),
        j <> id_pedido ->
        let b' := snd (POST_itens usuario id_pedido item_schema b) in
        pedido_por_id b' j = pedido_por_id b j
        /\ itens_de b' j = itens_de b j
        /\ usuarios b' = usuarios b)
    /\
    (chaves_unicas b ->
     forall (id_item_pedido : Z) (item : ItemPedido.t) (j : Z),
       item_por_id b id_item_pedido = Some item ->
       j <> ItemPedido.pedido item ->
       let b' := snd (DELETE_item usuario id_item_pedido b) in
       pedido_por_id b' j = pedido_por_id b j
       /\ itens_de b' j = itens_de b j
       /\ usuarios b' = usuarios b).
Proof.
  intros u b. split.
  - intros i sch j Hj. cbv zeta.
    destruct (POST_itens_grava u i sch b)
      as [-> | [p [Hp [_ [_ [Hq ->]]]]]]; [auto|].
    pose proof (pedido_por_id_id _ _ _ Hp) as Hi. subst i.
    rewrite (adicionar_item_pedido_exec b p sch Hp Hq). cbn [snd].
    split; [|split; [|reflexivity]].
    + rewrite pedido_por_id_apos_atualizar. simpl.
      destruct (Pedido.id p =? j) eqn:E; [|reflexivity].
      apply Z.eqb_eq in E. congruence.
    + rewrite itens_de_atualizar, itens_de_inserir_item. simpl.
      destruct (Pedido.id p =? j) eqn:E.
      * apply Z.eqb_eq in E. congruence.
      * now rewrite List.app_nil_r.
  - intros Hc i it j Hit Hj. cbv zeta. rewrite DELETE_item_casos, Hit.
    destruct (pedido_por_id b (ItemPedido.pedido it)) as [p|] eqn:Hp; [|auto].
    destruct (negb (Usuario.admin u) && _); [auto|].
    pose proof (pedido_por_id_id _ _ _ Hp) as Hi.
    rewrite (remover_item_pedido_exec b it p Hp). cbn [snd].
    split; [|split; [|reflexivity]].
    + rewrite pedido_por_id_apos_atualizar. simpl.
      destruct (Pedido.id p =? j) eqn:E; [|reflexivity].
      apply Z.eqb_eq in E. congruence.
    + rewrite itens_de_atualizar. apply itens_de_apagar_outro.
      * exact Hc.
      * now apply find_some in Hit.
      * congruence.
Qed.

(** Ana's canceled order is as it was after the burger left her
    finalized one. *)
Lemma mutacao_de_itens_poupa_os_outros_witness :
  pedido_por_id (snd (DELETE_item ana 1 banco_exemplo)) 2 =
  pedido_por_id banco_exemplo 2
  /\ itens_de (snd (DELETE_item ana 1 banco_exemplo)) 2 =
     itens_de banco_exemplo 2
  /\ usuarios (snd (DELETE_item ana 1 banco_exemplo)) =
     usuarios banco_exemplo.
Proof.
  refine (proj2 (mutacao_de_itens_poupa_os_outros ana banco_exemplo)
            _ 1 burger 2 _ _).
  - unfold chaves_unicas. simpl.
    repeat constructor; simpl; intuition discriminate.
  - reflexivity.
  - simpl. lia.
Defined.

(** ** Adding an item, then removing it *)

Lemma Pedido_com_preco_proprio (p : Pedido.t) (x : float) :
  Pedido.com_preco (Pedido.preco p) (Pedido.com_preco x p) = p.
Proof. now destruct p. Qed.

Lemma item_por_id_do_novo (b : Banco) (it : ItemPedido.t) (q : Pedido.t) :
  item_por_id (atualizar (inserir b (ObjItem it)) q)
    (novo_id (map ItemPedido.id (itens_pedido b))) =
  Some (linha_do_item (novo_id (map ItemPedido.id (itens_pedido b))) it).
Proof.
  unfold item_por_id. simpl. rewrite find_apos_prefixo.
  - simpl. now rewrite Z.eqb_refl.
  - intros x Hx. apply Z.eqb_neq.
    apply (in_map ItemPedido.id) in Hx. apply novo_id_maior in Hx. lia.
Qed.

Lemma apagar_o_novo (b : Banco) (it : ItemPedido.t) (q : Pedido.t) :
  itens_pedido
    (apagar (atualizar (inserir b (ObjItem it)) q)
       (linha_do_item (novo_id (map ItemPedido.id (itens_pedido b))) it))
  = itens_pedido b.
Proof.
  simpl. rewrite filter_app. simpl. rewrite Z.eqb_refl. simpl.
  rewrite List.app_nil_r. apply filter_todos.
  intros x Hx. apply negb_true_iff, Z.eqb_neq.
  apply (in_map ItemPedido.id) in Hx. apply novo_id_maior in Hx. lia.
Qed.

(** X10.  Adding an item and then removing that item restores the
    order.  For a body that passes the checks of its schema and whose
    quantity the database can hold: if the stored price of the order was
    the total of its items, the removal returns the order exactly as it
    was before the addition, price included, and the stored items and the
    row under the order's key are again what they were. *)
Theorem adicionar_e_remover_restaura :
  forall (usuario : Usuario.t) (b : Banco) (id_pedido : Z) (pedido : Pedido.t)
         (item_schema : ItemPedidoSchema),
    pedido_por_id b id_pedido = Some pedido ->
    Usuario.admin usuario = true
    \/ Usuario.id usuario = Pedido.usuario pedido ->
    Pedido.preco pedido = total_itens (itens_de b id_pedido) ->
    corpo_valido item_schema = true ->
    int64 (is_quantidade item_schema) = true ->
    let b1 := snd (POST_itens usuario id_pedido item_schema b) in
    let id_item := novo_id (map ItemPedido.id (itens_pedido b)) in
    exists b2 : Banco,
      item_por_id b1 id_item =
      Some (ItemPedido.Build id_item (is_quantidade item_schema)
              (is_sabor item_schema) (is_tamanho item_schema)
              (sqlite_real (is_preco_unitario item_schema)) id_pedido)
      /\ DELETE_item usuario id_item b1 = (Retorno pedido, b2)
      /\ itens_pedido b2 = itens_pedido b
      /\ usuarios b2 = usuarios b
      /\ pedido_por_id b2 id_pedido = Some pedido.
Proof.
  intros u b i p sch Hp Ha Hc Hv Hq. cbv zeta.
  pose proof (pedido_por_id_id _ _ _ Hp) as Hi. subst i.
  rewrite POST_itens_casos, Hp, (guarda_autorizado _ _ Ha), Hv.
  rewrite (adicionar_item_pedido_exec b p sch Hp Hq). cbv zeta. cbn [snd].
  set (it := ItemPedido.init (is_quantidade sch) (is_sabor sch)
               (is_tamanho sch) (is_preco_unitario sch) (Pedido.id p)).
  set (p1 := Pedido.com_preco
               (total_itens (itens_de (inserir b (ObjItem it)) (Pedido.id p)))
               p).
  set (b1 := atualizar (inserir b (ObjItem it)) p1).
  set (novo := ItemPedido.Build (novo_id (map ItemPedido.id (itens_pedido b)))
                 (is_quantidade sch) (is_sabor sch) (is_tamanho sch)
                 (sqlite_real (is_preco_unitario sch)) (Pedido.id p)).
  assert (Hp1 : pedido_por_id b1 (Pedido.id p) = Some p1)
    by (apply (pedido_por_id_atualizar (inserir b (ObjItem it)) p p1);
        exact Hp).
  assert (Hit : item_por_id b1 (novo_id (map ItemPedido.id (itens_pedido b)))
                = Some novo)
    by (exact (item_por_id_do_novo b it p1)).
  assert (Hits : itens_pedido (apagar b1 novo) = itens_pedido b)
    by (exact (apagar_o_novo b it p1)).
  assert (Htot : total_itens (itens_de (apagar b1 novo) (Pedido.id p1))
                 = Pedido.preco p).
  { unfold itens_de. rewrite Hits. symmetry. exact Hc. }
  rewrite DELETE_item_casos, Hit.
  change (ItemPedido.pedido novo) with (Pedido.id p). rewrite Hp1.
  change (Pedido.usuario p1) with (Pedido.usuario p).
  rewrite (guarda_autorizado _ _ Ha).
  rewrite (remover_item_pedido_exec b1 novo p1 Hp1).
  rewrite Htot. unfold p1 at 1 2. rewrite Pedido_com_preco_proprio.
  eexists. split; [reflexivity|]. split; [reflexivity|].
  split; [exact Hits|]. split; [reflexivity|].
  rewrite pedido_por_id_apos_atualizar, Z.eqb_refl.
  change (pedido_por_id (apagar b1 novo) (Pedido.id p))
    with (pedido_por_id b1 (Pedido.id p)).
  now rewrite Hp1.
Qed.

(** The admin adds three juices to Ana's canceled order and takes them
    back. *)
Lemma adicionar_e_remover_restaura_witness :
  exists b2 : Banco,
    item_por_id (snd (POST_itens raiz 2 suco_schema banco_exemplo)) 3 =
    Some (ItemPedido.Build 3 3 "Suco" "Copo" 4 2)
    /\ DELETE_item raiz 3 (snd (POST_itens raiz 2 suco_schema banco_exemplo))
       = (Retorno (Pedido.Build 2 "CANCELADO" 1 5), b2)
    /\ itens_pedido b2 = itens_pedido banco_exemplo
    /\ usuarios b2 = usuarios banco_exemplo
    /\ pedido_por_id b2 2 = Some (Pedido.Build 2 "CANCELADO" 1 5).
Proof.
  apply (adicionar_e_remover_restaura raiz banco_exemplo 2
           (Pedido.Build 2 "CANCELADO" 1 5) suco_schema).
  - reflexivity.
  - left. reflexivity.
  - vm_compute. reflexivity.
  - reflexivity.
  - reflexivity.
Defined.

(** ** Accounts: keys, emails, logins *)

(** What a request can do to the accounts: nothing, or append one row
    under a fresh key, with an email that no stored account had. *)
Lemma atender_usuarios (bcrypt_hash : string -> string + string)
    (r : Requisicao) (b : Banco) :
  usuarios (atender bcrypt_hash r b) = usuarios b
  \/ exists u : Usuario.t,
      usuario_por_email b (Usuario.email u) = None
      /\ Usuario.id u = novo_id (map Usuario.id (usuarios b))
      /\ usuarios (atender bcrypt_hash r b) = (usuarios b ++ [u])%list.
Proof.
  destruct r as [us | us ul | u | u i | u i | u i sch | u i]; simpl.
  - rewrite criar_conta_casos.
    destruct (usuario_por_email b (us_email us)) eqn:E; [now left|].
    destruct (bcrypt_hash (us_senha us)); [now left|].
    right. eexists. split; [|split; [|reflexivity]]; [exact E | reflexivity].
  - rewrite criar_admin_exec.
    destruct (Usuario.admin ul); simpl; [|now left].
    destruct (usuario_por_email b (us_email us)) eqn:E; [now left|].
    destruct (bcrypt_hash (us_senha us)); [now left|].
    right. eexists. split; [|split; [|reflexivity]]; [exact E | reflexivity].
  - left. now rewrite POST_pedidos_casos.
  - left. rewrite POST_cancelar_casos.
    destruct (pedido_por_id b i) as [p|] eqn:Hp;
      [|now destruct (int64 i)].
    destruct (negb (Usuario.admin u) && _); [reflexivity|].
    pose proof (pedido_por_id_id _ _ _ Hp) as Hi. subst i.
    rewrite (cancelar_pedido_exec _ _ Hp).
    now destruct (str_in (Pedido.status p) ["PENDENTE"; "EM_PREPARO"]).
  - left. rewrite POST_finalizar_casos.
    destruct (pedido_por_id b i) as [p|] eqn:Hp;
      [|now destruct (int64 i)].
    destruct (negb (Usuario.admin u) && _); [reflexivity|].
    pose proof (pedido_por_id_id _ _ _ Hp) as Hi. subst i.
    rewrite (finalizar_pedido_exec _ _ Hp).
    now destruct (String.eqb (Pedido.status p) "EM_PREPARO").
  - left.
    destruct (POST_itens_grava u i sch b)
      as [-> | [p [Hp [_ [_ [Hq ->]]]]]]; [reflexivity|].
    pose proof (pedido_por_id_id _ _ _ Hp) as Hi. subst i.
    now rewrite (adicionar_item_pedido_exec b p sch Hp Hq).
  - left. rewrite DELETE_item_casos.
    destruct (item_por_id b i) as [it|]; [|now destruct (int64 i)].
    destruct (pedido_por_id b (ItemPedido.pedido it)) as [p|] eqn:Hp;
      [|reflexivity].
    destruct (negb (Usuario.admin u) && _); [reflexivity|].
    now rewrite (remover_item_pedido_exec b it p Hp).
Qed.

(** X11.  The check that both account routes make before they insert
    keeps emails unique: in every database that requests build from the
    empty one, no two accounts share an email, no two accounts share a key
    and no two orders share a key. *)
Theorem emails_e_chaves_unicos :
  forall (bcrypt_hash : string -> string + string) (b : Banco),
    alcancavel bcrypt_hash b ->
    emails_unicos b
    /\ NoDup (map Usuario.id (usuarios b))
    /\ NoDup (map Pedido.id (pedidos b)).
Proof.
  intros h b H. induction H as [|b r _ [He [Hu Hp]]].
  - repeat split; constructor.
  - split; [|split].
    + unfold emails_unicos in *.
      destruct (atender_usuarios h r b) as [-> | [u [E [_ ->]]]];
        [exact He|].
      rewrite map_app. simpl.
      apply NoDup_app; [exact He | repeat constructor; intros [] |].
      intros e Hin [<- | []]. apply in_map_iff in Hin.
      destruct Hin as [x [Hx Hin]].
      apply (find_none _ _ E) in Hin. apply String.eqb_neq in Hin.
      contradiction.
    + destruct (atender_usuarios h r b) as [-> | [u [_ [E ->]]]];
        [exact Hu|].
      rewrite map_app. simpl.
      apply NoDup_app; [exact Hu | repeat constructor; intros [] |].
      intros a Ha [<- | []]. apply novo_id_maior in Ha. lia.
    + destruct (atender_chaves h r b Hp) as [_ [_ Hn]]. exact Hn.
Qed.

(** Two registrations, the second with the email of the first. *)
Lemma emails_e_chaves_unicos_witness :
  emails_unicos
    (atender bcrypt_hash_exemplo
       (ReqCriarConta {| us_nome := "Outra"; us_email := "ana@x.com";
                         us_senha := "x"; us_ativo := None |})
       (atender bcrypt_hash_exemplo
          (ReqCriarConta {| us_nome := "Ana"; us_email := "ana@x.com";
                            us_senha := "pw1"; us_ativo := None |})
          banco_vazio)).
Proof.
  apply (emails_e_chaves_unicos bcrypt_hash_exemplo).
  repeat apply alc_passo. apply alc_vazio.
Defined.

(** X12.  A login never succeeds on credentials that were not checked.
    Whenever [login] returns tokens, some stored account has the given
    email and a hash that accepts the given password; the access and the
    refresh token are the ones [criar_token] makes for the key of that
    account, with the default lifetime and with seven days; and the
    database is unchanged. *)
Theorem login_exige_senha_verificada :
  forall (jwt_encode : Claims -> string)
         (bcrypt_verify : string -> string -> string + bool)
         (ACCESS_TOKEN_EXPIRE_MINUTES agora : Z) (login_schema : LoginSchema)
         (b b' : Banco) (tokens : TokenSchema),
    POST_login jwt_encode bcrypt_verify ACCESS_TOKEN_EXPIRE_MINUTES agora
      login_schema b = (Retorno tokens, b') ->
    b' = b
    /\ exists u : Usuario.t,
        In u (usuarios b)
        /\ Usuario.email u = ls_email login_schema
        /\ bcrypt_verify (ls_senha login_schema) (Usuario.senha u) = inr true
        /\ access_token tokens =
           criar_token jwt_encode agora (Usuario.id u)
             (60 * ACCESS_TOKEN_EXPIRE_MINUTES)
        /\ refresh_token tokens =
           Some (criar_token jwt_encode agora (Usuario.id u) (7 * 86400))
        /\ token_type tokens = "Bearer".
Proof.
  intros je bv A agora ls b b' tokens.
  rewrite login_casos, autenticar_usuario_casos. simpl.
  destruct (usuario_por_email b (ls_email ls)) as [u|] eqn:E; [|discriminate].
  destruct (bv (ls_senha ls) (Usuario.senha u)) as [e|[|]] eqn:Hv;
    try discriminate.
  intros H. injection H as <- <-. split; [reflexivity|].
  apply find_some in E. destruct E as [Hin He]. apply String.eqb_eq in He.
  exists u. repeat split; assumption.
Qed.

Lemma login_exige_senha_verificada_witness :
  banco_exemplo = banco_exemplo
  /\ exists u : Usuario.t,
      In u (usuarios banco_exemplo)
      /\ Usuario.email u = "caio@x.com"
      /\ bcrypt_verify_exemplo "caio" (Usuario.senha u) = inr true
      /\ "jwt.4" = criar_token jwt_encode_exemplo 0 (Usuario.id u) (60 * 30)
      /\ Some "jwt.4" =
         Some (criar_token jwt_encode_exemplo 0 (Usuario.id u) (7 * 86400))
      /\ "Bearer" = "Bearer".
Proof.
  apply (login_exige_senha_verificada jwt_encode_exemplo bcrypt_verify_exemplo
           30 0 {| ls_email := "caio@x.com"; ls_senha := "caio" |}
           banco_exemplo banco_exemplo
           {| access_token := "jwt.4"; refresh_token := Some "jwt.4";
              token_type := "Bearer" |}).
  reflexivity.
Defined.

Lemma usuario_por_id_do_armazenado (b : Banco) (u : Usuario.t) :
  NoDup (map Usuario.id (usuarios b)) -> In u (usuarios b) ->
  usuario_por_id b (Usuario.id u) = Some u.
Proof.
  intros Hn Hin. unfold usuario_por_id.
  destruct (find _ (usuarios b)) as [x|] eqn:E.
  - apply find_some in E. destruct E as [Hx E]. apply Z.eqb_eq in E.
    f_equal. now apply (NoDup_map_igual _ _ _ _ Hn Hx Hin).
  - apply (find_none _ _ E) in Hin. now rewrite Z.eqb_refl in Hin.
Qed.

(** The second stand-in reads back what it signed, until the expiry. *)
Lemma digito_nao_e_dois_pontos (c : ascii) :
  eh_digito c = true -> Ascii.eqb c ":" = false.
Proof.
  destruct c as [[|] [|] [|] [|] [|] [|] [|] [|]]; vm_compute;
    intros H; try discriminate H; reflexivity.
Qed.

Lemma corta_digitos (x s : string) :
  forallb eh_digito (list_ascii_of_string x) = true ->
  corta ":" (x ++ String ":" s) = Some (x, s).
Proof.
  induction x as [|c r IH]; simpl; [reflexivity|].
  intros H. apply andb_true_iff in H. destruct H as [Hc Hr].
  now rewrite (digito_nao_e_dois_pontos c Hc), (IH Hr).
Qed.

Lemma corta_py_str (n : Z) (s : string) :
  corta ":" (py_str n ++ String ":" s) = Some (py_str n, s).
Proof.
  unfold py_str. destruct (Z.to_int n) as [d | d]; simpl.
  - apply corta_digitos. apply digitos_NilZero.
  - now rewrite (corta_digitos _ s (proj1 (digitos_NilZero d))).
Qed.

Lemma jwt_eco_ida_e_volta (leitura e : Z) (s : string) :
  jwt_decode_eco leitura (jwt_encode_eco {| sub := Some s; exp := Some e |}) =
  if leitura <=? e then Some {| sub := Some s; exp := Some e |} else None.
Proof.
  unfold jwt_decode_eco, jwt_encode_eco. simpl.
  now rewrite corta_py_str, py_int_py_str.
Qed.

(** The resolution of a token that [criar_token] made, by a library that
    reads back the subject of what it signed. *)
Lemma resolucao_do_token_criado (jwt_encode : Claims -> string)
    (jwt_decode : string -> option Claims) (agora duracao : Z)
    (b : Banco) (u : Usuario.t) :
  (exists payload,
      jwt_decode
        (jwt_encode {| sub := Some (py_str (Usuario.id u));
                       exp := Some (agora + duracao) |}) = Some payload
      /\ sub payload = Some (py_str (Usuario.id u))) ->
  (forall c : Claims, jwt_encode c <> "") ->
  NoDup (map Usuario.id (usuarios b)) -> In u (usuarios b) ->
  executar (pegar_usuario_logado_opcional jwt_decode
              (Some (criar_token jwt_encode agora (Usuario.id u) duracao))) b =
  (Retorno (Some u), b).
Proof.
  intros [payload [Hd Hs]] Hne Hn Hin.
  rewrite pegar_usuario_logado_opcional_casos. unfold criar_token.
  pose proof (Hne {| sub := Some (py_str (Usuario.id u));
                     exp := Some (agora + duracao) |}) as Hne'.
  apply String.eqb_neq in Hne'.
  rewrite Hne', Hd, Hs, py_int_py_str.
  now rewrite (usuario_por_id_do_armazenado b u Hn Hin).
Qed.

(** X13.  The tokens of a login lead back to the account that logged
    in, until they expire.  Let the token library, at the time [leitura]
    of a later request, return for a token that it signed with an expiry
    not before [leitura] a payload with the subject it was given, and
    refuse one that it signed with an earlier expiry; let it never sign
    an empty token, and let account keys be distinct.  Then for every
    successful login at time [agora], the optional identity resolution at
    time [leitura] returns the stored account of the login, given the
    access token, if its lifetime has not passed, and given the refresh
    token, if seven days have not passed: the subject written by
    [criar_token] as [str(id)] is read back by [int(sub)] as the same key.
    Given the access token after its lifetime, it returns [None]. *)
Theorem tokens_do_login_resolvem_a_conta :
  forall (jwt_encode : Claims -> string) (jwt_decode : string -> option Claims)
         (bcrypt_verify : string -> string -> string + bool)
         (ACCESS_TOKEN_EXPIRE_MINUTES agora leitura : Z)
         (login_schema : LoginSchema) (b b' : Banco) (tokens : TokenSchema),
    (forall (s : string) (e : Z),
        leitura <= e ->
        exists payload,
          jwt_decode (jwt_encode {| sub := Some s; exp := Some e |}) =
          Some payload
          /\ sub payload = Some s) ->
    (forall (s : string) (e : Z),
        e < leitura ->
        jwt_decode (jwt_encode {| sub := Some s; exp := Some e |}) = None) ->
    (forall c : Claims, jwt_encode c <> "") ->
    NoDup (map Usuario.id (usuarios b)) ->
    POST_login jwt_encode bcrypt_verify ACCESS_TOKEN_EXPIRE_MINUTES agora
      login_schema b = (Retorno tokens, b') ->
    exists u : Usuario.t,
      In u (usuarios b)
      /\ Usuario.email u = ls_email login_schema
      /\ (leitura <= agora + 60 * ACCESS_TOKEN_EXPIRE_MINUTES ->
          executar (pegar_usuario_logado_opcional jwt_decode
                      (Some (access_token tokens))) b =
          (Retorno (Some u), b))
      /\ (leitura <= agora + 7 * 86400 ->
          executar (pegar_usuario_logado_opcional jwt_decode
                      (refresh_token tokens)) b =
          (Retorno (Some u), b))
      /\ (agora + 60 * ACCESS_TOKEN_EXPIRE_MINUTES < leitura ->
          executar (pegar_usuario_logado_opcional jwt_decode
                      (Some (access_token tokens))) b =
          (Retorno None, b)).
Proof.
  intros je jd bv A agora leitura ls b b' tokens Hrt Hexp Hne Hn.
  rewrite login_casos, autenticar_usuario_casos. cbn [fst].
  destruct (usuario_por_email b (ls_email ls)) as [u|] eqn:E; [|discriminate].
  destruct (bv (ls_senha ls) (Usuario.senha u)) as [e|[|]];
    try discriminate.
  intros H. injection H as <- <-. cbn [access_token refresh_token].
  apply find_some in E. destruct E as [Hin He]. apply String.eqb_eq in He.
  exists u. split; [exact Hin|]. split; [exact He|].
  split; [|split].
  - intros Hl. apply resolucao_do_token_criado; trivial. now apply Hrt.
  - intros Hl. apply resolucao_do_token_criado; trivial. now apply Hrt.
  - intros Hl. rewrite pegar_usuario_logado_opcional_casos.
    unfold criar_token, duracao_padrao.
    rewrite (Hexp _ _ Hl).
    now destruct (String.eqb _ "").
Qed.

(** Bia logs in at time 0 with tokens of 30 minutes and of seven days;
    at time 100 both resolve to her. *)
Lemma tokens_do_login_resolvem_a_conta_witness :
  exists u : Usuario.t,
    In u (usuarios banco_exemplo)
    /\ Usuario.email u = "bia@x.com"
    /\ (100 <= 0 + 60 * 30 ->
        executar (pegar_usuario_logado_opcional (jwt_decode_eco 100)
                    (Some "eco.1800:2"))
          banco_exemplo = (Retorno (Some u), banco_exemplo))
    /\ (100 <= 0 + 7 * 86400 ->
        executar (pegar_usuario_logado_opcional (jwt_decode_eco 100)
                    (Some "eco.604800:2"))
          banco_exemplo = (Retorno (Some u), banco_exemplo))
    /\ (0 + 60 * 30 < 100 ->
        executar (pegar_usuario_logado_opcional (jwt_decode_eco 100)
                    (Some "eco.1800:2"))
          banco_exemplo = (Retorno None, banco_exemplo)).
Proof.
  apply (tokens_do_login_resolvem_a_conta jwt_encode_eco (jwt_decode_eco 100)
           bcrypt_verify_exemplo 30 0 100
           {| ls_email := "bia@x.com"; ls_senha := "bia" |}
           banco_exemplo banco_exemplo
           {| access_token := "eco.1800:2";
              refresh_token := Some "eco.604800:2";
              token_type := "Bearer" |}).
  - intros s e Hl. rewrite jwt_eco_ida_e_volta.
    apply Z.leb_le in Hl. rewrite Hl. eexists. split; reflexivity.
  - intros s e Hl. rewrite jwt_eco_ida_e_volta.
    apply Z.leb_gt in Hl. now rewrite Hl.
  - intros c. discriminate.
  - simpl. repeat constructor; simpl; intuition discriminate.
  - reflexivity.
Defined.

(** X14.  The access token that [use_refresh_token] issues leads back
    to the account it was issued for, until it expires: under the same
    reading of the token library as above, and with distinct account
    keys, the route returns a token of type Bearer with no refresh token,
    changes nothing, and the optional identity resolution at a time
    [leitura] within the lifetime of the new access token maps it to the
    stored account of the caller. *)
Theorem token_renovado_resolve_a_conta :
  forall (jwt_encode : Claims -> string) (jwt_decode : string -> option Claims)
         (ACCESS_TOKEN_EXPIRE_MINUTES agora leitura : Z) (usuario : Usuario.t)
         (b : Banco),
    (forall (s : string) (e : Z),
        leitura <= e ->
        exists payload,
          jwt_decode (jwt_encode {| sub := Some s; exp := Some e |}) =
          Some payload
          /\ sub payload = Some s) ->
    (forall c : Claims, jwt_encode c <> "") ->
    NoDup (map Usuario.id (usuarios b)) ->
    In usuario (usuarios b) ->
    leitura <= agora + 60 * ACCESS_TOKEN_EXPIRE_MINUTES ->
    exists tokens : TokenSchema,
      executar (use_refresh_token jwt_encode ACCESS_TOKEN_EXPIRE_MINUTES agora
                  usuario) b = (Retorno tokens, b)
      /\ refresh_token tokens = None
      /\ token_type tokens = "Bearer"
      /\ executar (pegar_usuario_logado_opcional jwt_decode
                     (Some (access_token tokens))) b =
         (Retorno (Some usuario), b).
Proof.
  intros je jd A agora leitura u b Hrt Hne Hn Hin Hl.
  eexists. split; [reflexivity|]. split; [reflexivity|].
  split; [reflexivity|]. simpl access_token.
  apply resolucao_do_token_criado; trivial. now apply Hrt.
Qed.

Lemma token_renovado_resolve_a_conta_witness :
  exists tokens : TokenSchema,
    executar (use_refresh_token jwt_encode_eco 30 0 bia) banco_exemplo =
    (Retorno tokens, banco_exemplo)
    /\ refresh_token tokens = None
    /\ token_type tokens = "Bearer"
    /\ executar (pegar_usuario_logado_opcional (jwt_decode_eco 100)
                   (Some (access_token tokens))) banco_exemplo =
       (Retorno (Some bia), banco_exemplo).
Proof.
  apply (token_renovado_resolve_a_conta jwt_encode_eco (jwt_decode_eco 100)
           30 0 100 bia banco_exemplo).
  - intros s e Hl. rewrite jwt_eco_ida_e_volta.
    apply Z.leb_le in Hl. rewrite Hl. eexists. split; reflexivity.
  - intros c. discriminate.
  - simpl. repeat constructor; simpl; intuition discriminate.
  - simpl. tauto.
  - lia.
Defined.

(** ** Exceptions *)

(** Whether the caller may act on an order. *)
Lemma guarda_casos (usuario : Usuario.t) (p : Pedido.t) :
  negb (Usuario.admin usuario)
  && negb (Usuario.id usuario =? Pedido.usuario p) = false <->
  Usuario.admin usuario = true \/ Usuario.id usuario = Pedido.usuario p.
Proof.
  split; [|apply guarda_autorizado].
  intros H. apply andb_false_iff in H. destruct H as [H | H].
  - left. now apply negb_false_iff in H.
  - right. apply negb_false_iff in H. now apply Z.eqb_eq in H.
Qed.

(** X15.  When the order routes end in an exception other than an
    [HTTPException].  GetOne, Cancel and Finalize do so exactly for a key
    that the database cannot hold, with an [OverflowError].  AddItem does
    so exactly for such a key, or, on an order that the caller may act
    on, for a body that fails the checks of its schema
    ([RequestValidationError]) or passes them with a quantity that the
    database cannot hold ([OverflowError]).  RemoveItem does so exactly
    for such a key, or when the item exists and its order does not
    ([AttributeError]); in a database built by requests from the empty
    one the latter never happens. *)
Theorem excecoes_das_rotas_de_pedidos :
  forall (usuario : Usuario.t) (b : Banco) (e : string),
    let fora (i : Z) :=
      e = "OverflowError" /\ int64 i = false /\ pedido_por_id b i = None in
    (forall i, fst (GET_pedido usuario i b) = Excecao e <-> fora i)
    /\ (forall i, fst (POST_cancelar usuario i b) = Excecao e <-> fora i)
    /\ (forall i, fst (POST_finalizar usuario i b) = Excecao e <-> fora i)
    /\ (forall i item_schema,
           fst (POST_itens usuario i item_schema b) = Excecao e <->
           fora i
           \/ exists p,
               pedido_por_id b i = Some p
               /\ (Usuario.admin usuario = true
                   \/ Usuario.id usuario = Pedido.usuario p)
               /\ (e = "RequestValidationError"
                   /\ corpo_valido item_schema = false
                   \/ e = "OverflowError"
                      /\ corpo_valido item_schema = true
                      /\ int64 (is_quantidade item_schema) = false))
    /\ (forall i,
           fst (DELETE_item usuario i b) = Excecao e <->
           e = "OverflowError" /\ int64 i = false /\ item_por_id b i = None
           \/ e = "AttributeError"
              /\ exists item,
                  item_por_id b i = Some item
                  /\ pedido_por_id b (ItemPedido.pedido item) = None)
    /\ (forall bcrypt_hash,
           alcancavel bcrypt_hash b ->
           forall i, int64 i = true ->
                     fst (DELETE_item usuario i b) <> Excecao e).
Proof.
  intros u b e fora.
  assert (Hrota : forall (h : Pedido.t -> Rota Pedido.t) i,
             (forall p, pedido_por_id b i = Some p ->
                        fst (executar (h p) b) <> Excecao e) ->
             fst (executar (pedido <- obter_pedido_autorizado i u ;;
                            h pedido) b) = Excecao e <-> fora i).
  { intros h i Hh. rewrite rota_de_pedido_casos. unfold fora.
    destruct (pedido_por_id b i) as [p|] eqn:Hp.
    - destruct (negb (Usuario.admin u) && _).
      + split; [discriminate | intros [_ [_ H]]; discriminate].
      + split; [intros H; now apply Hh in H
               | intros [_ [_ H]]; discriminate].
    - destruct (int64 i).
      + split; [discriminate | intros [_ [H _]]; discriminate].
      + simpl. split.
        * intros H. injection H as <-. auto.
        * intros [-> _]. reflexivity. }
  assert (Hdel : forall i,
             fst (DELETE_item u i b) = Excecao e <->
             e = "OverflowError" /\ int64 i = false /\ item_por_id b i = None
             \/ e = "AttributeError"
                /\ exists item,
                    item_por_id b i = Some item
                    /\ pedido_por_id b (ItemPedido.pedido item) = None).
  { intros i. rewrite DELETE_item_casos.
    destruct (item_por_id b i) as [it|] eqn:Hit.
    - destruct (pedido_por_id b (ItemPedido.pedido it)) as [p|] eqn:Hp.
      + assert (Hno : ~ (e = "OverflowError" /\ int64 i = false
                         /\ Some it = None
                         \/ e = "AttributeError"
                            /\ exists item,
                                Some it = Some item
                                /\ pedido_por_id b (ItemPedido.pedido item)
                                   = None)).
        { intros [[_ [_ H]] | [_ [x [Hx Hn]]]]; [discriminate|].
          injection Hx as <-. congruence. }
        destruct (negb (Usuario.admin u) && _).
        * split; [discriminate | intros H; now apply Hno in H].
        * rewrite (remover_item_pedido_exec b it p Hp).
          split; [discriminate | intros H; now apply Hno in H].
      + simpl. split.
        * intros H. injection H as <-. right. split; [reflexivity|]. eauto.
        * intros [[_ [_ H]] | [-> _]]; [discriminate | reflexivity].
    - destruct (int64 i); simpl.
      + split; [discriminate|].
        intros [[_ [H _]] | [_ [x [H _]]]]; discriminate.
      + split.
        * intros H. injection H as <-. left. auto.
        * intros [[-> _] | [_ [x [H _]]]]; [reflexivity | discriminate]. }
  cbv zeta. repeat match goal with |- _ /\ _ => split end.
  - intros i. apply Hrota. intros p _. discriminate.
  - intros i. apply Hrota. intros p Hp.
    pose proof (pedido_por_id_id _ _ _ Hp) as Hi. subst i.
    rewrite (cancelar_pedido_exec _ _ Hp).
    destruct (str_in (Pedido.status p) ["PENDENTE"; "EM_PREPARO"]);
      discriminate.
  - intros i. apply Hrota. intros p Hp.
    pose proof (pedido_por_id_id _ _ _ Hp) as Hi. subst i.
    rewrite (finalizar_pedido_exec _ _ Hp).
    destruct (String.eqb (Pedido.status p) "EM_PREPARO"); discriminate.
  - intros i sch. rewrite POST_itens_casos. unfold fora.
    destruct (pedido_por_id b i) as [p|] eqn:Hp.
    + destruct (negb (Usuario.admin u)
                && negb (Usuario.id u =? Pedido.usuario p)) eqn:G.
      * split; [discriminate|].
        intros [[_ [_ H]] | [x [Hx [Ha _]]]]; [discriminate|].
        injection Hx as <-. apply guarda_casos in Ha. congruence.
      * apply guarda_casos in G.
        pose proof (pedido_por_id_id _ _ _ Hp) as Hi. subst i.
        destruct (corpo_valido sch) eqn:Hv.
        -- destruct (int64 (is_quantidade sch)) eqn:Hq.
           ++ rewrite (adicionar_item_pedido_exec b p sch Hp Hq).
              split; [discriminate|].
              intros [[_ [_ H]] | [x [_ [_ [[_ H] | [_ [_ H]]]]]]];
                discriminate.
           ++ rewrite (adicionar_item_pedido_overflow b p sch Hq). simpl.
              split.
              ** intros H. injection H as <-. right. exists p.
                 split; [reflexivity|]. split; [exact G|]. right. auto.
              ** intros [[_ [_ H]] | [x [_ [_ [[_ H] | [-> _]]]]]];
                   try discriminate. reflexivity.
        -- simpl. split.
           ++ intros H. injection H as <-. right. exists p.
              split; [reflexivity|]. split; [exact G|]. left. auto.
           ++ intros [[_ [_ H]] | [x [_ [_ [[-> _] | [_ [H _]]]]]]];
                try discriminate. reflexivity.
    + destruct (int64 i); simpl.
      * split; [discriminate|].
        intros [[_ [H _]] | [x [H _]]]; discriminate.
      * split.
        -- intros H. injection H as <-. left. auto.
        -- intros [[-> _] | [x [H _]]]; [reflexivity | discriminate].
  - exact Hdel.
  - intros h Halc i Hi Hex. apply Hdel in Hex.
    destruct Hex as [[_ [H _]] | [_ [it [Hit Hn]]]]; [congruence|].
    assert (Hb : bem_formado b).
    { clear -Halc. induction Halc as [|b r _ IH].
      - split; [|split]; [intros it [] | constructor | intros p []].
      - now apply atender_bem_formado. }
    destruct Hb as [Hint _]. apply find_some in Hit. destruct Hit as [Hit _].
    destruct (Hint it Hit) as [p Hp]. congruence.
Qed.

(** An item whose order was taken out of the table by hand, and a key
    that is one more than SQLite holds. *)
Lemma excecoes_das_rotas_de_pedidos_witness :
  fst (DELETE_item raiz 1
         {| usuarios := [raiz]; pedidos := []; itens_pedido := [burger] |}) =
  Excecao "AttributeError"
  /\ (forall i, int64 i = true ->
                fst (DELETE_item raiz i
                       (atender bcrypt_hash_exemplo (ReqCriarPedido ana)
                          banco_vazio)) <> Excecao "AttributeError").
Proof.
  split.
  - apply (proj2 (proj1 (proj2 (proj2 (proj2 (proj2
             (excecoes_das_rotas_de_pedidos raiz
                {| usuarios := [raiz]; pedidos := [];
                   itens_pedido := [burger] |} "AttributeError")))))
             1)).
    right. split; [reflexivity|]. exists burger. split; reflexivity.
  - apply (proj2 (proj2 (proj2 (proj2 (proj2
             (excecoes_das_rotas_de_pedidos raiz
                (atender bcrypt_hash_exemplo (ReqCriarPedido ana) banco_vazio)
                "AttributeError")))))
             bcrypt_hash_exemplo).
    apply alc_passo. apply alc_vazio.
Defined.

(** ** One account's requests and another account's orders *)

(** X16.  What an account that is not an admin does cannot reach the
    orders of another account.  Let item keys be distinct and let the
    order under some key belong to someone else.  Then after any Cancel,
    Finalize, AddItem or RemoveItem that the account requests, with any
    key and any body, that order has the same row (status, price, owner)
    and the same items as before. *)
Theorem isolamento_entre_contas :
  forall (usuario : Usuario.t) (b : Banco) (j : Z) (alheio : Pedido.t),
    Usuario.admin usuario = false ->
    chaves_unicas b ->
    pedido_por_id b j = Some alheio ->
    Pedido.usuario alheio <> Usuario.id usuario ->
    forall b' : Banco,
      (exists i, b' = snd (POST_cancelar usuario i b))
      \/ (exists i, b' = snd (POST_finalizar usuario i b))
      \/ (exists i item_schema, b' = snd (POST_itens usuario i item_schema b))
      \/ (exists i, b' = snd (DELETE_item usuario i b)) ->
      pedido_por_id b' j = Some alheio /\ itens_de b' j = itens_de b j.
Proof.
  intros u b j q Hna Hc Hq Hd b' Hb'.
  assert (Hguard : forall p,
             negb (Usuario.admin u) && negb (Usuario.id u =? Pedido.usuario p)
             = false -> Pedido.usuario p = Usuario.id u).
  { intros p H. rewrite Hna in H. simpl in H.
    apply negb_false_iff, Z.eqb_eq in H. congruence. }
  assert (Hup : forall b0 i p p',
             pedidos b0 = pedidos b ->
             pedido_por_id b i = Some p -> Pedido.id p' = i ->
             Pedido.usuario p = Usuario.id u ->
             pedido_por_id (atualizar b0 p') j = Some q).
  { intros b0 i p p' Hb0 Hp Hi Hu. rewrite pedido_por_id_apos_atualizar.
    assert (E0 : forall k, pedido_por_id b0 k = pedido_por_id b k)
      by (intros k; unfold pedido_por_id; now rewrite Hb0).
    rewrite E0.
    destruct (Pedido.id p' =? j) eqn:E; [|exact Hq].
    apply Z.eqb_eq in E. subst i. rewrite E, Hq in Hp.
    injection Hp as <-. contradiction. }
  destruct Hb' as [[i ->] | [[i ->] | [[i [sch ->]] | [i ->]]]].
  - rewrite POST_cancelar_casos.
    destruct (pedido_por_id b i) as [p|] eqn:Hp;
      [|destruct (int64 i); auto].
    destruct (negb (Usuario.admin u) && _) eqn:G; [auto|].
    apply Hguard in G.
    pose proof (pedido_por_id_id _ _ _ Hp) as Hi.
    rewrite <- Hi in Hp. rewrite (cancelar_pedido_exec _ _ Hp).
    destruct (str_in (Pedido.status p) ["PENDENTE"; "EM_PREPARO"]); [|auto].
    cbn [snd]. split; [|reflexivity].
    exact (Hup b (Pedido.id p) p (Pedido.com_status "CANCELADO" p)
             eq_refl Hp eq_refl G).
  - rewrite POST_finalizar_casos.
    destruct (pedido_por_id b i) as [p|] eqn:Hp;
      [|destruct (int64 i); auto].
    destruct (negb (Usuario.admin u) && _) eqn:G; [auto|].
    apply Hguard in G.
    pose proof (pedido_por_id_id _ _ _ Hp) as Hi.
    rewrite <- Hi in Hp. rewrite (finalizar_pedido_exec _ _ Hp).
    destruct (String.eqb (Pedido.status p) "EM_PREPARO"); [|auto].
    cbn [snd]. split; [|reflexivity].
    exact (Hup b (Pedido.id p) p (Pedido.com_status "FINALIZADO" p)
             eq_refl Hp eq_refl G).
  - destruct (POST_itens_grava u i sch b)
      as [-> | [p [Hp [Ha [_ [Hqt ->]]]]]]; [auto|].
    assert (G : Pedido.usuario p = Usuario.id u)
      by (destruct Ha as [Ha | Ha]; congruence).
    pose proof (pedido_por_id_id _ _ _ Hp) as Hi.
    rewrite <- Hi in Hp. rewrite (adicionar_item_pedido_exec b p sch Hp Hqt).
    cbn [snd]. split.
    + exact (Hup _ (Pedido.id p) p (Pedido.com_preco _ p)
               eq_refl Hp eq_refl G).
    + rewrite itens_de_atualizar, itens_de_inserir_item. simpl.
      destruct (Pedido.id p =? j) eqn:E; [|now rewrite List.app_nil_r].
      apply Z.eqb_eq in E. rewrite E, Hq in Hp. injection Hp as <-.
      contradiction.
  - rewrite DELETE_item_casos.
    destruct (item_por_id b i) as [it|] eqn:Hit;
      [|destruct (int64 i); auto].
    destruct (pedido_por_id b (ItemPedido.pedido it)) as [p|] eqn:Hp; [|auto].
    destruct (negb (Usuario.admin u) && _) eqn:G; [auto|].
    apply Hguard in G.
    rewrite (remover_item_pedido_exec b it p Hp). cbn [snd]. split.
    + apply (Hup (apagar b it) (ItemPedido.pedido it) p (Pedido.com_preco _ p)
               eq_refl Hp); [|exact G].
      simpl. now apply pedido_por_id_id in Hp.
    + rewrite itens_de_atualizar. apply itens_de_apagar_outro.
      * exact Hc.
      * now apply find_some in Hit.
      * intros E. rewrite E, Hq in Hp. injection Hp as <-. contradiction.
Qed.

(** Bia tries to remove the burger of Ana's order. *)
Lemma isolamento_entre_contas_witness :
  pedido_por_id (snd (DELETE_item bia 1 banco_exemplo)) 1 =
  Some (Pedido.Build 1 "FINALIZADO" 1 20)
  /\ itens_de (snd (DELETE_item bia 1 banco_exemplo)) 1 =
     itens_de banco_exemplo 1.
Proof.
  apply (isolamento_entre_contas bia banco_exemplo 1
           (Pedido.Build 1 "FINALIZADO" 1 20)).
  - reflexivity.
  - unfold chaves_unicas. simpl.
    repeat constructor; simpl; intuition discriminate.
  - reflexivity.
  - simpl. lia.
  - right. right. right. exists 1. reflexivity.
Defined.

(** X17.  The form login is the JSON login without the refresh token.
    On the same credentials, at the same moment and on the same database,
    [login_form] fails exactly when [login] fails, with the same 401 or,
    where the verification of the password raised, with the same
    exception, and otherwise returns the same access token and token
    type, and no refresh token. *)
Theorem login_form_e_login :
  forall (jwt_encode : Claims -> string)
         (bcrypt_verify : string -> string -> string + bool)
         (ACCESS_TOKEN_EXPIRE_MINUTES agora : Z) (username password : string)
         (b : Banco),
    match POST_login jwt_encode bcrypt_verify ACCESS_TOKEN_EXPIRE_MINUTES agora
            {| ls_email := username; ls_senha := password |} b with
    | (Retorno tokens, b') =>
        POST_login_form jwt_encode bcrypt_verify ACCESS_TOKEN_EXPIRE_MINUTES
          agora username password b =
        (Retorno {| access_token := access_token tokens;
                    refresh_token := None;
                    token_type := token_type tokens |}, b')
        /\ exists t, refresh_token tokens = Some t
    | (HTTPException c d h, b') =>
        POST_login_form jwt_encode bcrypt_verify ACCESS_TOKEN_EXPIRE_MINUTES
          agora username password b = (HTTPException c d h, b')
        /\ c = 401
    | (Excecao e, b') =>
        POST_login_form jwt_encode bcrypt_verify ACCESS_TOKEN_EXPIRE_MINUTES
          agora username password b = (Excecao e, b')
        /\ exists u : Usuario.t,
            usuario_por_email b username = Some u
            /\ bcrypt_verify password (Usuario.senha u) = inl e
    end.
Proof.
  intros je bv A agora un pw b.
  rewrite login_casos, login_form_casos, !autenticar_usuario_casos. simpl.
  destruct (usuario_por_email b un) as [u|]; [|now split].
  destruct (bv pw (Usuario.senha u)) as [e|[|]] eqn:Hv; [|  |now split].
  - split; [reflexivity|]. exists u. now split.
  - split; [reflexivity | eexists; reflexivity].
Qed.
